(** * libsc, version 3 core: error objects, stamp arena, single-process MPI

    A shallow embedding of

    - [src/sc_dummympi.c]   (module [DummyMPI]),
    - [src/sc3_error.h]     (module [Error]: the kind enumeration and the
                             SC3E / SC3A macro families),
    - [src/sc3_memstamp.c]  (module [Mstamp]: queries, setters, getters),

    together with models, written from the specification, of the functions
    that the header only declares ([sc3_error.c]) and of the arena operations
    whose code is not part of the sources ([Arena]).

    Conventions.  A C pointer is an [option]: [None] is [NULL].  An [int] or
    [size_t] that is only stored and compared is a [Z].  An output parameter
    is passed as the optional cell it points to and handed back with its new
    content.  A dereference of [NULL] is the outcome [Undefined]. *)

From Stdlib Require Import ZArith String List Bool Lia.
From stdpp Require Import base option gmap strings.

Local Open Scope string_scope.
Local Open Scope Z_scope.

(** Result of running a C function: it returns, or it dereferences [NULL]. *)
Inductive outcome (A : Type) : Type :=
| Returns (a : A)
| Undefined.
Arguments Returns {A} a.
Arguments Undefined {A}.

(* ===================================================================== *)
(** ** sc_dummympi.c *)
(* ===================================================================== *)

Module DummyMPI.

Section Dummy.

(** [sc_dummympi.h] is not part of the sources: the communicator type and
    the value of [MPI_SUCCESS] are parameters. *)
Variable MPI_Comm : Type.
Variable MPI_SUCCESS : Z.

Definition MPI_Init {ARGC ARGV : Type} (argc : option ARGC)
    (argv : option ARGV) : Z :=
  MPI_SUCCESS.

Definition MPI_Finalize : Z := MPI_SUCCESS.

(** [*size = 1; return MPI_SUCCESS;]  The result pairs the return value
    with the new content of the cell. *)
Definition MPI_Comm_size (comm : MPI_Comm) (size : option Z)
    : outcome (Z * Z) :=
  match size with
  | None => Undefined
  | Some _ => Returns (MPI_SUCCESS, 1)
  end.

Definition MPI_Comm_rank (comm : MPI_Comm) (rank : option Z)
    : outcome (Z * Z) :=
  match rank with
  | None => Undefined
  | Some _ => Returns (MPI_SUCCESS, 0)
  end.

End Dummy.

End DummyMPI.

(* ===================================================================== *)
(** ** sc3_base.h: bounded strings *)
(* ===================================================================== *)

Module Base.

Section Buffers.

(** Modelled from the spec: [sc3_base.h] is missing; it defines the fixed
    maximum length [SC3_BUFSIZE] of all message and reason strings, and the
    bounded writers [sc3_snprintf] and [SC3_BUFCOPY].  A buffer of
    [SC3_BUFSIZE] bytes holds at most [SC3_BUFSIZE - 1] characters and the
    terminating NUL. *)
Variable SC3_BUFSIZE : nat.

(** Modelled from the spec: [sc3_snprintf] is missing; it writes the
    formatted text cut to [size - 1] characters. *)
Definition sc3_snprintf (size : nat) (formatted : string) : string :=
  substring 0 (size - 1) formatted.

(** Modelled from the spec: [SC3_BUFCOPY] is missing; it copies a string
    into a buffer of [SC3_BUFSIZE] bytes. *)
Definition SC3_BUFCOPY (s : string) : string :=
  sc3_snprintf SC3_BUFSIZE s.

(** The format ["%s(%s): %s"] of [SC3E_IS] and [SC3E_DEMIS]. *)
Definition fmt_is (f o r : string) : string :=
  f ++ "(" ++ o ++ "): " ++ r.

(** The format ["%s: %s"] of [SC3E_DEMAND]. *)
Definition fmt_demand (x s : string) : string :=
  x ++ ": " ++ s.

End Buffers.

End Base.

(* ===================================================================== *)
(** ** sc3_error.h: the error object *)
(* ===================================================================== *)

Module Error.

(** [enum sc3_error_kind]; the guard [SC3_ERROR_KIND_LAST] is not a kind. *)
Inductive sc3_error_kind_t : Set :=
| SC3_ERROR_FATAL
| SC3_ERROR_WARNING
| SC3_ERROR_RUNTIME
| SC3_ERROR_BUG
| SC3_ERROR_MEMORY
| SC3_ERROR_NETWORK
| SC3_ERROR_LEAK
| SC3_ERROR_IO
| SC3_ERROR_USER.

#[global] Instance sc3_error_kind_eq_dec : EqDecision sc3_error_kind_t.
Proof. solve_decision. Defined.

(** Modelled from the spec: [struct sc3_error] is opaque in the header and
    [sc3_error.c] is missing.  The fields are those of the data model: kind,
    bounded message, location, optional owned cause ([stack]), reference
    count, phase, and the tag that tells heap objects ([alloced]) from the
    static fallback objects. *)
Record sc3_error : Type := mk_error {
  rc : Z;
  setup : bool;
  alloced : bool;
  kind : sc3_error_kind_t;
  errmsg : string;
  filename : string;
  line : Z;
  stack : option positive
}.

(** Modelled from the spec: the memory that holds the error objects is not
    part of the sources.  [objs] maps the address of every live error
    object, static or allocated, to its content; [avail] is the number of
    allocation requests that the allocator will still grant, so that a failing
    [malloc] is part of the model. *)
Record estore : Type := mk_estore {
  objs : gmap positive sc3_error;
  avail : nat
}.

Definition set_objs (st : estore) (m : gmap positive sc3_error) : estore :=
  {| objs := m; avail := avail st |}.

Definition with_rc (o : sc3_error) (n : Z) : sc3_error :=
  {| rc := n; setup := setup o; alloced := alloced o; kind := kind o;
     errmsg := errmsg o; filename := filename o; line := line o;
     stack := stack o |}.

Definition with_kind (o : sc3_error) (k : sc3_error_kind_t) : sc3_error :=
  {| rc := rc o; setup := setup o; alloced := alloced o; kind := k;
     errmsg := errmsg o; filename := filename o; line := line o;
     stack := stack o |}.

Definition with_setup (o : sc3_error) (b : bool) : sc3_error :=
  {| rc := rc o; setup := b; alloced := alloced o; kind := kind o;
     errmsg := errmsg o; filename := filename o; line := line o;
     stack := stack o |}.

(** Modelled from the spec: the allocation inside the constructors is
    missing; it places one error object at an unused address, or fails. *)
Definition ealloc (st : estore) (o : sc3_error) : option (positive * estore) :=
  match avail st with
  | O => None
  | S n =>
      let p := fresh (dom (objs st)) in
      Some (p, {| objs := <[p := o]> (objs st); avail := n |})
  end.

(** Modelled from the spec: the body of [sc3_error_unref] is missing; this
    is dropping one reference to the object at [p].  A static object is left
    alone; an object with further references is decremented; the last
    reference deallocates the object and drops its reference to the cause.
    Every recursive call follows a deallocation, so [S (size m)] steps are
    enough on a store [m]. *)
Fixpoint release (fuel : nat) (m : gmap positive sc3_error) (p : positive)
    : gmap positive sc3_error :=
  match fuel with
  | O => m
  | S fuel' =>
      match m !! p with
      | None => m
      | Some o =>
          if negb (alloced o) then m
          else if 1 <? rc o then <[p := with_rc o (rc o - 1)]> m
          else
            match stack o with
            | None => delete p m
            | Some q => release fuel' (delete p m) q
            end
      end
  end.

(** What one successful allocation of the object [o] at [p] does. *)
Inductive allocated (st : estore) (o : sc3_error) (p : positive)
    (st' : estore) : Prop :=
| allocated_at :
    objs st !! p = None ->
    objs st' = <[p := o]> (objs st) ->
    S (avail st') = avail st ->
    allocated st o p st'.

(** [keeps_static st st']: every setup object of [st] that was not allocated
    is found unchanged in [st']. *)
Definition keeps_static (st st' : estore) : Prop :=
  forall p o, objs st !! p = Some o -> alloced o = false ->
              setup o = true -> objs st' !! p = Some o.

Section Functions.

(** Bound of the message buffer ([sc3_base.h]). *)
Variable SC3_BUFSIZE : nat.

(** Address of the static object that the constructors fall back to when
    allocation fails. *)
Variable efallback : positive.

(** *** Queries *)

(** Modelled from the spec: [sc3_error_is_valid] is only declared.  An
    error is valid when the
    pointer is not [NULL], refers to a live object with a positive
    reference count, and its cause, if present, is itself setup.  The
    reason text is not modelled. *)
Definition sc3_error_is_valid (st : estore) (e : option positive) : bool :=
  match e with
  | None => false
  | Some p =>
      match objs st !! p with
      | None => false
      | Some o =>
          (0 <? rc o) &&
          match stack o with
          | None => true
          | Some q =>
              match objs st !! q with
              | None => false
              | Some c => setup c
              end
          end
      end
  end.

(** Modelled from the spec: the phase of the object behind a handle, SETUP
    ([true]) or NEW. *)
Definition phase (st : estore) (e : option positive) : bool :=
  match e ≫= (fun p => objs st !! p) with
  | None => false
  | Some o => setup o
  end.

(** Modelled from the spec: [sc3_error_is_new] is only declared; "true iff
    pointer not NULL, error consistent, not setup". *)
Definition sc3_error_is_new (st : estore) (e : option positive) : bool :=
  sc3_error_is_valid st e && negb (phase st e).

(** Modelled from the spec: [sc3_error_is_setup] is only declared; "true iff
    pointer not NULL, error consistent and setup". *)
Definition sc3_error_is_setup (st : estore) (e : option positive) : bool :=
  sc3_error_is_valid st e && phase st e.

(** The kinds that the header documents as fatal. *)
Definition fatal_kind (k : sc3_error_kind_t) : bool :=
  match k with
  | SC3_ERROR_FATAL | SC3_ERROR_BUG | SC3_ERROR_MEMORY
  | SC3_ERROR_NETWORK => true
  | _ => false
  end.

(** Modelled from the spec: [sc3_error_is_fatal] is only declared; "true if
    error is not NULL, setup, and is of a fatal kind, false otherwise". *)
Definition sc3_error_is_fatal (st : estore) (e : option positive) : bool :=
  sc3_error_is_setup st e &&
  match e ≫= (fun p => objs st !! p) with
  | None => false
  | Some o => fatal_kind (kind o)
  end.

(** Modelled from the spec: [sc3_error_is_leak] is only declared; "true iff
    error is not NULL, setup, and a leak". *)
Definition sc3_error_is_leak (st : estore) (e : option positive) : bool :=
  sc3_error_is_setup st e &&
  match e ≫= (fun p => objs st !! p) with
  | None => false
  | Some o => bool_decide (kind o = SC3_ERROR_LEAK)
  end.

(** *** Constructors that cannot fail *)

(** Modelled from the spec: [sc3_error_new_kind] is only declared.  The
    object is returned setup, with one reference and no cause; the message
    is copied into the bounded buffer.  "If internal allocation fails,
    return a working static error object." *)
Definition sc3_error_new_kind (st : estore) (k : sc3_error_kind_t)
    (file : string) (ln : Z) (msg : string) : estore * option positive :=
  match ealloc st {| rc := 1; setup := true; alloced := true; kind := k;
                     errmsg := Base.SC3_BUFCOPY SC3_BUFSIZE msg;
                     filename := Base.SC3_BUFCOPY SC3_BUFSIZE file;
                     line := ln; stack := None |} with
  | Some (p, st') => (st', Some p)
  | None => (st, Some efallback)
  end.

(** Modelled from the spec: [sc3_error_new_bug] is only declared; "create a
    new error of the kind SC3_ERROR_BUG". *)
Definition sc3_error_new_bug (st : estore) (file : string) (ln : Z)
    (msg : string) : estore * option positive :=
  sc3_error_new_kind st SC3_ERROR_BUG file ln msg.

(** Modelled from the spec: [sc3_error_new_stack] is only declared; "stack
    a given error into a new one of the kind SC3_ERROR_FATAL", taking
    ownership of the cause without adding a reference. *)
Definition sc3_error_new_stack (st : estore) (pstack : option positive)
    (file : string) (ln : Z) (msg : string) : estore * option positive :=
  match ealloc st {| rc := 1; setup := true; alloced := true;
                     kind := SC3_ERROR_FATAL;
                     errmsg := Base.SC3_BUFCOPY SC3_BUFSIZE msg;
                     filename := Base.SC3_BUFCOPY SC3_BUFSIZE file;
                     line := ln; stack := pstack |} with
  | Some (p, st') => (st', Some p)
  | None => (st, Some efallback)
  end.

(** *** Two-phase construction and reference counting *)

(** Source file name used for the errors raised inside [sc3_error.c]; its
    line numbers are unknown and set to 0. *)
Definition here : string := "sc3_error.c".

(** Modelled from the spec: [sc3_error_new] is only declared.  The new
    object is in phase NEW with the documented defaults: kind FATAL, empty
    message, location ("", 0), no cause.  The result is the store, the value
    written to [*ep] and the returned error.  The allocator argument is
    represented by the budget [avail] of the store. *)
Definition sc3_error_new (st : estore)
    : estore * option positive * option positive :=
  match ealloc st {| rc := 1; setup := false; alloced := true;
                     kind := SC3_ERROR_FATAL; errmsg := ""; filename := "";
                     line := 0; stack := None |} with
  | Some (p, st') => (st', Some p, None)
  | None => (st, None, Some efallback)
  end.

(** Modelled from the spec: [sc3_error_set_kind] is only declared; valid
    only in phase NEW, otherwise rejected with a BUG error and no change. *)
Definition sc3_error_set_kind (st : estore) (e : option positive)
    (k : sc3_error_kind_t) : estore * option positive :=
  if sc3_error_is_new st e then
    match e with
    | Some p => (set_objs st (alter (fun o => with_kind o k) p (objs st)),
                 None)
    | None => (st, None)
    end
  else sc3_error_new_bug st here 0 "sc3_error_is_new(e)".

(** Modelled from the spec: [sc3_error_setup] is only declared; it ends
    phase NEW. *)
Definition sc3_error_setup (st : estore) (e : option positive)
    : estore * option positive :=
  if sc3_error_is_new st e then
    match e with
    | Some p => (set_objs st (alter (fun o => with_setup o true) p (objs st)),
                 None)
    | None => (st, None)
    end
  else sc3_error_new_bug st here 0 "sc3_error_is_new(e)".

(** Modelled from the spec: [sc3_error_ref] is only declared; valid only in
    phase SETUP; "does nothing if error has not been created by
    sc3_error_new". *)
Definition sc3_error_ref (st : estore) (e : option positive)
    : estore * option positive :=
  if sc3_error_is_setup st e then
    match e ≫= (fun p => (fun o => (p, o)) <$> objs st !! p) with
    | Some (p, o) =>
        if alloced o
        then (set_objs st (<[p := with_rc o (rc o + 1)]> (objs st)), None)
        else (st, None)
    | None => (st, None)
    end
  else sc3_error_new_bug st here 0 "sc3_error_is_setup(e)".

(** Modelled from the spec: [sc3_error_unref] is only declared.  "The
    refcount is decreased.  If it reaches zero, the error is deallocated and
    the value [set] to NULL."  The result is the store, the new value of
    [*ep] and the returned error. *)
Definition sc3_error_unref (st : estore) (ep : option positive)
    : estore * option positive * option positive :=
  if sc3_error_is_setup st ep then
    match ep ≫= (fun p => (fun o => (p, o)) <$> objs st !! p) with
    | Some (p, o) =>
        if negb (alloced o) then (st, ep, None)
        else
          (set_objs st (release (S (size (objs st))) (objs st) p),
           if 1 <? rc o then ep else None,
           None)
    | None => (st, ep, None)
    end
  else
    let '(st', b) := sc3_error_new_bug st here 0 "sc3_error_is_setup(e)" in
    (st', ep, b).

(** Modelled from the spec: [sc3_error_destroy] is only declared.  It
    "takes an error object with one remaining reference and deallocates
    it", is [unref] combined with the test that the count is exactly 1, and
    "when the error had more than one reference, return[s] an error of kind
    SC3_ERROR_LEAK"; the handle is "NULL on output".  A multiply referenced
    object loses the one reference of the caller and stays alive.  It "does
    nothing if [...] it is a static fallback". *)
Definition sc3_error_destroy (st : estore) (ep : option positive)
    : estore * option positive * option positive :=
  if sc3_error_is_setup st ep then
    match ep ≫= (fun p => (fun o => (p, o)) <$> objs st !! p) with
    | Some (p, o) =>
        if negb (alloced o) then (st, ep, None)
        else if rc o =? 1 then sc3_error_unref st ep
        else
          let '(st1, _, _) := sc3_error_unref st ep in
          let '(st2, leak) :=
            sc3_error_new_kind st1 SC3_ERROR_LEAK here 0
                               "sc3_refcount_is_last" in
          (st2, None, leak)
    | None => (st, ep, None)
    end
  else
    let '(st', b) := sc3_error_new_bug st here 0 "sc3_error_is_setup(e)" in
    (st', ep, b).

(** Modelled from the spec: [sc3_error_get_kind] is only declared.  [kind]
    is the cell the output pointer refers to, [None] for a NULL pointer,
    which "is not assigned". *)
Definition sc3_error_get_kind (st : estore) (e : option positive)
    (kind_out : option sc3_error_kind_t)
    : estore * option sc3_error_kind_t * option positive :=
  if sc3_error_is_setup st e then
    match e ≫= (fun p => objs st !! p) with
    | Some o => (st, (fun _ => kind o) <$> kind_out, None)
    | None => (st, kind_out, None)
    end
  else
    let '(st', b) := sc3_error_new_bug st here 0 "sc3_error_is_setup(e)" in
    (st', kind_out, b).

(** *** Macros for proceeding without returning (sc3_error.h, 205-225) *)

(** An expression of type [sc3_error_t *] is evaluated in the error store
    and the rest [X] of the program state, and may change both. *)
Definition expr (X : Type) : Type :=
  estore * X -> estore * X * option positive.

(** [SC3E_SET(e,f)]: the value of [e] before the macro is not read. *)
Definition SC3E_SET {X : Type} (f : expr X) (ftext file : string) (ln : Z)
    (w : estore * X) (e : option positive) : estore * X * option positive :=
  let '(st1, x1, _e) := f w in
  match _e with
  | Some _ =>
      let '(st2, r) := sc3_error_new_stack st1 _e file ln ftext in
      (st2, x1, r)
  | None => (st1, x1, None)
  end.

(** [SC3E_NULL_SET(e,f)]: [if ((e) == NULL) SC3E_SET(e,f);] *)
Definition SC3E_NULL_SET {X : Type} (f : expr X) (ftext file : string)
    (ln : Z) (w : estore * X) (e : option positive)
    : estore * X * option positive :=
  match e with
  | None => SC3E_SET f ftext file ln w e
  | Some _ => (w, e)
  end.

(** Content of a local buffer [char _r[SC3_BUFSIZE]] before it is written;
    indeterminate in C. *)
Definition uninit : string := "".

(** [SC3E_DEMIS(f,o)] around a query [f] that follows the [is_*]
    convention: the query runs on a local buffer [_r]; a false answer
    returns a BUG error whose message is formatted from the names and the
    reason.  [None] means that execution continues after the macro. *)
Definition SC3E_DEMIS {T : Type}
    (f : option T -> option string -> bool * option string)
    (ftext otext : string) (o : option T) (file : string) (ln : Z)
    (st : estore) : option (estore * option positive) :=
  let '(b, _r) := f o (Some uninit) in
  if b then None
  else
    let _errmsg :=
      Base.sc3_snprintf SC3_BUFSIZE
        (Base.fmt_is ftext otext (default "" _r)) in
    Some (sc3_error_new_bug st file ln _errmsg).

(** [SC3A_IS(f,o)]: [SC3E_DEMIS] when configured with [--enable-debug],
    [SC3_NOOP] otherwise. *)
Definition SC3A_IS {T : Type} (debug : bool)
    (f : option T -> option string -> bool * option string)
    (ftext otext : string) (o : option T) (file : string) (ln : Z)
    (st : estore) : option (estore * option positive) :=
  if debug then SC3E_DEMIS f ftext otext o file ln st else None.

(** *** Macros of the query functions (sc3_error.h, 239-276) *)

(** A statement inside an [sc3_object_is_*] function either falls through
    or returns 0, leaving the reason buffer with the given content. *)
Inductive test : Type :=
| Pass
| No (r : option string).

(** [SC3E_NO(r,reason)] *)
Definition SC3E_NO (r : option string) (reason : string)
    : bool * option string :=
  (false, (fun _ => Base.SC3_BUFCOPY SC3_BUFSIZE reason) <$> r).

(** [SC3E_YES(r)]: [(r)[0] = 0; return 1;] *)
Definition SC3E_YES (r : option string) : bool * option string :=
  (true, (fun _ => "") <$> r).

(** [SC3E_TEST(x,r)], with [xtext] the stringified condition [#x]. *)
Definition SC3E_TEST (x : bool) (xtext : string) (r : option string) : test :=
  if x then Pass
  else No ((fun _ => Base.SC3_BUFCOPY SC3_BUFSIZE xtext) <$> r).

(** [SC3E_IS(f,o,r)]: with [r == NULL] the query is called with [NULL],
    otherwise on a local buffer whose content is formatted into [r]. *)
Definition SC3E_IS {T : Type}
    (f : option T -> option string -> bool * option string)
    (ftext otext : string) (o : option T) (r : option string) : test :=
  match r with
  | None => if fst (f o None) then Pass else No None
  | Some _ =>
      let '(b, _r) := f o (Some uninit) in
      if b then Pass
      else No (Some (Base.sc3_snprintf SC3_BUFSIZE
                       (Base.fmt_is ftext otext (default "" _r))))
  end.

(** Sequencing of statements with early return. *)
Definition test_seq (t1 t2 : test) : test :=
  match t1 with
  | Pass => t2
  | No r => No r
  end.

Definition test_then (t : test) (k : bool * option string)
    : bool * option string :=
  match t with
  | Pass => k
  | No r => (false, r)
  end.

(** *** Notions used to state the properties of the error object *)

(** The object that a constructor fills in. *)
Definition fresh_error (k : sc3_error_kind_t) (file : string) (ln : Z)
    (msg : string) (cause : option positive) : sc3_error :=
  {| rc := 1; setup := true; alloced := true; kind := k;
     errmsg := Base.SC3_BUFCOPY SC3_BUFSIZE msg;
     filename := Base.SC3_BUFCOPY SC3_BUFSIZE file;
     line := ln; stack := cause |}.

(** The static fallback object is present, setup and without a cause. *)
Definition fallback_ok (st : estore) : Prop :=
  exists o, objs st !! efallback = Some o /\ alloced o = false /\
            setup o = true /\ 0 < rc o /\ stack o = None.

(** A static sentinel: a setup object that was not allocated. *)
Definition sentinel (st : estore) (p : positive) : Prop :=
  exists o, objs st !! p = Some o /\ alloced o = false /\
            sc3_error_is_setup st (Some p) = true.

(** The calls of the error interface, and the store they leave. *)
Inductive call : Type :=
| call_new
| call_set_kind (e : option positive) (k : sc3_error_kind_t)
| call_setup (e : option positive)
| call_ref (e : option positive)
| call_unref (ep : option positive)
| call_destroy (ep : option positive)
| call_get_kind (e : option positive) (out : option sc3_error_kind_t)
| call_new_kind (k : sc3_error_kind_t) (file : string) (ln : Z)
    (msg : string)
| call_new_bug (file : string) (ln : Z) (msg : string)
| call_new_stack (cause : option positive) (file : string) (ln : Z)
    (msg : string).

Definition store_after (c : call) (st : estore) : estore :=
  match c with
  | call_new => fst (fst (sc3_error_new st))
  | call_set_kind e k => fst (sc3_error_set_kind st e k)
  | call_setup e => fst (sc3_error_setup st e)
  | call_ref e => fst (sc3_error_ref st e)
  | call_unref ep => fst (fst (sc3_error_unref st ep))
  | call_destroy ep => fst (fst (sc3_error_destroy st ep))
  | call_get_kind e out => fst (fst (sc3_error_get_kind st e out))
  | call_new_kind k file ln msg => fst (sc3_error_new_kind st k file ln msg)
  | call_new_bug file ln msg => fst (sc3_error_new_bug st file ln msg)
  | call_new_stack cause file ln msg =>
      fst (sc3_error_new_stack st cause file ln msg)
  end.

End Functions.

End Error.

(* ===================================================================== *)
(** ** sc3_memstamp.c *)
(* ===================================================================== *)

Module Mstamp.

Import Error.

Section Memstamp.

(** The types [sc3_refcount_t], [sc3_allocator_t] and [sc3_array_t] and
    their queries come from headers that are not part of the sources; they
    are parameters.  A query takes the object pointer and the reason buffer
    and gives back the answer and the buffer. *)
Context {sc3_refcount_t sc3_allocator_t sc3_array_t : Type}.
Variable sc3_refcount_is_valid :
  option sc3_refcount_t -> option string -> bool * option string.
Variable sc3_allocator_is_setup :
  option sc3_allocator_t -> option string -> bool * option string.
Variable sc3_array_is_valid :
  option sc3_array_t -> option string -> bool * option string.
Variable sc3_array_is_setup :
  option sc3_array_t -> option string -> bool * option string.

Variable SC3_BUFSIZE : nat.
Variable efallback : positive.

(** Expansion of [__FILE__] for this translation unit. *)
Variable FILE__ : string.

(** Whether the library is configured with [--enable-debug]. *)
Variable SC_ENABLE_DEBUG : bool.

(** [struct sc3_mstamp] *)
Record sc3_mstamp : Type := mk_mstamp {
  rc : sc3_refcount_t;
  aator : option sc3_allocator_t;
  setup : Z;
  scount : Z;
  initzero : Z;
  per_stamp : Z;
  esize : Z;
  ssize : Z;
  cur : option Z;
  cur_snext : Z;
  remember : option sc3_array_t;
  freed : option sc3_array_t
}.

Definition with_esize (m : sc3_mstamp) (v : Z) : sc3_mstamp :=
  {| rc := rc m; aator := aator m; setup := setup m; scount := scount m;
     initzero := initzero m; per_stamp := per_stamp m; esize := v;
     ssize := ssize m; cur := cur m; cur_snext := cur_snext m;
     remember := remember m; freed := freed m |}.

Definition with_ssize (m : sc3_mstamp) (v : Z) : sc3_mstamp :=
  {| rc := rc m; aator := aator m; setup := setup m; scount := scount m;
     initzero := initzero m; per_stamp := per_stamp m; esize := esize m;
     ssize := v; cur := cur m; cur_snext := cur_snext m;
     remember := remember m; freed := freed m |}.

Definition with_initzero (m : sc3_mstamp) (v : Z) : sc3_mstamp :=
  {| rc := rc m; aator := aator m; setup := setup m; scount := scount m;
     initzero := v; per_stamp := per_stamp m; esize := esize m;
     ssize := ssize m; cur := cur m; cur_snext := cur_snext m;
     remember := remember m; freed := freed m |}.

Notation "t ;;; k" := (test_then t k)
  (at level 100, k at level 200, right associativity, only parsing).
Abbreviation TEST := (SC3E_TEST SC3_BUFSIZE) (only parsing).
Abbreviation IS := (SC3E_IS SC3_BUFSIZE) (only parsing).

(** Lines 62-69: "check internal allocation logic depending on setup
    status". *)
Definition check_alloc_logic (m : sc3_mstamp) (reason : option string)
    : test :=
  if setup m =? 0 then
    TEST (bool_decide (cur m = None)) "mst->cur == NULL" reason
  else
    test_seq
      (TEST (bool_decide (cur m <> None) || (ssize m =? 0))
            "mst->cur != NULL || mst->ssize == 0" reason)
      (TEST (cur_snext m <? per_stamp m)
            "mst->cur_snext < mst->per_stamp" reason).

Definition sc3_mstamp_is_valid (mst : option sc3_mstamp)
    (reason : option string) : bool * option string :=
  TEST (bool_decide (mst <> None)) "mst != NULL" reason ;;;
  match mst with
  | None => (false, reason) (* not reached *)
  | Some m =>
      IS sc3_refcount_is_valid "sc3_refcount_is_valid" "&mst->rc"
         (Some (rc m)) reason ;;;
      IS sc3_allocator_is_setup "sc3_allocator_is_setup" "mst->aator"
         (aator m) reason ;;;
      IS sc3_array_is_valid "sc3_array_is_valid" "mst->remember"
         (remember m) reason ;;;
      IS sc3_array_is_valid "sc3_array_is_valid" "mst->freed"
         (freed m) reason ;;;
      check_alloc_logic m reason ;;;
      SC3E_YES reason
  end.

Definition sc3_mstamp_is_new (mst : option sc3_mstamp)
    (reason : option string) : bool * option string :=
  IS sc3_mstamp_is_valid "sc3_mstamp_is_valid" "mst" mst reason ;;;
  match mst with
  | None => (false, reason) (* not reached *)
  | Some m =>
      TEST (setup m =? 0) "!mst->setup" reason ;;;
      SC3E_YES reason
  end.

Definition sc3_mstamp_is_setup (mst : option sc3_mstamp)
    (reason : option string) : bool * option string :=
  IS sc3_mstamp_is_valid "sc3_mstamp_is_valid" "mst" mst reason ;;;
  match mst with
  | None => (false, reason) (* not reached *)
  | Some m =>
      IS sc3_array_is_setup "sc3_array_is_setup" "mst->remember"
         (remember m) reason ;;;
      IS sc3_array_is_setup "sc3_array_is_setup" "mst->freed"
         (freed m) reason ;;;
      TEST (negb (setup m =? 0)) "mst->setup" reason ;;;
      SC3E_YES reason
  end.

(** The setters.  The result is the error store, the object behind [mst]
    after the call, and the returned error. *)
Definition setter (ln : Z) (upd : sc3_mstamp -> sc3_mstamp) (st : estore)
    (mst : option sc3_mstamp)
    : outcome (estore * option sc3_mstamp * option positive) :=
  match SC3A_IS SC3_BUFSIZE efallback SC_ENABLE_DEBUG
                sc3_mstamp_is_new "sc3_mstamp_is_new" "mst" mst
                FILE__ ln st with
  | Some (st', e) => Returns (st', mst, e)
  | None =>
      match mst with
      | None => Undefined
      | Some m => Returns (st, Some (upd m), None)
      end
  end.

Definition sc3_mstamp_set_elem_size (st : estore)
    (mst : option sc3_mstamp) (esize : Z) :=
  setter 94 (fun m => with_esize m esize) st mst.

Definition sc3_mstamp_set_stamp_size (st : estore)
    (mst : option sc3_mstamp) (ssize : Z) :=
  setter 102 (fun m => with_ssize m ssize) st mst.

Definition sc3_mstamp_set_initzero (st : estore)
    (mst : option sc3_mstamp) (initzero : Z) :=
  setter 110 (fun m => with_initzero m initzero) st mst.

(** [SC3E_RETOPT(r,v)] *)
Definition SC3E_RETOPT {A : Type} (r : option A) (v : A) : option A :=
  (fun _ => v) <$> r.

(** The getters.  [out] is the cell behind the output pointer; the result
    is the error store, the cell after the call, and the returned error. *)
Definition getter (ln : Z) (field : sc3_mstamp -> Z) (st : estore)
    (mst : option sc3_mstamp) (out : option Z)
    : outcome (estore * option Z * option positive) :=
  let out0 := SC3E_RETOPT out 0 in
  match SC3A_IS SC3_BUFSIZE efallback SC_ENABLE_DEBUG
                sc3_mstamp_is_setup "sc3_mstamp_is_setup" "mst" mst
                FILE__ ln st with
  | Some (st', e) => Returns (st', out0, e)
  | None =>
      match out0 with
      | None => Returns (st, None, None)
      | Some _ =>
          match mst with
          | None => Undefined
          | Some m => Returns (st, Some (field m), None)
          end
      end
  end.

Definition sc3_mstamp_get_elem_size (st : estore)
    (mst : option sc3_mstamp) (out : option Z) :=
  getter 119 esize st mst out.

Definition sc3_mstamp_get_stamp_size (st : estore)
    (mst : option sc3_mstamp) (out : option Z) :=
  getter 131 ssize st mst out.

Definition sc3_mstamp_get_stamp_count (st : estore)
    (mst : option sc3_mstamp) (out : option Z) :=
  getter 143 scount st mst out.

(** *** Notions used to state the properties of the arena *)

(** The state of the reason buffer after a query that was given [reason]:
    a [NULL] buffer stays [NULL]; a buffer is left with a string that fits
    it, the empty string if the answer is true. *)
Definition reasoned (reason : option string) (res : bool * option string)
    : Prop :=
  match reason with
  | None => snd res = None
  | Some _ =>
      exists s, snd res = Some s /\
                (String.length s <= SC3_BUFSIZE - 1)%nat /\
                (fst res = true -> s = "")
  end.

(** The same for a statement that may fall through. *)
Definition reasoned_test (reason : option string) (t : test) : Prop :=
  match t with
  | Pass => True
  | No r => reasoned reason (false, r)
  end.

(** The answer that [SC3E_IS (f, o, reason)] obtains from the query [f]. *)
Definition ask {T : Type}
    (f : option T -> option string -> bool * option string)
    (o : option T) (reason : option string) : bool :=
  match reason with
  | None => fst (f o None)
  | Some _ => fst (f o (Some uninit))
  end.

(** The condition tested in lines 62-69. *)
Definition alloc_logic (m : sc3_mstamp) : Prop :=
  if setup m =? 0 then cur m = None
  else (cur m <> None \/ ssize m = 0) /\ cur_snext m < per_stamp m.

(** The invariant of the data model: in a setup arena with a current chunk
    the next index is below the number of elements per stamp, and an arena
    that is not setup has no current chunk. *)
Definition stamp_invariant (m : sc3_mstamp) : Prop :=
  (setup m <> 0 -> cur m <> None -> cur_snext m < per_stamp m) /\
  (setup m = 0 -> cur m = None).

(** The message of the BUG error that a failed assertion on the query
    [ftext] creates. *)
Definition assertion_message (ftext : string)
    (res : bool * option string) : string :=
  Base.sc3_snprintf SC3_BUFSIZE
    (Base.fmt_is ftext "mst" (default "" (snd res))).

(** What the assertion [SC3A_IS (sc3_mstamp_is_new, mst)] sees. *)
Definition seen_new (mst : option sc3_mstamp) : bool :=
  fst (sc3_mstamp_is_new mst (Some uninit)).

(** What the assertion [SC3A_IS (sc3_mstamp_is_setup, mst)] sees. *)
Definition seen_setup (mst : option sc3_mstamp) : bool :=
  fst (sc3_mstamp_is_setup mst (Some uninit)).

(** The contract of a setter that stores its argument with [upd] and
    carries its assertion in line [ln]. *)
Definition setter_contract
    (set : estore -> option sc3_mstamp -> Z ->
           outcome (estore * option sc3_mstamp * option positive))
    (upd : sc3_mstamp -> Z -> sc3_mstamp) (ln : Z) : Prop :=
  forall (st : estore) (mst : option sc3_mstamp) (v : Z),
    (forall m, mst = Some m -> seen_new mst = true ->
               set st mst v = Returns (st, Some (upd m v), None)) /\
    (SC_ENABLE_DEBUG = true -> seen_new mst = false ->
     exists st' e,
       set st mst v = Returns (st', mst, Some e) /\
       (avail st = O -> st' = st /\ e = efallback) /\
       (avail st <> O ->
        objs st !! e = None /\
        exists o, objs st' !! e = Some o /\ kind o = SC3_ERROR_BUG /\
                  filename o = Base.SC3_BUFCOPY SC3_BUFSIZE FILE__ /\
                  line o = ln)) /\
    (SC_ENABLE_DEBUG = false ->
     forall m, mst = Some m ->
               set st mst v = Returns (st, Some (upd m v), None)).

(** The contract of a getter of the field [field] that carries its
    assertion in line [ln]. *)
Definition getter_contract
    (get : estore -> option sc3_mstamp -> option Z ->
           outcome (estore * option Z * option positive))
    (field : sc3_mstamp -> Z) (ln : Z) : Prop :=
  forall (st : estore) (mst : option sc3_mstamp),
    (seen_setup mst = true -> get st mst None = Returns (st, None, None)) /\
    (forall m old, mst = Some m -> seen_setup mst = true ->
                   get st mst (Some old)
                   = Returns (st, Some (field m), None)) /\
    (SC_ENABLE_DEBUG = true -> seen_setup mst = false ->
     exists st' e,
       (forall old, get st mst (Some old) = Returns (st', Some 0, Some e)) /\
       get st mst None = Returns (st', None, Some e)).

End Memstamp.

Arguments sc3_mstamp : clear implicits.
Arguments mk_mstamp : clear implicits.

End Mstamp.

(* ===================================================================== *)
(** ** The arena operations (allocate, free_element) *)
(* ===================================================================== *)

Module Arena.

Import Error.

Section StampArena.

(** Modelled from the spec: the allocator abstraction ([sc3_alloc.h]) is
    missing; [malloc(size) -> pointer] is a parameter that gives the base
    address of the new block, or fails, and the allocator afterwards. *)
Context {sc3_allocator_t : Type}.
Variable sc3_allocator_malloc :
  sc3_allocator_t -> Z -> option Z * sc3_allocator_t.

(** Modelled from the spec: the functions that create, set up, allocate from
    and free into the arena are missing from [sc3_memstamp.c].  The record
    follows the data model of the stamp arena: sizes, [stamp_count], the
    [current] chunk and [current_next_index], the sequence [chunks], and the
    stack [free_list] with its top first.  Only addresses are represented;
    the content of the memory (and therefore the zero filling requested by
    [initzero]) is not. *)
Record arena : Type := mk_arena {
  is_setup : bool;
  allocator : sc3_allocator_t;
  element_size : Z;
  stamp_size : Z;
  elements_per_stamp : Z;
  initzero : bool;
  stamp_count : Z;
  current : option Z;
  current_next_index : Z;
  chunks : list Z;
  free_list : list Z
}.

Definition with_free_list (a : arena) (l : list Z) : arena :=
  {| is_setup := is_setup a; allocator := allocator a;
     element_size := element_size a; stamp_size := stamp_size a;
     elements_per_stamp := elements_per_stamp a; initzero := initzero a;
     stamp_count := stamp_count a; current := current a;
     current_next_index := current_next_index a; chunks := chunks a;
     free_list := l |}.

Definition with_next_index (a : arena) (i : Z) : arena :=
  {| is_setup := is_setup a; allocator := allocator a;
     element_size := element_size a; stamp_size := stamp_size a;
     elements_per_stamp := elements_per_stamp a; initzero := initzero a;
     stamp_count := stamp_count a; current := current a;
     current_next_index := i; chunks := chunks a;
     free_list := free_list a |}.

Definition with_allocator (a : arena) (al : sc3_allocator_t) : arena :=
  {| is_setup := is_setup a; allocator := al;
     element_size := element_size a; stamp_size := stamp_size a;
     elements_per_stamp := elements_per_stamp a; initzero := initzero a;
     stamp_count := stamp_count a; current := current a;
     current_next_index := current_next_index a; chunks := chunks a;
     free_list := free_list a |}.

(** Modelled from the spec: step 2 of [allocate]; the new chunk is appended
    to [chunks], becomes [current], the index restarts at 0 and
    [stamp_count] grows by one. *)
Definition with_new_chunk (a : arena) (base : Z) (al : sc3_allocator_t)
    : arena :=
  {| is_setup := is_setup a; allocator := al;
     element_size := element_size a; stamp_size := stamp_size a;
     elements_per_stamp := elements_per_stamp a; initzero := initzero a;
     stamp_count := stamp_count a + 1; current := Some base;
     current_next_index := 0; chunks := chunks a ++ [base];
     free_list := free_list a |}.

(** Modelled from the spec: what [allocate] hands back, a pointer or an
    error of some kind. *)
Inductive answer : Type :=
| Pointer (p : Z)
| Failure (k : sc3_error_kind_t).

(** Modelled from the spec: step 3 of [allocate], "return the address
    [current + current_next_index * elem_size], then increment
    [current_next_index]". *)
Definition carve (a : arena) : arena * answer :=
  match current a with
  | Some base =>
      (with_next_index a (current_next_index a + 1),
       Pointer (base + current_next_index a * element_size a))
  | None => (a, Failure SC3_ERROR_BUG)
  end.

(** Modelled from the spec: [allocate() -> pointer], "valid only when
    SETUP"; a call in another phase is rejected with a BUG error, a failure
    of the allocator is passed on as a fatal error. *)
Definition allocate (a : arena) : arena * answer :=
  if negb (is_setup a) then (a, Failure SC3_ERROR_BUG)
  else
    match free_list a with
    | p :: rest => (with_free_list a rest, Pointer p)
    | [] =>
        if bool_decide (current a = None)
           || (current_next_index a =? elements_per_stamp a)
        then
          match sc3_allocator_malloc (allocator a) (stamp_size a) with
          | (Some base, al) => carve (with_new_chunk a base al)
          | (None, al) => (with_allocator a al, Failure SC3_ERROR_FATAL)
          end
        else carve a
    end.

(** Modelled from the spec: [free_element(pointer)], "valid only when
    SETUP; pushes the pointer onto [free_list] without validating that it
    actually originated from this arena". *)
Definition free_element (a : arena) (p : Z)
    : arena * option sc3_error_kind_t :=
  if negb (is_setup a) then (a, Some SC3_ERROR_BUG)
  else (with_free_list a (p :: free_list a), None).

End StampArena.

Arguments arena : clear implicits.

End Arena.

(* ===================================================================== *)
(** ** Concrete objects used to exercise the definitions *)
(* ===================================================================== *)

Module Samples.

Import Error.

(** A query of a collaborator that accepts every pointer but [NULL]. *)
Definition non_null {T : Type} (o : option T) (r : option string)
    : bool * option string :=
  match o with
  | Some _ => (true, (fun _ => "") <$> r)
  | None => (false, (fun _ => "NULL") <$> r)
  end.

Definition BUFSIZE : nat := 512.

(** An arena in phase NEW and one in phase SETUP; the component objects are
    trivial. *)
Definition mst_new : Mstamp.sc3_mstamp unit unit unit :=
  {| Mstamp.rc := tt; Mstamp.aator := Some tt; Mstamp.setup := 0;
     Mstamp.scount := 0; Mstamp.initzero := 0; Mstamp.per_stamp := 0;
     Mstamp.esize := 0; Mstamp.ssize := 0; Mstamp.cur := None;
     Mstamp.cur_snext := 0; Mstamp.remember := Some tt;
     Mstamp.freed := Some tt |}.

Definition mst_setup : Mstamp.sc3_mstamp unit unit unit :=
  {| Mstamp.rc := tt; Mstamp.aator := Some tt; Mstamp.setup := 1;
     Mstamp.scount := 1; Mstamp.initzero := 0; Mstamp.per_stamp := 4;
     Mstamp.esize := 8; Mstamp.ssize := 32; Mstamp.cur := Some 4096;
     Mstamp.cur_snext := 2; Mstamp.remember := Some tt;
     Mstamp.freed := Some tt |}.

(** A setup arena without a chunk and of stamp size 0, whose index is not
    below [per_stamp]. *)
Definition mst_no_chunk : Mstamp.sc3_mstamp unit unit unit :=
  {| Mstamp.rc := tt; Mstamp.aator := Some tt; Mstamp.setup := 1;
     Mstamp.scount := 0; Mstamp.initzero := 0; Mstamp.per_stamp := 4;
     Mstamp.esize := 0; Mstamp.ssize := 0; Mstamp.cur := None;
     Mstamp.cur_snext := 7; Mstamp.remember := Some tt;
     Mstamp.freed := Some tt |}.

(** A setup arena of stamp size 32 for which no chunk was requested yet. *)
Definition mst_lazy : Mstamp.sc3_mstamp unit unit unit :=
  {| Mstamp.rc := tt; Mstamp.aator := Some tt; Mstamp.setup := 1;
     Mstamp.scount := 0; Mstamp.initzero := 0; Mstamp.per_stamp := 4;
     Mstamp.esize := 8; Mstamp.ssize := 32; Mstamp.cur := None;
     Mstamp.cur_snext := 0; Mstamp.remember := Some tt;
     Mstamp.freed := Some tt |}.

(** The static fallback object lives at address 1. *)
Definition static_error : sc3_error :=
  {| rc := 1; setup := true; alloced := false; kind := SC3_ERROR_MEMORY;
     errmsg := "Out of memory"; filename := ""; line := 0; stack := None |}.

Definition heap_error (n : Z) (k : sc3_error_kind_t)
    (cause : option positive) : sc3_error :=
  {| rc := n; setup := true; alloced := true; kind := k;
     errmsg := "sample"; filename := "sample.c"; line := 1;
     stack := cause |}.

(** A store with the static object only, and the allocator able to serve
    [n] requests. *)
Definition store0 (n : nat) : estore :=
  {| objs := {[ 1%positive := static_error ]}; avail := n |}.

(** A store with two allocated errors: 2 has one reference, 3 has two. *)
Definition store1 (n : nat) : estore :=
  {| objs := <[ 3%positive := heap_error 2 SC3_ERROR_RUNTIME None ]>
               (<[ 2%positive := heap_error 1 SC3_ERROR_BUG None ]>
                  {[ 1%positive := static_error ]});
     avail := n |}.

(** The cleanup call [sc3_error_destroy (&p)] as an expression, in a
    program whose remaining state counts the cleanup calls made. *)
Definition cleanup (p : positive) : expr nat :=
  fun w =>
    let '(st', _, r) := sc3_error_destroy BUFSIZE 1 (fst w) (Some p) in
    (st', S (snd w), r).

(** An allocator that hands out consecutive blocks: its state is the next
    free address. *)
Definition bump (next : Z) (size : Z) : option Z * Z :=
  (Some next, next + size).

(** A setup arena of element size 8 with 4 elements per stamp and no chunk
    yet. *)
Definition arena0 : Arena.arena Z :=
  {| Arena.is_setup := true; Arena.allocator := 4096;
     Arena.element_size := 8; Arena.stamp_size := 32;
     Arena.elements_per_stamp := 4; Arena.initzero := false;
     Arena.stamp_count := 0; Arena.current := None;
     Arena.current_next_index := 4; Arena.chunks := [];
     Arena.free_list := [] |}.

End Samples.

(* ===================================================================== *)
(** ** Sequences of setter calls *)
(* ===================================================================== *)

Module Config.

Import Error Mstamp.

Section Configure.

Context {sc3_refcount_t sc3_allocator_t sc3_array_t : Type}.
Variable sc3_refcount_is_valid :
  option sc3_refcount_t -> option string -> bool * option string.
Variable sc3_allocator_is_setup :
  option sc3_allocator_t -> option string -> bool * option string.
Variable sc3_array_is_valid :
  option sc3_array_t -> option string -> bool * option string.
Variable SC3_BUFSIZE : nat.
Variable efallback : positive.
Variable FILE__ : string.
Variable SC_ENABLE_DEBUG : bool.

(** One call of a setter of [sc3_memstamp.c] with its argument. *)
Inductive setting : Type :=
| elem_size (v : Z)
| stamp_size (v : Z)
| init_zero (v : Z).

Definition call_setter (s : setting) (st : estore)
    (mst : option (sc3_mstamp sc3_refcount_t sc3_allocator_t sc3_array_t)) :=
  match s with
  | elem_size v =>
      sc3_mstamp_set_elem_size sc3_refcount_is_valid sc3_allocator_is_setup
        sc3_array_is_valid SC3_BUFSIZE efallback FILE__ SC_ENABLE_DEBUG
        st mst v
  | stamp_size v =>
      sc3_mstamp_set_stamp_size sc3_refcount_is_valid sc3_allocator_is_setup
        sc3_array_is_valid SC3_BUFSIZE efallback FILE__ SC_ENABLE_DEBUG
        st mst v
  | init_zero v =>
      sc3_mstamp_set_initzero sc3_refcount_is_valid sc3_allocator_is_setup
        sc3_array_is_valid SC3_BUFSIZE efallback FILE__ SC_ENABLE_DEBUG
        st mst v
  end.

(** What a setter stores when it is not rejected. *)
Definition stored (s : setting)
    (m : sc3_mstamp sc3_refcount_t sc3_allocator_t sc3_array_t) :=
  match s with
  | elem_size v => with_esize m v
  | stamp_size v => with_ssize m v
  | init_zero v => with_initzero m v
  end.

(** A caller that makes the calls of [l] one after the other on the same
    arena and gives up at the first call that returns an error. *)
Fixpoint configure (l : list setting) (st : estore)
    (mst : option (sc3_mstamp sc3_refcount_t sc3_allocator_t sc3_array_t))
    : outcome (estore * option (sc3_mstamp sc3_refcount_t sc3_allocator_t
                                           sc3_array_t)
               * option positive) :=
  match l with
  | [] => Returns (st, mst, None)
  | s :: l' =>
      match call_setter s st mst with
      | Returns (st', mst', None) => configure l' st' mst'
      | other => other
      end
  end.

(** The value that the calls of [l] leave in each of the three fields,
    starting from [d]: the argument of the last call for that field. *)
Definition last_elem_size (l : list setting) (d : Z) : Z :=
  fold_left (fun acc s => match s with elem_size v => v | _ => acc end) l d.

Definition last_stamp_size (l : list setting) (d : Z) : Z :=
  fold_left (fun acc s => match s with stamp_size v => v | _ => acc end) l d.

Definition last_init_zero (l : list setting) (d : Z) : Z :=
  fold_left (fun acc s => match s with init_zero v => v | _ => acc end) l d.

(** One call of a getter of [sc3_memstamp.c]. *)
Inductive getting : Type :=
| get_elem_size
| get_stamp_size
| get_stamp_count.

Variable sc3_array_is_setup :
  option sc3_array_t -> option string -> bool * option string.

Definition call_getter (g : getting) (st : estore)
    (mst : option (sc3_mstamp sc3_refcount_t sc3_allocator_t sc3_array_t))
    (out : option Z) :=
  match g with
  | get_elem_size =>
      sc3_mstamp_get_elem_size sc3_refcount_is_valid sc3_allocator_is_setup
        sc3_array_is_valid sc3_array_is_setup SC3_BUFSIZE efallback FILE__
        SC_ENABLE_DEBUG st mst out
  | get_stamp_size =>
      sc3_mstamp_get_stamp_size sc3_refcount_is_valid sc3_allocator_is_setup
        sc3_array_is_valid sc3_array_is_setup SC3_BUFSIZE efallback FILE__
        SC_ENABLE_DEBUG st mst out
  | get_stamp_count =>
      sc3_mstamp_get_stamp_count sc3_refcount_is_valid sc3_allocator_is_setup
        sc3_array_is_valid sc3_array_is_setup SC3_BUFSIZE efallback FILE__
        SC_ENABLE_DEBUG st mst out
  end.

(** The line of the assertion in each setter and getter. *)
Definition setter_line (s : setting) : Z :=
  match s with
  | elem_size _ => 94
  | stamp_size _ => 102
  | init_zero _ => 110
  end.

Definition getter_line (g : getting) : Z :=
  match g with
  | get_elem_size => 119
  | get_stamp_size => 131
  | get_stamp_count => 143
  end.

(** What a failed assertion in line [ln] with message [msg] hands back: the
    result [e] of [sc3_error_new_bug] in the store [st'].  No object of the
    store [st] is changed and at most one allocation is used; when the error
    is allocated it carries the message and the line and is fatal. *)
Definition assertion_report (st : estore) (ln : Z) (msg : string)
    (st' : estore) (e : positive) : Prop :=
  (st', Some e) = sc3_error_new_bug SC3_BUFSIZE efallback st FILE__ ln msg /\
  (forall p o, objs st !! p = Some o -> objs st' !! p = Some o) /\
  (avail st' <= avail st <= S (avail st'))%nat /\
  (avail st <> O ->
   exists o, objs st' !! e = Some o /\ errmsg o = msg /\ line o = ln /\
             sc3_error_is_fatal st' (Some e) = true).

End Configure.

End Config.

(* ===================================================================== *)
(** ** sc3_error.h: the macros that return from the calling function *)
(* ===================================================================== *)

Module Macros.

Import Error.

Section Returning.

Variable SC3_BUFSIZE : nat.
Variable efallback : positive.

(** Whether the library is configured with [--enable-debug]. *)
Variable SC_ENABLE_DEBUG : bool.

(** The part of the program state that is not the error store. *)
Context {X : Type}.

(** A C expression that is tested for truth, evaluated in the program
    state. *)
Definition cond : Type := estore * X -> estore * X * bool.

(** A statement inside a function that returns [sc3_error_t *]: it leaves a
    program state and either makes the function return a value ([Some]) or
    falls through ([None]). *)
Definition step : Type := estore * X -> estore * X * option (option positive).

(** The rest of the body of such a function: it ends by returning. *)
Definition body : Type := estore * X -> estore * X * option positive.

(** A statement followed by the rest of the body. *)
Definition then_ (s : step) (k : body) : body :=
  fun w =>
    let '(w1, r) := s w in
    match r with
    | Some v => (w1, v)
    | None => k w1
    end.

(** [return v;] *)
Definition return_ (v : option positive) : body := fun w => (w, v).

(** A statement that does not return: a call of a [void] function. *)
Definition do_ (f : estore * X -> estore * X) : step := fun w => (f w, None).

(** [if (c) s], with [c] free of side effects. *)
Definition when_ (c : bool) (s : step) : step :=
  fun w => if c then s w else (w, None).

(** [SC3E(f)], lines 141-145. *)
Definition SC3E (f : expr X) (ftext file : string) (ln : Z) : step :=
  fun w =>
    let '(st1, x1, _e) := f w in
    match _e with
    | Some _ =>
        let '(st2, r) := sc3_error_new_stack SC3_BUFSIZE efallback st1 _e
                           file ln ftext in
        (st2, x1, Some r)
    | None => (st1, x1, None)
    end.

(** [SC3A_STACK(f)], lines 114 and 123-127. *)
Definition SC3A_STACK (f : expr X) (ftext file : string) (ln : Z) : step :=
  if SC_ENABLE_DEBUG then SC3E f ftext file ln else fun w => (w, None).

(** [SC3A_CHECK(x)], lines 109 and 119-122; the message is [#x]. *)
Definition SC3A_CHECK (x : cond) (xtext file : string) (ln : Z) : step :=
  if SC_ENABLE_DEBUG then
    fun w =>
      let '(st1, x1, b) := x w in
      if b then (st1, x1, None)
      else
        let '(st2, r) := sc3_error_new_bug SC3_BUFSIZE efallback st1
                           file ln xtext in
        (st2, x1, Some r)
  else fun w => (w, None).

(** [SC3E_DEMAND(x,s)], lines 152-157. *)
Definition SC3E_DEMAND (x : cond) (xtext s file : string) (ln : Z) : step :=
  fun w =>
    let '(st1, x1, b) := x w in
    if b then (st1, x1, None)
    else
      let _errmsg :=
        Base.sc3_snprintf SC3_BUFSIZE (Base.fmt_demand xtext s) in
      let '(st2, r) := sc3_error_new_bug SC3_BUFSIZE efallback st1
                         file ln _errmsg in
      (st2, x1, Some r).

(** [SC3E_UNREACH(s)], lines 171-175. *)
Definition SC3E_UNREACH (s file : string) (ln : Z) : step :=
  fun w =>
    let _errmsg := Base.sc3_snprintf SC3_BUFSIZE ("Unreachable: " ++ s) in
    let '(st2, r) := sc3_error_new_bug SC3_BUFSIZE efallback (fst w)
                       file ln _errmsg in
    (st2, snd w, Some r).

(** [SC3E_NULL_REQ(e,x)], lines 230-233: [x] is evaluated only when [e] is
    [NULL]. *)
Definition SC3E_NULL_REQ (x : cond) (xtext file : string) (ln : Z)
    (w : estore * X) (e : option positive) : estore * X * option positive :=
  match e with
  | Some _ => (w, e)
  | None =>
      let '(st1, x1, b) := x w in
      if b then (st1, x1, None)
      else
        let '(st2, r) := sc3_error_new_bug SC3_BUFSIZE efallback st1
                           file ln xtext in
        (st2, x1, r)
  end.

(** What a failed check in line [ln] of [file] with message [msg] hands
    back: the result [r] of [sc3_error_new_bug] in the store [st'].  No
    object of [st] is changed.  When the error is allocated it is a BUG
    error that carries the message, cut to the buffer, and the line, and it
    is fatal; otherwise it is the static fallback object and the store is
    unchanged. *)
Definition bug_report (st : estore) (file : string) (ln : Z) (msg : string)
    (st' : estore) (r : positive) : Prop :=
  (st', Some r) = sc3_error_new_bug SC3_BUFSIZE efallback st file ln msg /\
  (forall q o, objs st !! q = Some o -> objs st' !! q = Some o) /\
  (avail st <> O ->
   exists o, objs st' !! r = Some o /\ kind o = SC3_ERROR_BUG /\
             errmsg o = Base.SC3_BUFCOPY SC3_BUFSIZE msg /\
             (String.length (errmsg o) <= SC3_BUFSIZE - 1)%nat /\
             line o = ln /\
             sc3_error_is_fatal st' (Some r) = true) /\
  (avail st = O -> st' = st /\ r = efallback).

(** *** Functions made of [SC3E] statements *)

(** One statement [SC3E (call)]: the call, its text [#f] and its line. *)
Record site : Type := mk_site {
  call : expr X;
  text : string;
  lineno : Z
}.

(** The body [SC3E (f1); ...; SC3E (fn); return NULL;]. *)
Fixpoint chain (file : string) (l : list site) : body :=
  match l with
  | [] => return_ None
  | s :: l' => then_ (SC3E (call s) (text s) file (lineno s)) (chain file l')
  end.

(** All calls of [l], made in order from the state [w], return [NULL] and
    leave the state [w']. *)
Inductive all_succeed : list site -> estore * X -> estore * X -> Prop :=
| all_succeed_nil w : all_succeed [] w w
| all_succeed_cons s l w w1 w' :
    call s w = (w1, None) ->
    all_succeed l w1 w' ->
    all_succeed (s :: l) w w'.

(** *** Statements that accumulate *)

(** One statement of a cleanup sequence on the accumulator [e]. *)
Inductive keep : Type :=
| null_set (f : expr X) (ftext : string) (ln : Z)
| null_req (x : cond) (xtext : string) (ln : Z).

Definition run_keep (file : string) (k : keep) (w : estore * X)
    (e : option positive) : estore * X * option positive :=
  match k with
  | null_set f ftext ln =>
      SC3E_NULL_SET SC3_BUFSIZE efallback f ftext file ln w e
  | null_req x xtext ln => SC3E_NULL_REQ x xtext file ln w e
  end.

(** The statements of [l] one after the other. *)
Fixpoint run_keeps (file : string) (l : list keep) (w : estore * X)
    (e : option positive) : estore * X * option positive :=
  match l with
  | [] => (w, e)
  | k :: l' =>
      let '(w1, e1) := run_keep file k w e in
      run_keeps file l' w1 e1
  end.

(** The statement [k] succeeds from the state [w] and leaves [w']. *)
Definition keep_succeeds (k : keep) (w w' : estore * X) : Prop :=
  match k with
  | null_set f _ _ => f w = (w', None)
  | null_req x _ _ => x w = (w', true)
  end.

(** All statements of [l], run in order from [w], succeed and leave [w']. *)
Inductive keeps_succeed : list keep -> estore * X -> estore * X -> Prop :=
| keeps_succeed_nil w : keeps_succeed [] w w
| keeps_succeed_cons k l w w1 w' :
    keep_succeeds k w w1 ->
    keeps_succeed l w1 w' ->
    keeps_succeed (k :: l) w w'.

End Returning.

(** *** The macros on pointer arguments, lines 116, 128-131 and 190-203 *)

Section Pointers.

Variable SC3_BUFSIZE : nat.
Variable efallback : positive.
Variable SC_ENABLE_DEBUG : bool.

(** What a macro on a pointer argument does inside a function: it falls
    through with the cells it may have written, it makes the function return
    an error, or it dereferences [NULL]. *)
Inductive ptr_result (C : Type) : Type :=
| Falls (c : C)
| Exits (st' : estore) (e : option positive)
| Crashes.
Arguments Falls {C} c.
Arguments Exits {C} st' e.
Arguments Crashes {C}.

(** [SC3A_CHECK (c)] on a condition [c] without side effects, followed by
    the statements [k]. *)
Definition checked {C : Type} (c : bool) (ctext file : string) (ln : Z)
    (st : estore) (k : ptr_result C) : ptr_result C :=
  if SC_ENABLE_DEBUG && negb c then
    let '(st', e) := sc3_error_new_bug SC3_BUFSIZE efallback st file ln
                       ctext in
    Exits st' e
  else k.

(** The text [(r) != NULL] after substitution of the argument. *)
Definition not_null_text (r : string) : string := "(" ++ r ++ ") != NULL".

(** The text [(pp) != NULL && *(pp) != NULL]. *)
Definition both_not_null_text (pp : string) : string :=
  "(" ++ pp ++ ") != NULL && *(" ++ pp ++ ") != NULL".

(** [SC3A_ONULL(r)]: without debugging the macro is [SC3_NOOP] and the cell
    is not written. *)
Definition SC3A_ONULL {A : Type} (r : option (option A)) (rtext : string)
    (file : string) (ln : Z) (st : estore)
    : ptr_result (option (option A)) :=
  if SC_ENABLE_DEBUG then
    checked (bool_decide (r <> None)) (not_null_text rtext) file ln st
      match r with
      | None => Crashes
      | Some _ => Falls (Some None)
      end
  else Falls r.

(** [pp != NULL && *pp != NULL] *)
Definition holds_object {A : Type} (pp : option (option A)) : bool :=
  match pp with
  | Some (Some _) => true
  | _ => false
  end.

(** [SC3E_INOUTP(pp,p)]: the cell behind [pp] and the variable [p] after the
    macro. *)
Definition SC3E_INOUTP {A : Type} (pp : option (option A)) (pptext : string)
    (file : string) (ln : Z) (st : estore)
    : ptr_result (option (option A) * option A) :=
  checked (holds_object pp) (both_not_null_text pptext) file ln st
    match pp with
    | None => Crashes
    | Some c => Falls (pp, c)
    end.

(** [SC3E_INULLP(pp,p)] *)
Definition SC3E_INULLP {A : Type} (pp : option (option A)) (pptext : string)
    (file : string) (ln : Z) (st : estore)
    : ptr_result (option (option A) * option A) :=
  checked (holds_object pp) (both_not_null_text pptext) file ln st
    match pp with
    | None => Crashes
    | Some c => Falls (Some None, c)
    end.

(** [SC3E_ONULLP(pp,p)] *)
Definition SC3E_ONULLP {A : Type} (pp : option (option A)) (pptext : string)
    (file : string) (ln : Z) (st : estore)
    : ptr_result (option (option A) * option A) :=
  checked (bool_decide (pp <> None)) (not_null_text pptext) file ln st
    match pp with
    | None => Crashes
    | Some c => Falls (Some None, c)
    end.

End Pointers.

Arguments Falls {C} c.
Arguments Exits {C} st' e.
Arguments Crashes {C}.

(** *** Error stacks *)

(** [wraps SC3_BUFSIZE st r sites p]: starting at [r] and following the
    causes, the store [st] holds one FATAL error for each site of [sites], in
    order, with the text of the site as message and its line, and the cause
    of the last one is [p]. *)
Inductive wraps (SC3_BUFSIZE : nat) (st : estore)
    : positive -> list (string * Z) -> positive -> Prop :=
| wraps_nil p : wraps SC3_BUFSIZE st p [] p
| wraps_cons r o t ln rest q p :
    objs st !! r = Some o ->
    kind o = SC3_ERROR_FATAL ->
    setup o = true ->
    errmsg o = Base.SC3_BUFCOPY SC3_BUFSIZE t ->
    line o = ln ->
    stack o = Some q ->
    wraps SC3_BUFSIZE st q rest p ->
    wraps SC3_BUFSIZE st r ((t, ln) :: rest) p.

Section Nesting.

Variable SC3_BUFSIZE : nat.
Variable efallback : positive.
Context {X : Type}.

(** A call [f] reached through functions whose body is
    [SC3E (inner); return NULL;], the outermost site first. *)
Fixpoint nested (file : string) (sites : list (string * Z)) (f : expr X)
    : expr X :=
  match sites with
  | [] => f
  | (t, ln) :: rest =>
      then_ (SC3E SC3_BUFSIZE efallback (nested file rest f) t file ln)
            (return_ None)
  end.

End Nesting.

End Macros.

(* ===================================================================== *)
(** ** example/v3basics/log.c: a program written with the macros *)
(* ===================================================================== *)

From Stdlib Require Import DecimalString.

Module LogExample.

Import Error Macros.

(** The static variables of line 26 and 27, set by [main] from the command
    line before the work functions run. *)
Record flags : Type := mk_flags {
  provoke_fatal : Z;
  provoke_leaks : Z;
  provoke_which : Z;
  main_log_bare : Z
}.

(** [snprintf (buf, size, "%s", s)] of the C library, for [size > 0]. *)
Definition snprintf (size : nat) (s : string) : string :=
  substring 0 (size - 1) s.

(** The conversion ["%d"]. *)
Definition decimal (n : Z) : string := NilZero.string_of_int (Z.to_int n).

(** The text [#f] that [SC3E] makes of the call in each line of the
    example. *)
Definition call_83 : string :=
  "sc3_allocator_new (sc3_allocator_nothread (), alloc)".
Definition call_84 : string := "sc3_allocator_set_align (" ++ "*alloc, align)".
Definition call_85 : string := "sc3_allocator_setup (" ++ "*alloc)".
Definition call_89 : string := "sc3_allocator_ref (" ++ "*alloc)".
Definition call_99 : string := "sc3_log_new (alloc, log)".
Definition call_100 : string := "sc3_log_set_level (" ++ "*log, SC3_LOG_INFO)".
Definition call_101 : string := "sc3_log_set_comm (" ++ "*log, mpicomm)".
Definition call_102 : string := "sc3_log_set_indent (" ++ "*log, indent)".
Definition call_104 : string :=
  "sc3_log_set_function (" ++ "*log, main_log, (void *" ++ ") main_log_user)".
Definition call_106 : string := "sc3_log_setup (" ++ "*log)".
Definition call_116 : string := "work_init_allocator (alloc, 16)".
Definition call_117 : string := "work_init_log (mpicomm, log, *alloc, 3)".
Definition call_136 : string := "sc3_allocator_free (alloc, &bogus)".
Definition call_140 : string :=
  "sc3_allocator_malloc (alloc, sizeof (int), &bogus)".

(** The [SC3E] statements of [work_init_allocator] and of [work_init_log]:
    the text of the call and its line. *)
Definition work_init_allocator_sites : list (string * Z) :=
  [ (call_83, 83);
    (call_84, 84);
    (call_85, 85);
    (call_89, 89) ].

Definition work_init_log_sites : list (string * Z) :=
  [ (call_99, 99);
    (call_100, 100);
    (call_101, 101);
    (call_102, 102);
    (call_104, 104);
    (call_106, 106) ].

Section Work.

Variable SC3_BUFSIZE : nat.
Variable efallback : positive.

(** The value of [__FILE__]. *)
Variable FILE__ : string.

Variable fl : flags.

(** The program state besides the error store: the allocator and the logger
    behind the cells [alloc] and [log] of [main], and whatever else the
    library keeps. *)
Context {X sc3_allocator_t sc3_log_t sc3_MPI_Comm_t : Type}.
Context {sc3_log_role_t sc3_log_level_t : Type}.

(** The types and functions of [sc3_alloc.h] and [sc3_log.h] are not part
    of the sources; the example is modelled over any library that provides
    them. *)
Record sc3_library : Type := mk_library {
  (** the contents [*alloc] and [*log] of the two cells *)
  alloc_cell : X -> option sc3_allocator_t;
  log_cell : X -> option sc3_log_t;
  SC3_LOG_PROCESS0 : sc3_log_role_t;
  SC3_LOG_THREAD0 : sc3_log_role_t;
  SC3_LOG_INFO : sc3_log_level_t;
  SC3_LOG_TOP : sc3_log_level_t;
  SC3_LOG_ESSENTIAL : sc3_log_level_t;
  SC3_LOG_ERROR : sc3_log_level_t;
  (** [sc3_allocator_new (sc3_allocator_nothread (), alloc)] writes the
      cell *)
  sc3_allocator_new : expr X;
  sc3_allocator_set_align : option sc3_allocator_t -> Z -> expr X;
  sc3_allocator_setup : option sc3_allocator_t -> expr X;
  sc3_allocator_ref : option sc3_allocator_t -> expr X;
  (** [sc3_allocator_free (alloc, &bogus)] on the address of a local
      variable *)
  sc3_allocator_free_local : option sc3_allocator_t -> expr X;
  (** [sc3_allocator_malloc (alloc, size, &bogus)] into a local variable *)
  sc3_allocator_malloc : option sc3_allocator_t -> Z -> expr X;
  sizeof_int : Z;
  (** [sc3_log_new (alloc, log)] writes the cell *)
  sc3_log_new : option sc3_allocator_t -> expr X;
  sc3_log_set_level : option sc3_log_t -> sc3_log_level_t -> expr X;
  sc3_log_set_comm : option sc3_log_t -> sc3_MPI_Comm_t -> expr X;
  sc3_log_set_indent : option sc3_log_t -> Z -> expr X;
  (** [sc3_log_set_function] installing [main_log] with [main_log_user] *)
  sc3_log_set_function_main_log : option sc3_log_t -> expr X;
  sc3_log_setup : option sc3_log_t -> expr X;
  (** the two functions that log and return nothing; [sc3_logf] receives
      the format and its arguments *)
  sc3_log :
    option sc3_log_t -> Z -> sc3_log_role_t -> sc3_log_level_t -> string ->
    estore * X -> estore * X;
  sc3_logf :
    option sc3_log_t -> Z -> sc3_log_role_t -> sc3_log_level_t -> string ->
    list string -> estore * X -> estore * X;
  (** [sc3_error_destroy_noerr (e, flatmsg)] on a cell that holds an error:
      the store and the flattened messages *)
  sc3_error_destroy_noerr : estore -> positive -> estore * string
}.

Variable lib : sc3_library.

(** A call whose argument [*alloc] or [*log] is read when it is made. *)
Definition on_alloc (f : option sc3_allocator_t -> expr X) : expr X :=
  fun w => f (alloc_cell lib (snd w)) w.

Definition on_log (f : option sc3_log_t -> expr X) : expr X :=
  fun w => f (log_cell lib (snd w)) w.

(** The truth of a C [int]. *)
Definition truth (n : Z) : bool := negb (n =? 0).

(** [work_init_allocator], lines 80-93 *)
Definition work_init_allocator (align : Z) : expr X :=
  then_ (SC3E SC3_BUFSIZE efallback (sc3_allocator_new lib)
           call_83 FILE__ 83)
  (then_ (SC3E SC3_BUFSIZE efallback
            (on_alloc (fun a => sc3_allocator_set_align lib a align))
            call_84 FILE__ 84)
  (then_ (SC3E SC3_BUFSIZE efallback (on_alloc (sc3_allocator_setup lib))
            call_85 FILE__ 85)
  (then_ (when_ (truth (provoke_leaks fl) && (provoke_which fl =? 1))
            (SC3E SC3_BUFSIZE efallback (on_alloc (sc3_allocator_ref lib))
               call_89 FILE__ 89))
  (return_ None)))).

(** [work_init_log], lines 95-108; [alloc] is passed by value. *)
Definition work_init_log (mpicomm : sc3_MPI_Comm_t)
    (alloc : option sc3_allocator_t) (indent : Z) : expr X :=
  then_ (SC3E SC3_BUFSIZE efallback (sc3_log_new lib alloc)
           call_99 FILE__ 99)
  (then_ (SC3E SC3_BUFSIZE efallback
            (on_log (fun l => sc3_log_set_level lib l (SC3_LOG_INFO lib)))
            call_100 FILE__ 100)
  (then_ (SC3E SC3_BUFSIZE efallback
            (on_log (fun l => sc3_log_set_comm lib l mpicomm))
            call_101 FILE__ 101)
  (then_ (SC3E SC3_BUFSIZE efallback
            (on_log (fun l => sc3_log_set_indent lib l indent))
            call_102 FILE__ 102)
  (then_ (when_ (truth (main_log_bare fl))
            (SC3E SC3_BUFSIZE efallback
               (on_log (sc3_log_set_function_main_log lib))
               call_104
               FILE__ 104))
  (then_ (SC3E SC3_BUFSIZE efallback (on_log (sc3_log_setup lib))
            call_106 FILE__ 106)
  (return_ None)))))).

(** The arguments of the format ["Command line flags %s%s%s%s"]. *)
Definition flag_letters : list string :=
  [ if truth (provoke_fatal fl) then "F" else "";
    if truth (provoke_leaks fl) then "L" else "";
    if 0 <? provoke_which fl
    then snprintf SC3_BUFSIZE (decimal (provoke_which fl)) else "";
    if truth (main_log_bare fl) then "B" else "" ].

(** [work_init], lines 110-126; [pargc] and [pargv] are not used. *)
Definition work_init (mpicomm : sc3_MPI_Comm_t) : expr X :=
  then_ (SC3E SC3_BUFSIZE efallback (work_init_allocator 16)
           call_116 FILE__ 116)
  (then_ (SC3E SC3_BUFSIZE efallback
            (on_alloc (fun a => work_init_log mpicomm a 3))
            call_117 FILE__ 117)
  (then_ (do_ (fun w => sc3_logf lib (log_cell lib (snd w)) 0
                          (SC3_LOG_PROCESS0 lib) (SC3_LOG_ESSENTIAL lib)
                          "Command line flags %s%s%s%s" flag_letters w))
  (then_ (do_ (fun w => sc3_log lib (log_cell lib (snd w)) 0
                          (SC3_LOG_THREAD0 lib) (SC3_LOG_TOP lib)
                          "Leave work_init" w))
  (return_ None)))).

(** [work_work], lines 128-144 *)
Definition work_work (alloc : option sc3_allocator_t)
    (log : option sc3_log_t) : expr X :=
  then_ (do_ (sc3_log lib log 0 (SC3_LOG_PROCESS0 lib) (SC3_LOG_TOP lib)
                "In work_work"))
  (then_ (do_ (sc3_log lib log 0 (SC3_LOG_THREAD0 lib) (SC3_LOG_TOP lib)
                 "In work_work"))
  (then_ (when_ (truth (provoke_fatal fl) && (provoke_which fl =? 1))
            (SC3E SC3_BUFSIZE efallback (sc3_allocator_free_local lib alloc)
               call_136 FILE__ 136))
  (then_ (when_ (truth (provoke_leaks fl) && (provoke_which fl =? 2))
            (SC3E SC3_BUFSIZE efallback
               (sc3_allocator_malloc lib alloc (sizeof_int lib))
               call_140
               FILE__ 140))
  (return_ None)))).

(** [work_error], lines 51-78: the state, the cell behind [e] and the
    returned [int].  A [NULL] pointer [e] is [None]. *)
Definition work_error (e : option (option positive))
    (log : option sc3_log_t) (prefix : string) (w : estore * X)
    : estore * X * option (option positive) * Z :=
  match e with
  | Some (Some p) =>
      if sc3_error_is_leak (fst w) (Some p) then
        let '(st1, flatmsg) := sc3_error_destroy_noerr lib (fst w) p in
        (sc3_logf lib log 0 (SC3_LOG_THREAD0 lib) (SC3_LOG_ERROR lib)
           "%s: %s" [prefix; flatmsg] (st1, snd w), Some None, 0)
      else
        let '(st1, flatmsg) := sc3_error_destroy_noerr lib (fst w) p in
        (sc3_logf lib log 0 (SC3_LOG_THREAD0 lib) (SC3_LOG_ERROR lib)
           "%s: %s" [prefix; flatmsg] (st1, snd w), Some None, 1)
  | _ =>
      (sc3_logf lib log 0 (SC3_LOG_THREAD0 lib) (SC3_LOG_ERROR lib)
         "%s: NULL error" [prefix] w, e, 0)
  end.

(** One round of the loop of [main], lines 228-231: the state and
    [scdead]. *)
Definition main_work_round (alloc : option sc3_allocator_t)
    (log : option sc3_log_t) (scdead : Z) (w : estore * X)
    : estore * X * Z :=
  if truth scdead then (w, scdead)
  else
    let '(w1, e) := work_work alloc log w in
    match e with
    | Some _ =>
        let '(w2, _, r) := work_error (Some e) log "Work work" w1 in
        (w2, r)
    | None => (w1, scdead)
    end.

End Work.

Arguments sc3_library : clear implicits.

End LogExample.

(* ===================================================================== *)
(** ** unnamed/part_001: the partition test *)
(* ===================================================================== *)

Module Partition.

(** The static variables of lines 35 and 36. *)
Record weights : Type := mk_weights {
  weight_counter : Z;
  weight_index : Z
}.

Section Callbacks.

(** The largest value of an [int]. *)
Variable INT_MAX : Z.

(** The forest types of [p4est.h] are not part of the sources; the weight
    callbacks do not look at their arguments. *)
Context {p4est_t p4est_topidx_t p4est_quadrant_t : Type}.

(** [weight_one], lines 72-77 *)
Definition weight_one (p4est : p4est_t) (which_tree : p4est_topidx_t)
    (quadrant : p4est_quadrant_t) : Z := 1.

(** [weight_once], lines 79-88: the static variables after the call and the
    returned weight.  Incrementing an [int] that holds [INT_MAX] is
    undefined. *)
Definition weight_once (p4est : p4est_t) (which_tree : p4est_topidx_t)
    (quadrant : p4est_quadrant_t) (s : weights) : outcome (weights * Z) :=
  if weight_counter s =? INT_MAX then Undefined
  else
    Returns ({| weight_counter := weight_counter s + 1;
                weight_index := weight_index s |},
             if weight_counter s =? weight_index s then 1 else 0).

(** The calls of [weight_once] that a weighted partition makes, one for
    each quadrant of [qs], and the weights they return. *)
Fixpoint weigh_once (p4est : p4est_t)
    (qs : list (p4est_topidx_t * p4est_quadrant_t)) (s : weights)
    : outcome (weights * list Z) :=
  match qs with
  | [] => Returns (s, [])
  | (t, q) :: qs' =>
      match weight_once p4est t q s with
      | Undefined => Undefined
      | Returns (s1, wt) =>
          match weigh_once p4est qs' s1 with
          | Undefined => Undefined
          | Returns (s2, ws) => Returns (s2, wt :: ws)
          end
      end
  end.

(** The sum of the weights. *)
Definition total (ws : list Z) : Z := fold_right Z.add 0 ws.

End Callbacks.

Section Arbitrary.

(** The range of [p4est_locidx_t]. *)
Variable LOCIDX_MIN : Z.
Variable LOCIDX_MAX : Z.

(** The loop of lines 139-142 of [main] with [n] rounds left, on the array
    [num_quadrants_in_proc] and the variable [num_quadrants_on_last].
    Arithmetic that leaves the range of [p4est_locidx_t] and a write behind
    the array are undefined. *)
Fixpoint fill_loop (n : nat) (i : Z) (num_quadrants_in_proc : list Z)
    (num_quadrants_on_last : Z) : outcome (list Z * Z) :=
  match n with
  | O => Returns (num_quadrants_in_proc, num_quadrants_on_last)
  | S n' =>
      if (LOCIDX_MAX <? i + 1)
         || (num_quadrants_on_last - (i + 1) <? LOCIDX_MIN)
         || (length num_quadrants_in_proc <=? Z.to_nat i)%nat
      then Undefined
      else fill_loop n' (i + 1)
             (<[Z.to_nat i := i + 1]> num_quadrants_in_proc)
             (num_quadrants_on_last - (i + 1))
  end.

(** Lines 138-145 of [main]: the array handed to [p4est_partition_given]
    and whether the check of line 144 lets the program continue.  The array
    comes from [P4EST_ALLOC] with entries of any content;
    [global_num_quadrants] is the value after the cast of line 138.  Without
    a process the entry [num_procs - 1] lies before the array. *)
Definition arbitrary_partition (num_procs : Z) (global_num_quadrants : Z)
    (num_quadrants_in_proc : list Z) : outcome (list Z * bool) :=
  if num_procs <? 1 then Undefined else
  match fill_loop (Z.to_nat (num_procs - 1)) 0 num_quadrants_in_proc
          global_num_quadrants with
  | Undefined => Undefined
  | Returns (arr, num_quadrants_on_last) =>
      if (length arr <=? Z.to_nat (num_procs - 1))%nat then Undefined
      else
        Returns (<[Z.to_nat (num_procs - 1) := num_quadrants_on_last]> arr,
                 0 <? num_quadrants_on_last)
  end.

End Arbitrary.

End Partition.

(* ===================================================================== *)
(** ** A concrete library to run the example with *)
(* ===================================================================== *)

Module LogSamples.

Import Error Macros LogExample.

(** A call that succeeds and one that fails with the error at [p]; the
    program state counts the calls. *)
Definition ok : expr nat := fun w => (fst w, S (snd w), None).

Definition fails (p : positive) : expr nat :=
  fun w => (fst w, S (snd w), Some p).

(** A library in which setting up an allocator fails with the error at
    address 2 and freeing a local variable reports the leak that destroying
    the error at address 3 produces; logging does nothing. *)
Definition sample_lib : sc3_library nat unit unit unit unit unit :=
  {| alloc_cell := fun _ => Some tt;
     log_cell := fun _ => Some tt;
     SC3_LOG_PROCESS0 := tt;
     SC3_LOG_THREAD0 := tt;
     SC3_LOG_INFO := tt;
     SC3_LOG_TOP := tt;
     SC3_LOG_ESSENTIAL := tt;
     SC3_LOG_ERROR := tt;
     sc3_allocator_new := ok;
     sc3_allocator_set_align := fun _ _ => ok;
     sc3_allocator_setup := fun _ => fails 2;
     sc3_allocator_ref := fun _ => ok;
     sc3_allocator_free_local := fun _ => Samples.cleanup 3;
     sc3_allocator_malloc := fun _ _ => ok;
     sizeof_int := 4;
     sc3_log_new := fun _ => ok;
     sc3_log_set_level := fun _ _ => ok;
     sc3_log_set_comm := fun _ _ => ok;
     sc3_log_set_indent := fun _ _ => ok;
     sc3_log_set_function_main_log := fun _ => ok;
     sc3_log_setup := fun _ => ok;
     sc3_log := fun _ _ _ _ _ w => w;
     sc3_logf := fun _ _ _ _ _ _ w => w;
     sc3_error_destroy_noerr := fun st p =>
       (fst (fst (sc3_error_destroy Samples.BUFSIZE 1 st (Some p))), "") |}.

(** No flag set, and the flags [F1] of the command line. *)
Definition no_flags : flags :=
  {| provoke_fatal := 0; provoke_leaks := 0; provoke_which := 0;
     main_log_bare := 0 |}.

Definition flags_F1 : flags :=
  {| provoke_fatal := 1; provoke_leaks := 0; provoke_which := 1;
     main_log_bare := 0 |}.

End LogSamples.

(* ===================================================================== *)
(** * Properties *)
(* ===================================================================== *)

Module DummyMPIFacts.

Import DummyMPI.

(** C9.  The stand-in reports exactly one process with rank 0 and every call
    succeeds: [MPI_Init] and [MPI_Finalize] return [MPI_SUCCESS] for every
    input; for every communicator and every cell behind the output pointer,
    [MPI_Comm_size] stores 1 and [MPI_Comm_rank] stores 0, and both return
    [MPI_SUCCESS]. *)
Theorem single_process_stand_in :
  forall (MPI_Comm : Type) (MPI_SUCCESS : Z),
    (forall (ARGC ARGV : Type) (argc : option ARGC) (argv : option ARGV),
        MPI_Init MPI_SUCCESS argc argv = MPI_SUCCESS) /\
    MPI_Finalize MPI_SUCCESS = MPI_SUCCESS /\
    (forall (comm : MPI_Comm) (old : Z),
        MPI_Comm_size MPI_Comm MPI_SUCCESS comm (Some old)
        = Returns (MPI_SUCCESS, 1)) /\
    (forall (comm : MPI_Comm) (old : Z),
        MPI_Comm_rank MPI_Comm MPI_SUCCESS comm (Some old)
        = Returns (MPI_SUCCESS, 0)).
Proof.
  intros MPI_Comm MPI_SUCCESS.
  repeat split; intros; reflexivity.
Qed.

End DummyMPIFacts.

Module BaseFacts.

Import Base.

(** A prefix is no longer than the bound it was cut at. *)
Lemma length_substring_le (n : nat) (s : string) :
  (String.length (substring 0 n s) <= n)%nat.
Proof.
  revert n. induction s as [|c s IH]; intros [|n]; simpl; try lia.
  specialize (IH n). lia.
Qed.

(** What [sc3_snprintf] writes fits the buffer together with its NUL. *)
Lemma length_sc3_snprintf (size : nat) (s : string) :
  (String.length (sc3_snprintf size s) <= size - 1)%nat.
Proof. unfold sc3_snprintf. apply length_substring_le. Qed.

Lemma length_SC3_BUFCOPY (bufsize : nat) (s : string) :
  (String.length (SC3_BUFCOPY bufsize s) <= bufsize - 1)%nat.
Proof. unfold SC3_BUFCOPY. apply length_sc3_snprintf. Qed.

(** A string that fits is copied unchanged. *)
Lemma substring_all (n : nat) (s : string) :
  (String.length s <= n)%nat -> substring 0 n s = s.
Proof.
  revert n. induction s as [|c s IH]; intros [|n] H; simpl in *;
    try reflexivity; try lia.
  f_equal. apply IH. lia.
Qed.

End BaseFacts.

Module ErrorFacts.

Import Error.

(** *** The store *)

Lemma release_absent fuel (m : gmap positive sc3_error) (q p : positive) :
  m !! p = None -> release fuel m q !! p = None.
Proof.
  revert m q. induction fuel as [|fuel IH]; intros m q Hp; simpl; [exact Hp|].
  destruct (m !! q) as [o|] eqn:Hq; [|exact Hp].
  destruct (negb (alloced o)); [exact Hp|].
  destruct (1 <? rc o).
  - rewrite lookup_insert_ne; [exact Hp|]. intros ->. congruence.
  - assert (delete q m !! p = None) as Hd.
    { destruct (decide (q = p)) as [->|Hne].
      - apply lookup_delete_eq.
      - rewrite lookup_delete_ne; assumption. }
    destruct (stack o); [apply IH|]; exact Hd.
Qed.

(** Objects that were not created by allocation survive every release. *)
Lemma release_static fuel (m : gmap positive sc3_error) (q p : positive) o :
  m !! p = Some o -> alloced o = false -> release fuel m q !! p = Some o.
Proof.
  revert m q. induction fuel as [|fuel IH]; intros m q Hp Hs; simpl;
    [exact Hp|].
  destruct (m !! q) as [oq|] eqn:Hq; [|exact Hp].
  destruct (alloced oq) eqn:Ha; simpl; [|exact Hp].
  assert (q <> p) as Hne by (intros ->; congruence).
  destruct (1 <? rc oq).
  - rewrite lookup_insert_ne; assumption.
  - assert (delete q m !! p = Some o) as Hd
        by (rewrite lookup_delete_ne; assumption).
    destruct (stack oq); [apply IH|]; assumption.
Qed.

(** The step that every [unref] of an allocated object begins with. *)
Lemma release_step (m : gmap positive sc3_error) (p : positive) o fuel :
  m !! p = Some o -> alloced o = true ->
  release (S fuel) m p =
    if 1 <? rc o then <[p := with_rc o (rc o - 1)]> m
    else match stack o with
         | None => delete p m
         | Some q => release fuel (delete p m) q
         end.
Proof. intros Hp Ha. simpl. rewrite Hp, Ha. reflexivity. Qed.

(** More fuel than [size m] never changes the result of [release]. *)
Lemma release_fuel_enough n1 n2 (m : gmap positive sc3_error) (p : positive) :
  (size m < n1)%nat -> (size m < n2)%nat -> release n1 m p = release n2 m p.
Proof.
  revert n2 m p. induction n1 as [|n1 IH]; intros [|n2] m p H1 H2; try lia.
  simpl. destruct (m !! p) as [o|] eqn:Hp; [|reflexivity].
  destruct (negb (alloced o)); [reflexivity|].
  destruct (1 <? rc o); [reflexivity|].
  destruct (stack o) as [q|]; [|reflexivity].
  assert (size (delete p m) = pred (size m)) as Hsz
      by (apply map_size_delete_Some; eauto).
  assert (size m <> O) as Hne by (apply (map_size_ne_0_lookup_2 m p); eauto).
  apply IH; lia.
Qed.

#[local] Arguments release : simpl never.

Lemma ealloc_fails st o : avail st = O -> ealloc st o = None.
Proof. unfold ealloc. intros ->. reflexivity. Qed.

Lemma ealloc_succeeds st o n :
  avail st = S n ->
  ealloc st o =
    Some (fresh (dom (objs st)),
          {| objs := <[fresh (dom (objs st)) := o]> (objs st); avail := n |}).
Proof. unfold ealloc. intros ->. reflexivity. Qed.

Lemma fresh_unused (st : estore) : objs st !! fresh (dom (objs st)) = None.
Proof. apply not_elem_of_dom. apply is_fresh. Qed.

Lemma ealloc_cases st o :
  (avail st = O /\ ealloc st o = None) \/
  (exists p st', ealloc st o = Some (p, st') /\ allocated st o p st').
Proof.
  destruct (avail st) as [|n] eqn:Hav.
  - left. split; [reflexivity|]. apply ealloc_fails. exact Hav.
  - right. eexists _, _. split; [apply ealloc_succeeds; exact Hav|].
    constructor; simpl; [apply fresh_unused|reflexivity|congruence].
Qed.

Lemma allocated_old st o p st' q c :
  allocated st o p st' -> objs st !! q = Some c -> objs st' !! q = Some c.
Proof.
  intros [Hp -> _] Hq. rewrite lookup_insert_ne; [exact Hq|].
  intros ->. congruence.
Qed.

Lemma allocated_new st o p st' :
  allocated st o p st' -> objs st' !! p = Some o.
Proof. intros [_ -> _]. apply lookup_insert_eq. Qed.

Section Facts.

Variable SC3_BUFSIZE : nat.
Variable efallback : positive.

Abbreviation new_kind := (sc3_error_new_kind SC3_BUFSIZE efallback).
Abbreviation new_bug := (sc3_error_new_bug SC3_BUFSIZE efallback).
Abbreviation new_stack := (sc3_error_new_stack SC3_BUFSIZE efallback).

Abbreviation fresh_error := (fresh_error SC3_BUFSIZE).
Abbreviation fallback_ok := (fallback_ok efallback).

Lemma new_stack_cases st cause file ln msg :
  (avail st = O /\ new_stack st cause file ln msg = (st, Some efallback)) \/
  (exists p st',
      new_stack st cause file ln msg = (st', Some p) /\
      allocated st (fresh_error SC3_ERROR_FATAL file ln msg cause) p st').
Proof.
  unfold sc3_error_new_stack.
  destruct (ealloc_cases st (fresh_error SC3_ERROR_FATAL file ln msg cause))
    as [[Hav He]|(p & st' & He & Hal)]; unfold fresh_error in He; rewrite He.
  - left. split; [exact Hav|reflexivity].
  - right. exists p, st'. split; [reflexivity|exact Hal].
Qed.

Lemma new_kind_cases st k file ln msg :
  (avail st = O /\ new_kind st k file ln msg = (st, Some efallback)) \/
  (exists p st',
      new_kind st k file ln msg = (st', Some p) /\
      allocated st (fresh_error k file ln msg None) p st').
Proof.
  unfold sc3_error_new_kind.
  destruct (ealloc_cases st (fresh_error k file ln msg None))
    as [[Hav He]|(p & st' & He & Hal)]; unfold fresh_error in He; rewrite He.
  - left. split; [exact Hav|reflexivity].
  - right. exists p, st'. split; [reflexivity|exact Hal].
Qed.

Lemma fallback_is_setup st :
  fallback_ok st -> sc3_error_is_setup st (Some efallback) = true.
Proof.
  intros (o & Ho & _ & Hs & Hrc & Hst).
  unfold sc3_error_is_setup, sc3_error_is_valid, phase. simpl.
  rewrite Ho, Hst, Hs. apply Z.ltb_lt in Hrc. rewrite Hrc. reflexivity.
Qed.

Lemma fallback_ok_allocated st o p st' :
  allocated st o p st' -> fallback_ok st -> fallback_ok st'.
Proof.
  intros Hal (c & Hc & H). exists c. split; [|exact H].
  eapply allocated_old; eassumption.
Qed.

(** A setup error is a live object in phase SETUP. *)
Lemma is_setup_inv st e :
  sc3_error_is_setup st e = true ->
  exists p o, e = Some p /\ objs st !! p = Some o /\ setup o = true /\
              0 < rc o.
Proof.
  unfold sc3_error_is_setup, sc3_error_is_valid, phase.
  destruct e as [p|]; simpl; [|discriminate].
  destruct (objs st !! p) as [o|] eqn:Ho; simpl; [|discriminate].
  intros H. apply andb_true_iff in H as [H1 H2].
  apply andb_true_iff in H1 as [H1 _]. apply Z.ltb_lt in H1.
  exists p, o. repeat split; try reflexivity; assumption.
Qed.

(** The object that a constructor has just allocated is setup, provided its
    cause is. *)
Lemma allocated_is_setup st k file ln msg cause p st' :
  allocated st (fresh_error k file ln msg cause) p st' ->
  cause = None \/ sc3_error_is_setup st cause = true ->
  sc3_error_is_setup st' (Some p) = true.
Proof.
  intros Hal Hc.
  unfold sc3_error_is_setup, sc3_error_is_valid, phase. simpl.
  rewrite (allocated_new _ _ _ _ Hal). simpl.
  destruct Hc as [->|Hc]; [reflexivity|].
  apply is_setup_inv in Hc as (q & c & -> & Hq & Hs & _).
  rewrite (allocated_old _ _ _ _ _ _ Hal Hq). rewrite Hs. reflexivity.
Qed.

Lemma new_kind_usable st k file ln msg :
  fallback_ok st ->
  sc3_error_is_setup (fst (new_kind st k file ln msg))
                     (snd (new_kind st k file ln msg)) = true /\
  fallback_ok (fst (new_kind st k file ln msg)).
Proof.
  intros Hfb.
  destruct (new_kind_cases st k file ln msg)
    as [[_ ->]|(p & st' & -> & Hal)]; simpl.
  - split; [apply fallback_is_setup|]; exact Hfb.
  - split; [|eapply fallback_ok_allocated; eassumption].
    eapply allocated_is_setup; [exact Hal|]. left. reflexivity.
Qed.

Lemma new_stack_usable st cause file ln msg :
  fallback_ok st ->
  cause = None \/ sc3_error_is_setup st cause = true ->
  sc3_error_is_setup (fst (new_stack st cause file ln msg))
                     (snd (new_stack st cause file ln msg)) = true /\
  fallback_ok (fst (new_stack st cause file ln msg)).
Proof.
  intros Hfb Hc.
  destruct (new_stack_cases st cause file ln msg)
    as [[_ ->]|(p & st' & -> & Hal)]; simpl.
  - split; [apply fallback_is_setup|]; exact Hfb.
  - split; [|eapply fallback_ok_allocated; eassumption].
    eapply allocated_is_setup; [exact Hal|]. exact Hc.
Qed.

(** *** Static objects *)

Lemma keeps_static_refl st : keeps_static st st.
Proof. intros p o H _ _. exact H. Qed.

Lemma keeps_static_trans st1 st2 st3 :
  keeps_static st1 st2 -> keeps_static st2 st3 -> keeps_static st1 st3.
Proof. intros H12 H23 p o Hp Ha Hs. apply H23; auto. Qed.

Lemma keeps_static_allocated st o p st' :
  allocated st o p st' -> keeps_static st st'.
Proof. intros Hal q c Hq _ _. eapply allocated_old; eassumption. Qed.

Lemma keeps_static_new_kind st k file ln msg :
  keeps_static st (fst (new_kind st k file ln msg)).
Proof.
  destruct (new_kind_cases st k file ln msg)
    as [[_ ->]|(p & st' & -> & Hal)]; simpl.
  - apply keeps_static_refl.
  - eapply keeps_static_allocated; eassumption.
Qed.

Lemma keeps_static_new_stack st cause file ln msg :
  keeps_static st (fst (new_stack st cause file ln msg)).
Proof.
  destruct (new_stack_cases st cause file ln msg)
    as [[_ ->]|(p & st' & -> & Hal)]; simpl.
  - apply keeps_static_refl.
  - eapply keeps_static_allocated; eassumption.
Qed.

Lemma keeps_static_release st fuel q :
  keeps_static st (set_objs st (release fuel (objs st) q)).
Proof. intros p o Hp Ha _. simpl. apply release_static; assumption. Qed.

(** A handle in phase NEW does not refer to a setup object. *)
Lemma is_new_inv st e :
  sc3_error_is_new st e = true ->
  exists p o, e = Some p /\ objs st !! p = Some o /\ setup o = false.
Proof.
  unfold sc3_error_is_new, sc3_error_is_valid, phase.
  destruct e as [p|]; simpl; [|discriminate].
  destruct (objs st !! p) as [o|] eqn:Ho; simpl; [|discriminate].
  intros H. apply andb_true_iff in H as [_ H2].
  apply negb_true_iff in H2. exists p, o. auto.
Qed.

Lemma keeps_static_alter_new st e (f : sc3_error -> sc3_error) :
  sc3_error_is_new st e = true ->
  forall p, e = Some p ->
  keeps_static st (set_objs st (alter f p (objs st))).
Proof.
  intros Hn p -> q c Hq _ Hs. simpl.
  apply is_new_inv in Hn as (p' & o & [= <-] & Hp & Ho).
  rewrite lookup_alter_ne; [exact Hq|]. intros ->. congruence.
Qed.

Lemma keeps_static_unref st ep :
  keeps_static st (fst (fst (sc3_error_unref SC3_BUFSIZE efallback st ep))).
Proof.
  unfold sc3_error_unref.
  destruct (sc3_error_is_setup st ep).
  - destruct (ep ≫= _) as [[p o]|]; [|apply keeps_static_refl].
    destruct (negb (alloced o)); [apply keeps_static_refl|].
    simpl. apply keeps_static_release.
  - pose proof (keeps_static_new_kind st SC3_ERROR_BUG here 0
                  "sc3_error_is_setup(e)") as H.
    unfold sc3_error_new_bug.
    destruct (new_kind st SC3_ERROR_BUG here 0 "sc3_error_is_setup(e)").
    exact H.
Qed.

(** No call of the error interface changes a static setup object. *)
Lemma keeps_static_call (c : call) st :
  keeps_static st (store_after SC3_BUFSIZE efallback c st).
Proof.
  destruct c; simpl.
  - unfold sc3_error_new.
    destruct (ealloc_cases st
                {| rc := 1; setup := false; alloced := true;
                   kind := SC3_ERROR_FATAL; errmsg := ""; filename := "";
                   line := 0; stack := None |})
      as [[_ ->]|(p & st' & -> & Hal)]; simpl.
    + apply keeps_static_refl.
    + eapply keeps_static_allocated; eassumption.
  - unfold sc3_error_set_kind.
    destruct (sc3_error_is_new st e) eqn:Hn;
      [|apply keeps_static_new_kind].
    destruct e as [p|]; simpl; [|apply keeps_static_refl].
    eapply keeps_static_alter_new; [exact Hn|reflexivity].
  - unfold sc3_error_setup.
    destruct (sc3_error_is_new st e) eqn:Hn;
      [|apply keeps_static_new_kind].
    destruct e as [p|]; simpl; [|apply keeps_static_refl].
    eapply keeps_static_alter_new; [exact Hn|reflexivity].
  - unfold sc3_error_ref.
    destruct (sc3_error_is_setup st e); [|apply keeps_static_new_kind].
    destruct e as [p|]; simpl; [|apply keeps_static_refl].
    destruct (objs st !! p) as [o|] eqn:Hp; simpl;
      [|apply keeps_static_refl].
    destruct (alloced o) eqn:Ha; simpl; [|apply keeps_static_refl].
    intros q c Hq Hc _. simpl.
    rewrite lookup_insert_ne; [exact Hq|]. intros ->. congruence.
  - apply keeps_static_unref.
  - unfold sc3_error_destroy.
    destruct (sc3_error_is_setup st ep).
    + destruct (ep ≫= _) as [[p o]|]; [|apply keeps_static_refl].
      destruct (negb (alloced o)); [apply keeps_static_refl|].
      destruct (rc o =? 1); [apply keeps_static_unref|].
      pose proof (keeps_static_unref st ep) as H1.
      destruct (sc3_error_unref SC3_BUFSIZE efallback st ep)
        as [[st1 h1] r1]. simpl in H1.
      pose proof (keeps_static_new_kind st1 SC3_ERROR_LEAK here 0
                    "sc3_refcount_is_last") as H2.
      destruct (new_kind st1 SC3_ERROR_LEAK here 0 "sc3_refcount_is_last")
        as [st2 leak]. simpl in *.
      eapply keeps_static_trans; eassumption.
    + pose proof (keeps_static_new_kind st SC3_ERROR_BUG here 0
                    "sc3_error_is_setup(e)") as H.
      unfold sc3_error_new_bug.
      destruct (new_kind st SC3_ERROR_BUG here 0 "sc3_error_is_setup(e)").
      exact H.
  - unfold sc3_error_get_kind.
    destruct (sc3_error_is_setup st e).
    + destruct (e ≫= _); apply keeps_static_refl.
    + pose proof (keeps_static_new_kind st SC3_ERROR_BUG here 0
                    "sc3_error_is_setup(e)") as H.
      unfold sc3_error_new_bug.
      destruct (new_kind st SC3_ERROR_BUG here 0 "sc3_error_is_setup(e)").
      exact H.
  - apply keeps_static_new_kind.
  - apply keeps_static_new_kind.
  - apply keeps_static_new_stack.
Qed.

(** The static fallback object survives every call. *)
Lemma fallback_ok_call (c : call) st :
  fallback_ok st -> fallback_ok (store_after SC3_BUFSIZE efallback c st).
Proof.
  intros (o & Ho & Ha & Hs & H). exists o.
  split; [|auto]. apply keeps_static_call; assumption.
Qed.

(** On a static sentinel the reference counting calls do nothing. *)
Lemma sentinel_noop st p :
  sentinel st p ->
  sc3_error_ref SC3_BUFSIZE efallback st (Some p) = (st, None) /\
  sc3_error_unref SC3_BUFSIZE efallback st (Some p) = (st, Some p, None) /\
  sc3_error_destroy SC3_BUFSIZE efallback st (Some p) = (st, Some p, None).
Proof.
  intros (o & Ho & Ha & Hs).
  unfold sc3_error_ref, sc3_error_unref, sc3_error_destroy.
  rewrite Hs. simpl. rewrite Ho. simpl. rewrite Ha. simpl. auto.
Qed.

(** *** Constructors and sentinels *)

Lemma new_kind_allocates st k file ln msg :
  avail st <> O ->
  exists p, snd (new_kind st k file ln msg) = Some p /\
            objs st !! p = None /\
            objs (fst (new_kind st k file ln msg)) !! p
            = Some (fresh_error k file ln msg None).
Proof.
  intros Hav.
  destruct (new_kind_cases st k file ln msg)
    as [[H0 _]|(p & st' & -> & Hal)]; [contradiction|].
  exists p. simpl. split; [reflexivity|].
  split; [destruct Hal; assumption|]. eapply allocated_new; eassumption.
Qed.

Lemma new_stack_allocates st cause file ln msg :
  avail st <> O ->
  exists p, snd (new_stack st cause file ln msg) = Some p /\
            objs st !! p = None /\
            objs (fst (new_stack st cause file ln msg)) !! p
            = Some (fresh_error SC3_ERROR_FATAL file ln msg cause).
Proof.
  intros Hav.
  destruct (new_stack_cases st cause file ln msg)
    as [[H0 _]|(p & st' & -> & Hal)]; [contradiction|].
  exists p. simpl. split; [reflexivity|].
  split; [destruct Hal; assumption|]. eapply allocated_new; eassumption.
Qed.

Lemma new_kind_falls_back st k file ln msg :
  avail st = O -> new_kind st k file ln msg = (st, Some efallback).
Proof.
  intros Hav.
  destruct (new_kind_cases st k file ln msg)
    as [[_ H]|(p & st' & _ & [_ _ Hal])]; [exact H|]. congruence.
Qed.

Lemma new_stack_falls_back st cause file ln msg :
  avail st = O -> new_stack st cause file ln msg = (st, Some efallback).
Proof.
  intros Hav.
  destruct (new_stack_cases st cause file ln msg)
    as [[_ H]|(p & st' & _ & [_ _ Hal])]; [exact H|]. congruence.
Qed.

(** C4.  In a store that holds the static fallback object,
    [sc3_error_new_bug] and [sc3_error_new_stack] (the latter on a cause
    that is [NULL] or setup) always return a setup error: a new object of
    kind BUG, respectively of kind FATAL with the given cause, when the
    allocation succeeds, and the static fallback object, with the store
    unchanged, when it fails.  On a static sentinel [ref], [unref] and
    [destroy] change nothing and return [NULL]; no call of the error
    interface changes a static setup object, and the fallback object is
    there after every call. *)
Theorem report_constructors_never_fail :
  forall st : estore,
    fallback_ok st ->
    (forall file ln msg,
        sc3_error_is_setup (fst (new_bug st file ln msg))
                           (snd (new_bug st file ln msg)) = true /\
        fallback_ok (fst (new_bug st file ln msg)) /\
        (avail st = O -> new_bug st file ln msg = (st, Some efallback)) /\
        (avail st <> O ->
         exists p, snd (new_bug st file ln msg) = Some p /\
                   objs st !! p = None /\
                   objs (fst (new_bug st file ln msg)) !! p
                   = Some (fresh_error SC3_ERROR_BUG file ln msg None))) /\
    (forall cause file ln msg,
        cause = None \/ sc3_error_is_setup st cause = true ->
        sc3_error_is_setup (fst (new_stack st cause file ln msg))
                           (snd (new_stack st cause file ln msg)) = true /\
        fallback_ok (fst (new_stack st cause file ln msg)) /\
        (avail st = O ->
         new_stack st cause file ln msg = (st, Some efallback)) /\
        (avail st <> O ->
         exists p, snd (new_stack st cause file ln msg) = Some p /\
                   objs st !! p = None /\
                   objs (fst (new_stack st cause file ln msg)) !! p
                   = Some (fresh_error SC3_ERROR_FATAL file ln msg cause))) /\
    (forall p,
        sentinel st p ->
        sc3_error_ref SC3_BUFSIZE efallback st (Some p) = (st, None) /\
        sc3_error_unref SC3_BUFSIZE efallback st (Some p)
        = (st, Some p, None) /\
        sc3_error_destroy SC3_BUFSIZE efallback st (Some p)
        = (st, Some p, None)) /\
    (forall (c : call),
        fallback_ok (store_after SC3_BUFSIZE efallback c st) /\
        forall p o,
          objs st !! p = Some o -> alloced o = false -> setup o = true ->
          objs (store_after SC3_BUFSIZE efallback c st) !! p = Some o).
Proof.
  intros st Hfb. split; [|split; [|split]].
  - intros file ln msg. unfold sc3_error_new_bug.
    destruct (new_kind_usable st SC3_ERROR_BUG file ln msg Hfb) as [H1 H2].
    split; [exact H1|]. split; [exact H2|].
    split; [apply new_kind_falls_back|apply new_kind_allocates].
  - intros cause file ln msg Hc.
    destruct (new_stack_usable st cause file ln msg Hfb Hc) as [H1 H2].
    split; [exact H1|]. split; [exact H2|].
    split; [apply new_stack_falls_back|apply new_stack_allocates].
  - intros p. apply sentinel_noop.
  - intros c. split; [apply fallback_ok_call; exact Hfb|].
    intros p o. apply keeps_static_call.
Qed.

(** *** Destroy *)

Lemma unref_allocated st p o :
  objs st !! p = Some o -> alloced o = true ->
  sc3_error_is_setup st (Some p) = true ->
  sc3_error_unref SC3_BUFSIZE efallback st (Some p)
  = (set_objs st
       (if 1 <? rc o then <[p := with_rc o (rc o - 1)]> (objs st)
        else match stack o with
             | None => delete p (objs st)
             | Some q => release (size (objs st)) (delete p (objs st)) q
             end),
     if 1 <? rc o then Some p else None,
     None).
Proof.
  intros Ho Ha Hs. unfold sc3_error_unref. rewrite Hs. simpl.
  rewrite Ho. simpl. rewrite Ha. simpl.
  rewrite (release_step _ _ _ _ Ho Ha). reflexivity.
Qed.


(** *** Kinds *)

Lemma fatal_kind_iff k :
  fatal_kind k = true <->
  k = SC3_ERROR_FATAL \/ k = SC3_ERROR_BUG \/ k = SC3_ERROR_MEMORY \/
  k = SC3_ERROR_NETWORK.
Proof.
  split.
  - destruct k; simpl; intros H; try discriminate; auto.
  - intros [->|[->|[->| ->]]]; reflexivity.
Qed.

Lemma get_kind_setup st p o out :
  objs st !! p = Some o -> sc3_error_is_setup st (Some p) = true ->
  sc3_error_get_kind SC3_BUFSIZE efallback st (Some p) (Some out)
  = (st, Some (kind o), None).
Proof.
  intros Ho Hs. unfold sc3_error_get_kind. rewrite Hs. simpl. rewrite Ho.
  reflexivity.
Qed.

Lemma is_new_lookup st p o :
  objs st !! p = Some o -> 0 < rc o -> stack o = None -> setup o = false ->
  sc3_error_is_new st (Some p) = true.
Proof.
  intros Ho Hrc Hst Hs.
  unfold sc3_error_is_new, sc3_error_is_valid, phase. simpl.
  rewrite Ho, Hst, Hs. apply Z.ltb_lt in Hrc. rewrite Hrc. reflexivity.
Qed.

Lemma is_setup_lookup st p o :
  objs st !! p = Some o -> 0 < rc o -> stack o = None -> setup o = true ->
  sc3_error_is_setup st (Some p) = true.
Proof.
  intros Ho Hrc Hst Hs.
  unfold sc3_error_is_setup, sc3_error_is_valid, phase. simpl.
  rewrite Ho, Hst, Hs. apply Z.ltb_lt in Hrc. rewrite Hrc. reflexivity.
Qed.

(** Construction in two phases: [new], [set_kind], [setup]. *)
Lemma two_phase_kind st st1 e k :
  sc3_error_new efallback st = (st1, Some e, None) ->
  exists o,
    objs (fst (sc3_error_setup SC3_BUFSIZE efallback
                 (fst (sc3_error_set_kind SC3_BUFSIZE efallback st1
                         (Some e) k))
                 (Some e))) !! e = Some o /\
    kind o = k /\
    sc3_error_is_setup
      (fst (sc3_error_setup SC3_BUFSIZE efallback
              (fst (sc3_error_set_kind SC3_BUFSIZE efallback st1 (Some e) k))
              (Some e)))
      (Some e) = true.
Proof.
  unfold sc3_error_new.
  destruct (ealloc_cases st
              {| rc := 1; setup := false; alloced := true;
                 kind := SC3_ERROR_FATAL; errmsg := ""; filename := "";
                 line := 0; stack := None |})
    as [[_ ->]|(p & st' & -> & Hal)]; [discriminate|].
  intros [= <- <-].
  pose proof (allocated_new _ _ _ _ Hal) as Hp.
  assert (sc3_error_is_new st' (Some p) = true) as Hn
      by (eapply is_new_lookup; [exact Hp|reflexivity..]).
  unfold sc3_error_set_kind. rewrite Hn. cbn [fst].
  set (st2 := set_objs st' _).
  assert (objs st2 !! p
          = Some {| rc := 1; setup := false; alloced := true; kind := k;
                    errmsg := ""; filename := ""; line := 0;
                    stack := None |}) as Hp2.
  { subst st2. simpl. rewrite lookup_alter_eq, Hp. reflexivity. }
  clearbody st2.
  assert (sc3_error_is_new st2 (Some p) = true) as Hn2
      by (eapply is_new_lookup; [exact Hp2|reflexivity..]).
  unfold sc3_error_setup. rewrite Hn2. cbn [fst].
  set (st3 := set_objs st2 _).
  assert (objs st3 !! p
          = Some {| rc := 1; setup := true; alloced := true; kind := k;
                    errmsg := ""; filename := ""; line := 0;
                    stack := None |}) as Hp3.
  { subst st3. simpl. rewrite lookup_alter_eq, Hp2. reflexivity. }
  eexists. split; [exact Hp3|]. split; [reflexivity|].
  eapply is_setup_lookup; [exact Hp3|reflexivity..].
Qed.

(** C5.  For a setup error object, [sc3_error_is_fatal] answers true exactly
    for the kinds FATAL, BUG, MEMORY and NETWORK, [sc3_error_is_leak] exactly
    for the kind LEAK, and [sc3_error_get_kind] stores the kind of the
    object.  An error constructed with kind [k], in two phases or by
    [sc3_error_new_kind], has kind [k]. *)
Theorem kind_predicates_and_get_kind :
  (forall (st : estore) (p : positive) (o : sc3_error),
      objs st !! p = Some o ->
      sc3_error_is_setup st (Some p) = true ->
      (sc3_error_is_fatal st (Some p) = true <->
       kind o = SC3_ERROR_FATAL \/ kind o = SC3_ERROR_BUG \/
       kind o = SC3_ERROR_MEMORY \/ kind o = SC3_ERROR_NETWORK) /\
      (sc3_error_is_leak st (Some p) = true <-> kind o = SC3_ERROR_LEAK) /\
      (forall out,
          sc3_error_get_kind SC3_BUFSIZE efallback st (Some p) (Some out)
          = (st, Some (kind o), None))) /\
  (forall (k : sc3_error_kind_t) (st st1 : estore) (e : positive) out,
      sc3_error_new efallback st = (st1, Some e, None) ->
      let st2 :=
        fst (sc3_error_set_kind SC3_BUFSIZE efallback st1 (Some e) k) in
      let st3 := fst (sc3_error_setup SC3_BUFSIZE efallback st2 (Some e)) in
      sc3_error_get_kind SC3_BUFSIZE efallback st3 (Some e) (Some out)
      = (st3, Some k, None)) /\
  (forall (k : sc3_error_kind_t) (st : estore) file ln msg out,
      avail st <> O ->
      sc3_error_get_kind SC3_BUFSIZE efallback
        (fst (new_kind st k file ln msg)) (snd (new_kind st k file ln msg))
        (Some out)
      = (fst (new_kind st k file ln msg), Some k, None)).
Proof.
  split; [|split].
  - intros st p o Ho Hs. split; [|split].
    + unfold sc3_error_is_fatal. rewrite Hs. simpl. rewrite Ho.
      apply fatal_kind_iff.
    + unfold sc3_error_is_leak. rewrite Hs. simpl. rewrite Ho.
      apply bool_decide_eq_true.
    + intros out. apply get_kind_setup; assumption.
  - intros k st st1 e out Hnew st2 st3.
    destruct (two_phase_kind st st1 e k Hnew) as (o & Ho & Hk & Hs).
    subst st3 st2. rewrite (get_kind_setup _ _ _ out Ho Hs), Hk. reflexivity.
  - intros k st file ln msg out Hav.
    destruct (new_kind_cases st k file ln msg)
      as [[H0 _]|(p & st' & -> & Hal)]; [contradiction|]. simpl.
    rewrite (get_kind_setup st' p (fresh_error k file ln msg None) out).
    + reflexivity.
    + eapply allocated_new; eassumption.
    + eapply allocated_is_setup; [exact Hal|left; reflexivity].
Qed.

(** *** Accumulating errors *)

(** C2, as the macros behave.  With an absent accumulator, [SC3E_NULL_SET]
    evaluates the expression once; a failure is handed to
    [sc3_error_new_stack], whose result, never [NULL], becomes the
    accumulator: a new FATAL error with the failure as its cause when its
    allocation succeeds.  A successful expression leaves the accumulator
    absent.  With the accumulator set, [SC3E_NULL_SET] keeps it and does not
    evaluate the expression: the program state is the one before the macro.
    [SC3E_SET] never reads the accumulator and always overwrites it. *)
Theorem null_set_keeps_first_failure :
  forall (X : Type) (f : expr X) (ftext file : string) (ln : Z)
         (w : estore * X),
    (forall st1 x1 p,
        f w = (st1, x1, Some p) ->
        SC3E_NULL_SET SC3_BUFSIZE efallback f ftext file ln w None
        = (fst (new_stack st1 (Some p) file ln ftext), x1,
           snd (new_stack st1 (Some p) file ln ftext)) /\
        (exists r,
            snd (SC3E_NULL_SET SC3_BUFSIZE efallback f ftext file ln w None)
            = Some r) /\
        (avail st1 <> O ->
         exists r,
           snd (SC3E_NULL_SET SC3_BUFSIZE efallback f ftext file ln w None)
           = Some r /\
           objs (fst (fst (SC3E_NULL_SET SC3_BUFSIZE efallback f ftext file
                             ln w None))) !! r
           = Some (fresh_error SC3_ERROR_FATAL file ln ftext (Some p)))) /\
    (forall st1 x1,
        f w = (st1, x1, None) ->
        SC3E_NULL_SET SC3_BUFSIZE efallback f ftext file ln w None
        = (st1, x1, None)) /\
    (forall a,
        SC3E_NULL_SET SC3_BUFSIZE efallback f ftext file ln w (Some a)
        = (w, Some a)) /\
    (forall e,
        SC3E_SET SC3_BUFSIZE efallback f ftext file ln w e
        = SC3E_SET SC3_BUFSIZE efallback f ftext file ln w None).
Proof.
  intros X f ftext file ln w. split; [|split; [|split]].
  - intros st1 x1 p Hf.
    assert (SC3E_NULL_SET SC3_BUFSIZE efallback f ftext file ln w None
            = (fst (new_stack st1 (Some p) file ln ftext), x1,
               snd (new_stack st1 (Some p) file ln ftext))) as Heq.
    { unfold SC3E_NULL_SET, SC3E_SET. rewrite Hf.
      destruct (new_stack st1 (Some p) file ln ftext). reflexivity. }
    rewrite Heq. split; [reflexivity|]. split.
    + destruct (new_stack_cases st1 (Some p) file ln ftext)
        as [[_ ->]|(r & st' & -> & _)]; eexists; reflexivity.
    + intros Hav.
      destruct (new_stack_allocates st1 (Some p) file ln ftext Hav)
        as (r & Hr & _ & Hobj).
      exists r. split; assumption.
  - intros st1 x1 Hf. unfold SC3E_NULL_SET, SC3E_SET. rewrite Hf.
    reflexivity.
  - intros a. reflexivity.
  - intros e. reflexivity.
Qed.

End Facts.

(** *** Concrete stores *)

(** C4 where the allocator is exhausted: the static object comes back, and
    destroying it changes nothing. *)
Lemma report_constructors_witness :
  fallback_ok 1 (Samples.store0 0) /\
  (avail (Samples.store0 0) = O /\
   sc3_error_new_bug Samples.BUFSIZE 1 (Samples.store0 0) "a.c" 7 "x > 0"
   = (Samples.store0 0, Some 1%positive)) /\
  (sentinel (Samples.store0 0) 1 /\
   sc3_error_destroy Samples.BUFSIZE 1 (Samples.store0 0) (Some 1%positive)
   = (Samples.store0 0, Some 1%positive, None)).
Proof.
  assert (fallback_ok 1 (Samples.store0 0)) as Hfb.
  { exists Samples.static_error. repeat split; reflexivity. }
  assert (sentinel (Samples.store0 0) 1) as Hsen.
  { exists Samples.static_error. repeat split; reflexivity. }
  destruct (report_constructors_never_fail Samples.BUFSIZE 1
              (Samples.store0 0) Hfb) as (Hbug & _ & Hnoop & _).
  split; [exact Hfb|]. split.
  - split; [reflexivity|].
    destruct (Hbug "a.c" 7 "x > 0") as (_ & _ & Hfail & _).
    apply Hfail. reflexivity.
  - split; [exact Hsen|]. apply (Hnoop 1%positive Hsen).
Defined.


(** C5 on the error at address 2, of kind BUG. *)
Lemma kind_predicates_witness :
  objs (Samples.store1 2) !! 2%positive
  = Some (Samples.heap_error 1 SC3_ERROR_BUG None) /\
  sc3_error_is_setup (Samples.store1 2) (Some 2%positive) = true /\
  (sc3_error_is_leak (Samples.store1 2) (Some 2%positive) = true <->
   kind (Samples.heap_error 1 SC3_ERROR_BUG None) = SC3_ERROR_LEAK) /\
  sc3_error_get_kind Samples.BUFSIZE 1 (Samples.store1 2) (Some 2%positive)
    (Some SC3_ERROR_USER)
  = (Samples.store1 2, Some SC3_ERROR_BUG, None).
Proof.
  assert (objs (Samples.store1 2) !! 2%positive
          = Some (Samples.heap_error 1 SC3_ERROR_BUG None)) as Ho
      by reflexivity.
  assert (sc3_error_is_setup (Samples.store1 2) (Some 2%positive) = true)
    as Hs by reflexivity.
  split; [exact Ho|]. split; [exact Hs|].
  destruct (kind_predicates_and_get_kind Samples.BUFSIZE 1) as [H _].
  destruct (H (Samples.store1 2) 2%positive _ Ho Hs) as (_ & Hleak & Hget).
  split; [exact Hleak|]. apply Hget.
Defined.

(** C2 with an absent accumulator and a cleanup call that reports a leak. *)
Lemma null_set_witness :
  Samples.cleanup 3 (Samples.store1 2, O)
  = (fst (fst (Samples.cleanup 3 (Samples.store1 2, O))), 1%nat,
     Some 4%positive) /\
  exists r,
    snd (SC3E_NULL_SET Samples.BUFSIZE 1 (Samples.cleanup 3)
           "sc3_error_destroy (&e)" "a.c" 9 (Samples.store1 2, O) None)
    = Some r.
Proof.
  assert (Samples.cleanup 3 (Samples.store1 2, O)
          = (fst (fst (Samples.cleanup 3 (Samples.store1 2, O))), 1%nat,
             Some 4%positive))
    as Hf by (vm_compute; reflexivity).
  split; [exact Hf|].
  destruct (null_set_keeps_first_failure Samples.BUFSIZE 1 nat
              (Samples.cleanup 3) "sc3_error_destroy (&e)" "a.c" 9
              (Samples.store1 2, O)) as [H _].
  destruct (H _ _ _ Hf) as (_ & Hr & _). exact Hr.
Defined.

(** C2 does not hold as stated: with the accumulator already set (the error at
    address 3), [SC3E_NULL_SET] does not evaluate the cleanup call
    [sc3_error_destroy] of the error at address 2.  Evaluating the call
    deallocates that error and counts one call; after the macro the error is
    still allocated and no call was counted. *)
Lemma null_set_skips_cleanup :
  (objs (fst (fst (Samples.cleanup 2 (Samples.store1 2, O)))) !! 2%positive
   = None /\
   snd (fst (Samples.cleanup 2 (Samples.store1 2, O))) = 1%nat) /\
  (objs (fst (fst (SC3E_NULL_SET Samples.BUFSIZE 1 (Samples.cleanup 2)
                     "sc3_error_destroy (&e)" "a.c" 9 (Samples.store1 2, O)
                     (Some 3%positive)))) !! 2%positive
   = Some (Samples.heap_error 1 SC3_ERROR_BUG None) /\
   snd (fst (SC3E_NULL_SET Samples.BUFSIZE 1 (Samples.cleanup 2)
               "sc3_error_destroy (&e)" "a.c" 9 (Samples.store1 2, O)
               (Some 3%positive))) = O) /\
  fst (SC3E_NULL_SET Samples.BUFSIZE 1 (Samples.cleanup 2)
         "sc3_error_destroy (&e)" "a.c" 9 (Samples.store1 2, O)
         (Some 3%positive))
  <> fst (Samples.cleanup 2 (Samples.store1 2, O)).
Proof.
  assert (snd (fst (Samples.cleanup 2 (Samples.store1 2, O))) = 1%nat) as H1
      by (vm_compute; reflexivity).
  split; [split; [vm_compute; reflexivity|exact H1]|].
  split; [split; reflexivity|].
  simpl. intros Heq. rewrite <- Heq in H1. discriminate.
Qed.

(** [SC3E_SET] on an accumulator that is already set (the error at address
    3) evaluates the cleanup call and replaces the accumulator by the new
    error at address 5, which wraps the leak report at address 4. *)
Remark set_overwrites_accumulator :
  SC3E_SET Samples.BUFSIZE 1 (Samples.cleanup 3) "sc3_error_destroy (&e)"
    "a.c" 9 (Samples.store1 2, O) (Some 3%positive)
  = (fst (fst (SC3E_SET Samples.BUFSIZE 1 (Samples.cleanup 3)
                 "sc3_error_destroy (&e)" "a.c" 9 (Samples.store1 2, O)
                 (Some 3%positive))),
     1%nat, Some 5%positive) /\
  stack <$> objs (fst (fst (SC3E_SET Samples.BUFSIZE 1 (Samples.cleanup 3)
                              "sc3_error_destroy (&e)" "a.c" 9
                              (Samples.store1 2, O) (Some 3%positive))))
            !! 5%positive
  = Some (Some 4%positive).
Proof. split; vm_compute; reflexivity. Qed.

End ErrorFacts.

Module MstampFacts.

Import Error Mstamp.

Section Queries.

Context {sc3_refcount_t sc3_allocator_t sc3_array_t : Type}.
Variable sc3_refcount_is_valid :
  option sc3_refcount_t -> option string -> bool * option string.
Variable sc3_allocator_is_setup :
  option sc3_allocator_t -> option string -> bool * option string.
Variable sc3_array_is_valid :
  option sc3_array_t -> option string -> bool * option string.
Variable sc3_array_is_setup :
  option sc3_array_t -> option string -> bool * option string.
Variable SC3_BUFSIZE : nat.

Abbreviation mstamp := (sc3_mstamp sc3_refcount_t sc3_allocator_t sc3_array_t).
Abbreviation is_valid :=
  (sc3_mstamp_is_valid sc3_refcount_is_valid sc3_allocator_is_setup
                       sc3_array_is_valid SC3_BUFSIZE).
Abbreviation is_new :=
  (sc3_mstamp_is_new sc3_refcount_is_valid sc3_allocator_is_setup
                     sc3_array_is_valid SC3_BUFSIZE).
Abbreviation is_setup :=
  (sc3_mstamp_is_setup sc3_refcount_is_valid sc3_allocator_is_setup
                       sc3_array_is_valid sc3_array_is_setup SC3_BUFSIZE).

Abbreviation reasoned := (reasoned SC3_BUFSIZE).
Abbreviation reasoned_test := (reasoned_test SC3_BUFSIZE).

Lemma reasoned_TEST x xtext reason :
  reasoned_test reason (SC3E_TEST SC3_BUFSIZE x xtext reason).
Proof.
  unfold SC3E_TEST. destruct x; simpl; [exact I|].
  destruct reason as [old|]; simpl; [|reflexivity].
  eexists; split; [reflexivity|]. split; [|discriminate].
  apply BaseFacts.length_SC3_BUFCOPY.
Qed.

Lemma reasoned_IS {T : Type}
    (f : option T -> option string -> bool * option string)
    ftext otext o reason :
  reasoned_test reason (SC3E_IS SC3_BUFSIZE f ftext otext o reason).
Proof.
  unfold SC3E_IS. destruct reason as [old|].
  - destruct (f o (Some uninit)) as [[|] r']; simpl; [exact I|].
    eexists; split; [reflexivity|]. split; [|discriminate].
    apply BaseFacts.length_sc3_snprintf.
  - destruct (fst (f o None)); simpl; [exact I|reflexivity].
Qed.

Lemma reasoned_YES reason : reasoned reason (SC3E_YES reason).
Proof.
  destruct reason as [old|]; simpl; [|reflexivity].
  exists ""; repeat split; simpl; lia.
Qed.

Lemma reasoned_seq reason t1 t2 :
  reasoned_test reason t1 -> reasoned_test reason t2 ->
  reasoned_test reason (test_seq t1 t2).
Proof. destruct t1; simpl; auto. Qed.

Lemma reasoned_then reason t k :
  reasoned_test reason t -> reasoned reason k ->
  reasoned reason (test_then t k).
Proof. destruct t; simpl; auto. Qed.

Lemma reasoned_check_alloc_logic (m : mstamp) reason :
  reasoned_test reason (check_alloc_logic SC3_BUFSIZE m reason).
Proof.
  unfold check_alloc_logic.
  destruct (setup m =? 0).
  - apply reasoned_TEST.
  - apply reasoned_seq; apply reasoned_TEST.
Qed.

Create HintDb reasons.

#[local] Hint Resolve reasoned_TEST reasoned_IS reasoned_YES
  reasoned_check_alloc_logic : reasons.

Lemma is_valid_null reason :
  is_valid None reason
  = (false, (fun _ => Base.SC3_BUFCOPY SC3_BUFSIZE "mst != NULL") <$> reason).
Proof. reflexivity. Qed.

Lemma reasoned_is_valid mst reason : reasoned reason (is_valid mst reason).
Proof.
  destruct mst as [m|].
  - unfold sc3_mstamp_is_valid.
    repeat (apply reasoned_then; [auto with reasons|]).
    apply reasoned_YES.
  - rewrite is_valid_null. destruct reason; simpl; [|reflexivity].
    eexists; split; [reflexivity|]. split; [|discriminate].
    apply BaseFacts.length_SC3_BUFCOPY.
Qed.

(** The statement [SC3E_IS (sc3_mstamp_is_valid, mst, reason)] returns 0 on
    a [NULL] handle. *)
Lemma IS_valid_null reason :
  exists r, SC3E_IS SC3_BUFSIZE is_valid "sc3_mstamp_is_valid" "mst" None reason
            = No r.
Proof.
  unfold SC3E_IS. rewrite !is_valid_null.
  destruct reason; simpl; eexists; reflexivity.
Qed.

Lemma reasoned_IS_valid_null reason k :
  reasoned reason
    (test_then
       (SC3E_IS SC3_BUFSIZE is_valid "sc3_mstamp_is_valid" "mst" None reason)
       k).
Proof.
  pose proof (reasoned_IS is_valid "sc3_mstamp_is_valid" "mst" None reason)
    as H.
  destruct (IS_valid_null reason) as [r Hr]. rewrite Hr in *. exact H.
Qed.

Lemma reasoned_is_new mst reason : reasoned reason (is_new mst reason).
Proof.
  unfold sc3_mstamp_is_new. destruct mst as [m|].
  - repeat (apply reasoned_then; [auto with reasons|]). apply reasoned_YES.
  - apply reasoned_IS_valid_null.
Qed.

Lemma reasoned_is_setup mst reason : reasoned reason (is_setup mst reason).
Proof.
  unfold sc3_mstamp_is_setup. destruct mst as [m|].
  - repeat (apply reasoned_then; [auto with reasons|]). apply reasoned_YES.
  - apply reasoned_IS_valid_null.
Qed.

Lemma is_new_null reason : fst (is_new None reason) = false.
Proof.
  unfold sc3_mstamp_is_new.
  destruct (IS_valid_null reason) as [r ->]. reflexivity.
Qed.

Lemma is_setup_null reason : fst (is_setup None reason) = false.
Proof.
  unfold sc3_mstamp_is_setup.
  destruct (IS_valid_null reason) as [r ->]. reflexivity.
Qed.

Lemma fst_test_then_false t k :
  fst k = false -> fst (test_then t k) = false.
Proof. destruct t; simpl; auto. Qed.

Lemma fst_test_then_No r k : fst (test_then (No r) k) = false.
Proof. reflexivity. Qed.

Lemma is_new_wrong_phase (m : mstamp) reason :
  setup m <> 0 -> fst (is_new (Some m) reason) = false.
Proof.
  intros Hs. unfold sc3_mstamp_is_new.
  apply fst_test_then_false.
  unfold SC3E_TEST. destruct (Z.eqb_spec (setup m) 0); [contradiction|].
  reflexivity.
Qed.

Lemma is_setup_wrong_phase (m : mstamp) reason :
  setup m = 0 -> fst (is_setup (Some m) reason) = false.
Proof.
  intros Hs. unfold sc3_mstamp_is_setup.
  do 3 apply fst_test_then_false.
  unfold SC3E_TEST. rewrite Hs. reflexivity.
Qed.


End Queries.


End MstampFacts.

Module MstampOpsFacts.

Import Error Mstamp.

Section Operations.

Context {sc3_refcount_t sc3_allocator_t sc3_array_t : Type}.
Variable sc3_refcount_is_valid :
  option sc3_refcount_t -> option string -> bool * option string.
Variable sc3_allocator_is_setup :
  option sc3_allocator_t -> option string -> bool * option string.
Variable sc3_array_is_valid :
  option sc3_array_t -> option string -> bool * option string.
Variable sc3_array_is_setup :
  option sc3_array_t -> option string -> bool * option string.
Variable SC3_BUFSIZE : nat.
Variable efallback : positive.
Variable FILE__ : string.
Variable SC_ENABLE_DEBUG : bool.

Abbreviation mstamp := (sc3_mstamp sc3_refcount_t sc3_allocator_t sc3_array_t).
Abbreviation is_valid :=
  (sc3_mstamp_is_valid sc3_refcount_is_valid sc3_allocator_is_setup
                       sc3_array_is_valid SC3_BUFSIZE).
Abbreviation is_new :=
  (sc3_mstamp_is_new sc3_refcount_is_valid sc3_allocator_is_setup
                     sc3_array_is_valid SC3_BUFSIZE).
Abbreviation is_setup :=
  (sc3_mstamp_is_setup sc3_refcount_is_valid sc3_allocator_is_setup
                       sc3_array_is_valid sc3_array_is_setup SC3_BUFSIZE).
Abbreviation seen_new :=
  (seen_new sc3_refcount_is_valid sc3_allocator_is_setup
            sc3_array_is_valid SC3_BUFSIZE).
Abbreviation seen_setup :=
  (seen_setup sc3_refcount_is_valid sc3_allocator_is_setup
              sc3_array_is_valid sc3_array_is_setup SC3_BUFSIZE).
Abbreviation setter :=
  (setter sc3_refcount_is_valid sc3_allocator_is_setup sc3_array_is_valid
          SC3_BUFSIZE efallback FILE__ SC_ENABLE_DEBUG).
Abbreviation getter :=
  (getter sc3_refcount_is_valid sc3_allocator_is_setup sc3_array_is_valid
          sc3_array_is_setup SC3_BUFSIZE efallback FILE__ SC_ENABLE_DEBUG).

(** *** The validity test *)

Lemma IS_pass_iff {T : Type}
    (f : option T -> option string -> bool * option string)
    ftext otext o reason :
  SC3E_IS SC3_BUFSIZE f ftext otext o reason = Pass <-> ask f o reason = true.
Proof.
  unfold SC3E_IS, ask. destruct reason as [old|].
  - destruct (f o (Some uninit)) as [[|] r]; simpl; split; congruence.
  - destruct (fst (f o None)); split; congruence.
Qed.

Lemma TEST_pass_iff x xtext reason :
  SC3E_TEST SC3_BUFSIZE x xtext reason = Pass <-> x = true.
Proof. unfold SC3E_TEST. destruct x; split; congruence. Qed.

Lemma test_then_true t k :
  fst (test_then t k) = true <-> t = Pass /\ fst k = true.
Proof.
  destruct t; simpl; split.
  - auto.
  - intros [_ H]; exact H.
  - discriminate.
  - intros [H _]; discriminate.
Qed.

Lemma test_seq_pass t1 t2 :
  test_seq t1 t2 = Pass <-> t1 = Pass /\ t2 = Pass.
Proof.
  destruct t1; simpl; split.
  - auto.
  - intros [_ H]; exact H.
  - discriminate.
  - intros [H _]; discriminate.
Qed.

Lemma check_alloc_logic_pass (m : mstamp) reason :
  check_alloc_logic SC3_BUFSIZE m reason = Pass <-> alloc_logic m.
Proof.
  unfold check_alloc_logic, alloc_logic.
  destruct (Z.eqb_spec (setup m) 0) as [Hs|Hs]; simpl.
  - rewrite TEST_pass_iff. apply bool_decide_eq_true.
  - rewrite test_seq_pass, !TEST_pass_iff, orb_true_iff, bool_decide_eq_true,
      Z.eqb_eq, Z.ltb_lt. reflexivity.
Qed.

Lemma is_valid_true_iff (m : mstamp) reason :
  fst (is_valid (Some m) reason) = true <->
  ask sc3_refcount_is_valid (Some (rc m)) reason = true /\
  ask sc3_allocator_is_setup (aator m) reason = true /\
  ask sc3_array_is_valid (remember m) reason = true /\
  ask sc3_array_is_valid (freed m) reason = true /\
  alloc_logic m.
Proof.
  unfold sc3_mstamp_is_valid.
  rewrite !test_then_true, !IS_pass_iff, check_alloc_logic_pass,
    TEST_pass_iff.
  split.
  - intros (_ & H1 & H2 & H3 & H4 & H5 & _). auto.
  - intros (H1 & H2 & H3 & H4 & H5).
    repeat split; try assumption;
      try (apply bool_decide_eq_true; discriminate);
      try (destruct reason; reflexivity).
Qed.

Lemma alloc_logic_invariant (m : mstamp) :
  alloc_logic m -> stamp_invariant m.
Proof.
  unfold alloc_logic, stamp_invariant.
  destruct (Z.eqb_spec (setup m) 0) as [Hs|Hs].
  - intros Hc. split; [intros; contradiction|intros _; exact Hc].
  - intros [_ Hlt]. split; [intros _ _; exact Hlt|intros; contradiction].
Qed.

(** *** The assertion in front of the setters and getters *)

Abbreviation assertion_message := (assertion_message SC3_BUFSIZE).

Lemma SC3A_IS_cases
    (f : option mstamp -> option string -> bool * option string)
    ftext mst ln st :
  SC3A_IS SC3_BUFSIZE efallback SC_ENABLE_DEBUG f ftext "mst" mst FILE__ ln st
  = if SC_ENABLE_DEBUG && negb (fst (f mst (Some uninit)))
    then Some (sc3_error_new_bug SC3_BUFSIZE efallback st FILE__ ln
                 (assertion_message ftext (f mst (Some uninit))))
    else None.
Proof.
  unfold SC3A_IS, SC3E_DEMIS, assertion_message.
  destruct SC_ENABLE_DEBUG; [|reflexivity].
  destruct (f mst (Some uninit)) as [[|] r]; reflexivity.
Qed.

(** The error that a failed assertion returns. *)
Lemma new_bug_report st ln msg :
  exists st' e,
    sc3_error_new_bug SC3_BUFSIZE efallback st FILE__ ln msg = (st', Some e) /\
    (avail st = O -> st' = st /\ e = efallback) /\
    (avail st <> O ->
     objs st !! e = None /\
     exists o, objs st' !! e = Some o /\ kind o = SC3_ERROR_BUG /\
               filename o = Base.SC3_BUFCOPY SC3_BUFSIZE FILE__ /\
               line o = ln).
Proof.
  unfold sc3_error_new_bug.
  destruct (ErrorFacts.new_kind_cases SC3_BUFSIZE efallback st SC3_ERROR_BUG
              FILE__ ln msg) as [[Hav ->]|(p & st' & -> & Hal)].
  - exists st, efallback. split; [reflexivity|]. split; [auto|].
    intros H. contradiction.
  - exists st', p. split; [reflexivity|]. split.
    + intros Hav. destruct Hal as [_ _ Hal]. congruence.
    + intros _. split; [destruct Hal; assumption|].
      eexists. split; [eapply ErrorFacts.allocated_new; exact Hal|].
      repeat split.
Qed.

Lemma seen_new_phase (m : mstamp) : seen_new (Some m) = true -> setup m = 0.
Proof.
  intros H. destruct (Z.eq_dec (setup m) 0) as [Hs|Hs]; [exact Hs|].
  unfold Mstamp.seen_new in H.
  rewrite (MstampFacts.is_new_wrong_phase _ _ _ _ _ _ Hs) in H.
  discriminate.
Qed.

Lemma seen_setup_some mst :
  seen_setup mst = true -> exists m, mst = Some m.
Proof.
  destruct mst as [m|]; [eauto|]. unfold Mstamp.seen_setup.
  rewrite MstampFacts.is_setup_null. discriminate.
Qed.

Lemma setter_meets_contract ln (upd : mstamp -> Z -> mstamp) :
  setter_contract sc3_refcount_is_valid sc3_allocator_is_setup
    sc3_array_is_valid SC3_BUFSIZE efallback FILE__ SC_ENABLE_DEBUG
    (fun st mst v => setter ln (fun m => upd m v) st mst) upd ln.
Proof.
  intros st mst v. unfold Mstamp.setter. rewrite SC3A_IS_cases.
  fold (seen_new mst).
  split; [|split].
  - intros m -> Hn. rewrite Hn, andb_false_r. reflexivity.
  - intros Hd Hn. rewrite Hd, Hn. simpl.
    destruct (new_bug_report st ln
                (assertion_message "sc3_mstamp_is_new"
                   (is_new mst (Some uninit))))
      as (st' & e & -> & H).
    exists st', e. split; [reflexivity|exact H].
  - intros Hd m ->. rewrite Hd. reflexivity.
Qed.

Lemma getter_meets_contract ln (field : mstamp -> Z) :
  getter_contract sc3_refcount_is_valid sc3_allocator_is_setup
    sc3_array_is_valid sc3_array_is_setup SC3_BUFSIZE SC_ENABLE_DEBUG
    (getter ln field) field ln.
Proof.
  intros st mst. unfold Mstamp.getter. rewrite SC3A_IS_cases.
  fold (seen_setup mst).
  split; [|split].
  - intros Hs. rewrite Hs, andb_false_r. reflexivity.
  - intros m old -> Hs. rewrite Hs, andb_false_r. reflexivity.
  - intros Hd Hs. rewrite Hd, Hs. simpl.
    destruct (new_bug_report st ln
                (assertion_message "sc3_mstamp_is_setup"
                   (is_setup mst (Some uninit))))
      as (st' & e & -> & _).
    exists st', e. split; [intros old|]; reflexivity.
Qed.

(** Without the assertion a [NULL] handle is dereferenced by every setter,
    and by every getter that was given an output pointer. *)
Remark release_build_null_handle ln (upd : mstamp -> mstamp)
    (field : mstamp -> Z) st old :
  SC_ENABLE_DEBUG = false ->
  setter ln upd st None = Undefined /\
  getter ln field st None (Some old) = Undefined /\
  getter ln field st None None = Returns (st, None, None).
Proof.
  intros Hd. unfold Mstamp.setter, Mstamp.getter.
  rewrite !SC3A_IS_cases, Hd. repeat split.
Qed.

(** What a setter can have done to the object when it returns. *)
Lemma setter_result ln (upd : mstamp -> mstamp) st m st' m' e :
  setter ln upd st (Some m) = Returns (st', Some m', e) ->
  m' = m \/
  (m' = upd m /\ (SC_ENABLE_DEBUG = true -> seen_new (Some m) = true)).
Proof.
  unfold Mstamp.setter. rewrite SC3A_IS_cases. fold (seen_new (Some m)).
  destruct SC_ENABLE_DEBUG; simpl.
  - destruct (seen_new (Some m)) eqn:Hn; simpl.
    + intros [= _ <- _]. right. auto.
    + destruct (sc3_error_new_bug _ _ _ _ _ _) as [st1 e1].
      intros [= _ <- _]. left. reflexivity.
  - intros [= _ <- _]. right. split; [reflexivity|discriminate].
Qed.

Lemma is_valid_with_ssize (m : mstamp) v reason :
  setup m = 0 ->
  is_valid (Some (with_ssize m v)) reason = is_valid (Some m) reason.
Proof.
  intros Hs. unfold sc3_mstamp_is_valid, check_alloc_logic. simpl.
  rewrite Hs. reflexivity.
Qed.

Abbreviation set_elem_size :=
  (sc3_mstamp_set_elem_size sc3_refcount_is_valid sc3_allocator_is_setup
     sc3_array_is_valid SC3_BUFSIZE efallback FILE__ SC_ENABLE_DEBUG).
Abbreviation set_stamp_size :=
  (sc3_mstamp_set_stamp_size sc3_refcount_is_valid sc3_allocator_is_setup
     sc3_array_is_valid SC3_BUFSIZE efallback FILE__ SC_ENABLE_DEBUG).
Abbreviation set_initzero :=
  (sc3_mstamp_set_initzero sc3_refcount_is_valid sc3_allocator_is_setup
     sc3_array_is_valid SC3_BUFSIZE efallback FILE__ SC_ENABLE_DEBUG).
Abbreviation get_elem_size :=
  (sc3_mstamp_get_elem_size sc3_refcount_is_valid sc3_allocator_is_setup
     sc3_array_is_valid sc3_array_is_setup SC3_BUFSIZE efallback FILE__
     SC_ENABLE_DEBUG).
Abbreviation get_stamp_size :=
  (sc3_mstamp_get_stamp_size sc3_refcount_is_valid sc3_allocator_is_setup
     sc3_array_is_valid sc3_array_is_setup SC3_BUFSIZE efallback FILE__
     SC_ENABLE_DEBUG).
Abbreviation get_stamp_count :=
  (sc3_mstamp_get_stamp_count sc3_refcount_is_valid sc3_allocator_is_setup
     sc3_array_is_valid sc3_array_is_setup SC3_BUFSIZE efallback FILE__
     SC_ENABLE_DEBUG).


(** C10.  Each of the three getters, applied to a setup arena, returns
    [NULL]; with a [NULL] output pointer nothing is written, otherwise the
    field is stored.  In a debug build, applied to anything that is not a
    setup arena, it returns an error and the cell behind a non-[NULL] output
    pointer holds 0, whatever it held before. *)
Theorem getters_tolerate_null_output :
  getter_contract sc3_refcount_is_valid sc3_allocator_is_setup
    sc3_array_is_valid sc3_array_is_setup SC3_BUFSIZE SC_ENABLE_DEBUG
    get_elem_size esize 119 /\
  getter_contract sc3_refcount_is_valid sc3_allocator_is_setup
    sc3_array_is_valid sc3_array_is_setup SC3_BUFSIZE SC_ENABLE_DEBUG
    get_stamp_size ssize 131 /\
  getter_contract sc3_refcount_is_valid sc3_allocator_is_setup
    sc3_array_is_valid sc3_array_is_setup SC3_BUFSIZE SC_ENABLE_DEBUG
    get_stamp_count scount 143.
Proof.
  split; [|split].
  - exact (getter_meets_contract 119 esize).
  - exact (getter_meets_contract 131 ssize).
  - exact (getter_meets_contract 143 scount).
Qed.

(** C6, as the code has it.  [sc3_mstamp_is_valid] answers true exactly when
    the four component queries do and the test of lines 62-69 passes: the
    current chunk is [NULL] in an arena that is not setup; in a setup arena
    the current chunk is present unless the stamp size is 0, and
    [cur_snext < per_stamp] whether or not a chunk is present.  Every arena
    that passes therefore satisfies the invariant of the data model.  Every
    setter that returns preserves that invariant, and in a debug build also
    the answer of [sc3_mstamp_is_valid]; the getters do not write to the
    arena. *)
Theorem is_valid_implies_stamp_invariant :
  forall (m : mstamp) (reason : option string),
    (fst (is_valid (Some m) reason) = true <->
     ask sc3_refcount_is_valid (Some (rc m)) reason = true /\
     ask sc3_allocator_is_setup (aator m) reason = true /\
     ask sc3_array_is_valid (remember m) reason = true /\
     ask sc3_array_is_valid (freed m) reason = true /\
     alloc_logic m) /\
    (fst (is_valid (Some m) reason) = true -> stamp_invariant m) /\
    (forall st v st' m' e,
        set_elem_size st (Some m) v = Returns (st', Some m', e) \/
        set_stamp_size st (Some m) v = Returns (st', Some m', e) \/
        set_initzero st (Some m) v = Returns (st', Some m', e) ->
        (stamp_invariant m -> stamp_invariant m') /\
        (SC_ENABLE_DEBUG = true ->
         fst (is_valid (Some m') reason) = fst (is_valid (Some m) reason))).
Proof.
  intros m reason. split; [apply is_valid_true_iff|]. split.
  - intros H. apply alloc_logic_invariant.
    apply is_valid_true_iff in H. tauto.
  - intros st v st' m' e [H|[H|H]];
      apply setter_result in H as [->|[-> Hd]].
    + split; [tauto|reflexivity].
    + split; [intros Hi; exact Hi|reflexivity].
    + split; [tauto|reflexivity].
    + split; [intros Hi; exact Hi|].
      intros Hdbg. rewrite is_valid_with_ssize; [reflexivity|].
      apply seen_new_phase. apply Hd. exact Hdbg.
    + split; [tauto|reflexivity].
    + split; [intros Hi; exact Hi|reflexivity].
Qed.

End Operations.

(** *** Concrete arenas *)


(** C10 in a debug build: a new arena is not setup, and the stale content
    of the output cell is replaced by 0. *)
Lemma getters_witness :
  seen_setup Samples.non_null Samples.non_null Samples.non_null
    Samples.non_null Samples.BUFSIZE (Some Samples.mst_setup) = true /\
  sc3_mstamp_get_stamp_size Samples.non_null Samples.non_null
    Samples.non_null Samples.non_null Samples.BUFSIZE 1 "sc3_memstamp.c" true
    (Samples.store0 1) (Some Samples.mst_setup) None
  = Returns (Samples.store0 1, None, None) /\
  seen_setup Samples.non_null Samples.non_null Samples.non_null
    Samples.non_null Samples.BUFSIZE (Some Samples.mst_new) = false /\
  exists st' e,
    sc3_mstamp_get_stamp_size Samples.non_null Samples.non_null
      Samples.non_null Samples.non_null Samples.BUFSIZE 1 "sc3_memstamp.c"
      true (Samples.store0 1) (Some Samples.mst_new) (Some 77)
    = Returns (st', Some 0, Some e).
Proof.
  destruct (@getters_tolerate_null_output unit unit unit
              Samples.non_null Samples.non_null Samples.non_null
              Samples.non_null Samples.BUFSIZE 1 "sc3_memstamp.c" true)
    as (_ & H & _).
  split; [reflexivity|]. split.
  - destruct (H (Samples.store0 1) (Some Samples.mst_setup)) as [Hn _].
    apply Hn. reflexivity.
  - split; [reflexivity|].
    destruct (H (Samples.store0 1) (Some Samples.mst_new)) as (_ & _ & Hr).
    destruct (Hr eq_refl eq_refl) as (st' & e & Hget & _).
    exists st', e. apply Hget.
Defined.

(** C6 on a setup arena that passes [sc3_mstamp_is_valid]. *)
Lemma is_valid_witness :
  fst (sc3_mstamp_is_valid Samples.non_null Samples.non_null Samples.non_null
         Samples.BUFSIZE (Some Samples.mst_setup) None) = true /\
  stamp_invariant Samples.mst_setup.
Proof.
  split; [reflexivity|].
  destruct (@is_valid_implies_stamp_invariant unit unit unit
              Samples.non_null Samples.non_null Samples.non_null
              Samples.BUFSIZE 1 "sc3_memstamp.c" true Samples.mst_setup None)
    as (_ & H & _).
  apply H. reflexivity.
Defined.

(** C6 does not hold as stated: the invariant of the data model is not what
    [sc3_mstamp_is_valid] checks.  The setup arena [mst_no_chunk] has no
    current chunk, stamp size 0 and [cur_snext = 7 >= per_stamp = 4]; it
    satisfies the invariant, its component objects are accepted, and yet the
    test of lines 62-69 fails and [sc3_mstamp_is_valid] answers false. *)
Lemma is_valid_checks_more :
  stamp_invariant Samples.mst_no_chunk /\
  check_alloc_logic Samples.BUFSIZE Samples.mst_no_chunk None <> Pass /\
  fst (sc3_mstamp_is_valid Samples.non_null Samples.non_null Samples.non_null
         Samples.BUFSIZE (Some Samples.mst_no_chunk) None) = false /\
  ~ (stamp_invariant Samples.mst_no_chunk <->
     fst (sc3_mstamp_is_valid Samples.non_null Samples.non_null
            Samples.non_null Samples.BUFSIZE (Some Samples.mst_no_chunk) None)
     = true).
Proof.
  assert (stamp_invariant Samples.mst_no_chunk) as Hinv.
  { split; simpl; [intros _ H; contradiction|discriminate]. }
  split; [exact Hinv|]. split; [discriminate|]. split; [reflexivity|].
  intros [H _]. specialize (H Hinv). discriminate.
Qed.

(** A setup arena of non-zero stamp size must have a current chunk: the
    arena [mst_lazy], for which no chunk was requested yet, satisfies the
    invariant of the data model and is rejected with the reason of line 67. *)
Remark is_valid_wants_chunk :
  stamp_invariant Samples.mst_lazy /\
  sc3_mstamp_is_valid Samples.non_null Samples.non_null Samples.non_null
    Samples.BUFSIZE (Some Samples.mst_lazy) (Some "")
  = (false, Some "mst->cur != NULL || mst->ssize == 0").
Proof.
  split; [|reflexivity].
  split; simpl; [intros _ H; contradiction|discriminate].
Qed.

End MstampOpsFacts.

Module ArenaFacts.

Import Error Arena.

Section Facts.

Context {sc3_allocator_t : Type}.
Variable sc3_allocator_malloc :
  sc3_allocator_t -> Z -> option Z * sc3_allocator_t.

Abbreviation arena := (Arena.arena sc3_allocator_t).
Abbreviation allocate := (Arena.allocate sc3_allocator_malloc).

Lemma with_free_list_same (a : arena) :
  with_free_list a (free_list a) = a.
Proof. destruct a; reflexivity. Qed.

(** Step 1: a non-empty free list is popped. *)
Lemma allocate_pops (a : arena) p rest :
  is_setup a = true -> free_list a = p :: rest ->
  allocate a = (with_free_list a rest, Pointer p).
Proof. intros Hs Hf. unfold Arena.allocate. rewrite Hs, Hf. reflexivity. Qed.

Lemma free_element_pushes (a : arena) p :
  is_setup a = true ->
  free_element a p = (with_free_list a (p :: free_list a), None).
Proof. intros Hs. unfold free_element. rewrite Hs. reflexivity. Qed.

(** Freeing and allocating again gives the arena and the pointer back. *)
Lemma allocate_after_free (a : arena) p :
  is_setup a = true ->
  allocate (fst (free_element a p)) = (a, Pointer p).
Proof.
  intros Hs. rewrite (free_element_pushes a p Hs). simpl.
  rewrite (allocate_pops _ p (free_list a)); [|exact Hs|reflexivity].
  f_equal. destruct a; reflexivity.
Qed.

(** Step 2: without a usable chunk a new one is requested. *)
Lemma allocate_grows (a : arena) base al :
  is_setup a = true -> free_list a = [] ->
  current a = None \/ current_next_index a = elements_per_stamp a ->
  sc3_allocator_malloc (allocator a) (stamp_size a) = (Some base, al) ->
  allocate a
  = (with_next_index (with_new_chunk a base al) 1, Pointer (base + 0)).
Proof.
  intros Hs Hf Hc Hm. unfold Arena.allocate. rewrite Hs, Hf. simpl.
  assert (bool_decide (current a = None)
          || (current_next_index a =? elements_per_stamp a) = true) as ->.
  { apply orb_true_iff. destruct Hc as [Hc|Hc].
    - left. apply bool_decide_eq_true. exact Hc.
    - right. apply Z.eqb_eq. exact Hc. }
  rewrite Hm. reflexivity.
Qed.

(** Step 3: the next slot of the current chunk is handed out. *)
Lemma allocate_carves (a : arena) base :
  is_setup a = true -> free_list a = [] ->
  current a = Some base ->
  current_next_index a <> elements_per_stamp a ->
  allocate a
  = (with_next_index a (current_next_index a + 1),
     Pointer (base + current_next_index a * element_size a)).
Proof.
  intros Hs Hf Hc Hn. unfold Arena.allocate. rewrite Hs, Hf. simpl.
  assert (bool_decide (current a = None)
          || (current_next_index a =? elements_per_stamp a) = false) as ->.
  { apply orb_false_iff. split.
    - apply bool_decide_eq_false. rewrite Hc. discriminate.
    - apply Z.eqb_neq. exact Hn. }
  unfold carve. rewrite Hc. reflexivity.
Qed.

(** The first four allocations of a setup arena with element size 8 and four
    elements per stamp that has no chunk yet and an empty free list. *)
Lemma first_chunk (a0 : arena) base al :
  is_setup a0 = true -> element_size a0 = 8 -> elements_per_stamp a0 = 4 ->
  current a0 = None -> free_list a0 = [] ->
  sc3_allocator_malloc (allocator a0) (stamp_size a0) = (Some base, al) ->
  let a1 := with_next_index (with_new_chunk a0 base al) 1 in
  let a2 := with_next_index a1 2 in
  let a3 := with_next_index a2 3 in
  let a4 := with_next_index a3 4 in
  allocate a0 = (a1, Pointer base) /\
  allocate a1 = (a2, Pointer (base + 8)) /\
  allocate a2 = (a3, Pointer (base + 16)) /\
  allocate a3 = (a4, Pointer (base + 24)).
Proof.
  intros Hs He Hn Hcur Hf Hm a1 a2 a3 a4.
  split.
  { rewrite (allocate_grows a0 base al Hs Hf (or_introl Hcur) Hm).
    rewrite Z.add_0_r. reflexivity. }
  split.
  { rewrite (allocate_carves a1 base Hs Hf eq_refl).
    - simpl. rewrite He. reflexivity.
    - simpl. rewrite Hn. lia. }
  split.
  { rewrite (allocate_carves a2 base Hs Hf eq_refl).
    - simpl. rewrite He. reflexivity.
    - simpl. rewrite Hn. lia. }
  rewrite (allocate_carves a3 base Hs Hf eq_refl).
  - simpl. rewrite He. reflexivity.
  - simpl. rewrite Hn. lia.
Qed.

(** C8.  In a setup arena with a non-empty free list [allocate] pops the top
    of the list, so that the element freed last is returned first and the
    arena is as before the [free_element].  In particular, in an arena with
    element size 8 and four elements per stamp that starts without a chunk,
    four allocations return four distinct addresses inside the one chunk,
    [stamp_count] is 1, and after freeing the second address the next
    allocation returns it. *)
Theorem allocate_returns_last_freed :
  (forall (a : arena) p rest,
      is_setup a = true -> free_list a = p :: rest ->
      allocate a = (with_free_list a rest, Pointer p)) /\
  (forall (a : arena) p,
      is_setup a = true ->
      allocate (fst (free_element a p)) = (a, Pointer p)) /\
  (forall (a0 : arena) base al,
      is_setup a0 = true -> element_size a0 = 8 ->
      elements_per_stamp a0 = 4 -> stamp_count a0 = 0 ->
      current a0 = None -> free_list a0 = [] ->
      sc3_allocator_malloc (allocator a0) (stamp_size a0) = (Some base, al) ->
      exists a1 a2 a3 a4 pa pb pc pd,
        allocate a0 = (a1, Pointer pa) /\
        allocate a1 = (a2, Pointer pb) /\
        allocate a2 = (a3, Pointer pc) /\
        allocate a3 = (a4, Pointer pd) /\
        (pa <> pb /\ pa <> pc /\ pa <> pd /\ pb <> pc /\ pb <> pd /\
         pc <> pd) /\
        Forall (fun q => base <= q /\ q + 8 <= base + 4 * 8) [pa; pb; pc; pd] /\
        stamp_count a4 = 1 /\
        chunks a4 = (chunks a0 ++ [base])%list /\
        allocate (fst (free_element a4 pb)) = (a4, Pointer pb)).
Proof.
  split; [exact allocate_pops|]. split; [exact allocate_after_free|].
  intros a0 base al Hs He Hn Hc Hcur Hf Hm.
  destruct (first_chunk a0 base al Hs He Hn Hcur Hf Hm)
    as (H1 & H2 & H3 & H4).
  eexists _, _, _, _, base, (base + 8), (base + 16), (base + 24).
  split; [exact H1|]. split; [exact H2|]. split; [exact H3|].
  split; [exact H4|].
  split; [lia|].
  split; [repeat constructor; lia|].
  split; [simpl; rewrite Hc; reflexivity|].
  split; [reflexivity|].
  apply allocate_after_free. exact Hs.
Qed.

(** The description of [allocate] in three steps leaves
    [current_next_index] equal to [elements_per_stamp] once the last slot of
    a chunk is handed out, with the chunk still current: between two calls
    only [current_next_index <= elements_per_stamp] holds.  The test
    [cur_snext < per_stamp] of [sc3_mstamp_is_valid] in the sources rejects
    such a state. *)
Remark three_step_allocate_fills_chunk (a0 : arena) base al :
  is_setup a0 = true -> element_size a0 = 8 -> elements_per_stamp a0 = 4 ->
  current a0 = None -> free_list a0 = [] ->
  sc3_allocator_malloc (allocator a0) (stamp_size a0) = (Some base, al) ->
  exists a4,
    (exists a1 a2 a3 pa pb pc pd,
        allocate a0 = (a1, Pointer pa) /\ allocate a1 = (a2, Pointer pb) /\
        allocate a2 = (a3, Pointer pc) /\ allocate a3 = (a4, Pointer pd)) /\
    is_setup a4 = true /\ current a4 = Some base /\
    current_next_index a4 = elements_per_stamp a4.
Proof.
  intros Hs He Hn Hcur Hf Hm.
  destruct (first_chunk a0 base al Hs He Hn Hcur Hf Hm)
    as (H1 & H2 & H3 & H4).
  eexists. split; [eexists _, _, _, _, _, _, _; eauto|].
  split; [exact Hs|]. split; [reflexivity|]. simpl. rewrite Hn. reflexivity.
Qed.

End Facts.

(** C8 with an allocator that hands out consecutive blocks from 4096. *)
Lemma allocate_returns_last_freed_witness :
  (is_setup Samples.arena0 = true /\
   element_size Samples.arena0 = 8 /\
   elements_per_stamp Samples.arena0 = 4 /\
   stamp_count Samples.arena0 = 0 /\
   current Samples.arena0 = None /\
   free_list Samples.arena0 = [] /\
   Samples.bump (allocator Samples.arena0) (stamp_size Samples.arena0)
   = (Some 4096, 4128)) /\
  exists a1 a2 a3 a4 pa pb pc pd,
    allocate Samples.bump Samples.arena0 = (a1, Pointer pa) /\
    allocate Samples.bump a1 = (a2, Pointer pb) /\
    allocate Samples.bump a2 = (a3, Pointer pc) /\
    allocate Samples.bump a3 = (a4, Pointer pd) /\
    (pa <> pb /\ pa <> pc /\ pa <> pd /\ pb <> pc /\ pb <> pd /\
     pc <> pd) /\
    Forall (fun q => 4096 <= q /\ q + 8 <= 4096 + 4 * 8) [pa; pb; pc; pd] /\
    stamp_count a4 = 1 /\
    chunks a4 = (chunks Samples.arena0 ++ [4096])%list /\
    allocate Samples.bump (fst (free_element a4 pb)) = (a4, Pointer pb).
Proof.
  split; [repeat split|].
  destruct (allocate_returns_last_freed Samples.bump) as (_ & _ & H).
  apply (H Samples.arena0 4096 4128); reflexivity.
Defined.

End ArenaFacts.

Module MstampMoreFacts.

Import Error Mstamp Config.

Section More.

Context {sc3_refcount_t sc3_allocator_t sc3_array_t : Type}.
Variable sc3_refcount_is_valid :
  option sc3_refcount_t -> option string -> bool * option string.
Variable sc3_allocator_is_setup :
  option sc3_allocator_t -> option string -> bool * option string.
Variable sc3_array_is_valid :
  option sc3_array_t -> option string -> bool * option string.
Variable sc3_array_is_setup :
  option sc3_array_t -> option string -> bool * option string.
Variable SC3_BUFSIZE : nat.
Variable efallback : positive.
Variable FILE__ : string.
Variable SC_ENABLE_DEBUG : bool.

Abbreviation mstamp := (sc3_mstamp sc3_refcount_t sc3_allocator_t sc3_array_t).
Abbreviation is_valid :=
  (sc3_mstamp_is_valid sc3_refcount_is_valid sc3_allocator_is_setup
                       sc3_array_is_valid SC3_BUFSIZE).
Abbreviation is_new :=
  (sc3_mstamp_is_new sc3_refcount_is_valid sc3_allocator_is_setup
                     sc3_array_is_valid SC3_BUFSIZE).
Abbreviation is_setup :=
  (sc3_mstamp_is_setup sc3_refcount_is_valid sc3_allocator_is_setup
                       sc3_array_is_valid sc3_array_is_setup SC3_BUFSIZE).
Abbreviation seen_new :=
  (seen_new sc3_refcount_is_valid sc3_allocator_is_setup
            sc3_array_is_valid SC3_BUFSIZE).
Abbreviation seen_setup :=
  (seen_setup sc3_refcount_is_valid sc3_allocator_is_setup
              sc3_array_is_valid sc3_array_is_setup SC3_BUFSIZE).

(** *** The buffer of the caller *)

Lemma is_valid_any_buffer (mst : option mstamp) a b :
  is_valid mst (Some a) = is_valid mst (Some b).
Proof. destruct mst; reflexivity. Qed.

Lemma is_new_any_buffer (mst : option mstamp) a b :
  is_new mst (Some a) = is_new mst (Some b).
Proof. destruct mst; reflexivity. Qed.

Lemma is_setup_any_buffer (mst : option mstamp) a b :
  is_setup mst (Some a) = is_setup mst (Some b).
Proof. destruct mst; reflexivity. Qed.

Lemma ask_is_valid (mst : option mstamp) reason :
  ask is_valid mst reason = fst (is_valid mst reason).
Proof.
  destruct reason as [old|]; simpl; [|reflexivity].
  f_equal. apply is_valid_any_buffer.
Qed.

(** *** The two phases *)

Lemma fst_YES reason : fst (SC3E_YES reason) = true.
Proof. reflexivity. Qed.

Lemma is_new_true_iff (m : mstamp) reason :
  fst (is_new (Some m) reason) = true <->
  fst (is_valid (Some m) reason) = true /\ setup m = 0.
Proof.
  unfold sc3_mstamp_is_new.
  rewrite !MstampOpsFacts.test_then_true, MstampOpsFacts.IS_pass_iff,
    MstampOpsFacts.TEST_pass_iff, ask_is_valid, Z.eqb_eq, fst_YES.
  tauto.
Qed.

Lemma is_setup_true_iff (m : mstamp) reason :
  fst (is_setup (Some m) reason) = true <->
  fst (is_valid (Some m) reason) = true /\
  ask sc3_array_is_setup (remember m) reason = true /\
  ask sc3_array_is_setup (freed m) reason = true /\
  setup m <> 0.
Proof.
  unfold sc3_mstamp_is_setup.
  rewrite !MstampOpsFacts.test_then_true, !MstampOpsFacts.IS_pass_iff,
    MstampOpsFacts.TEST_pass_iff, ask_is_valid, negb_true_iff, Z.eqb_neq,
    fst_YES.
  tauto.
Qed.

Lemma never_new_and_setup (mst : option mstamp) reason :
  fst (is_new mst reason) && fst (is_setup mst reason) = false.
Proof.
  destruct mst as [m|].
  - destruct (fst (is_new (Some m) reason)) eqn:Hn; [|reflexivity].
    destruct (fst (is_setup (Some m) reason)) eqn:Hs; [|reflexivity].
    apply is_new_true_iff in Hn. apply is_setup_true_iff in Hs.
    exfalso. tauto.
  - rewrite MstampFacts.is_new_null. reflexivity.
Qed.

(** X1.  The two phases of an arena.  [sc3_mstamp_is_new] answers true
    exactly on a valid arena whose [setup] flag is 0, [sc3_mstamp_is_setup]
    exactly on a valid arena whose [setup] flag is set and whose two arrays
    are setup; the two never answer true on the same arena. *)
Theorem phases_are_exclusive :
  forall (mst : option mstamp) (reason : option string),
    (fst (is_new mst reason) = true <->
     exists m, mst = Some m /\ fst (is_valid mst reason) = true /\
               setup m = 0) /\
    (fst (is_setup mst reason) = true <->
     exists m, mst = Some m /\ fst (is_valid mst reason) = true /\
               ask sc3_array_is_setup (remember m) reason = true /\
               ask sc3_array_is_setup (freed m) reason = true /\
               setup m <> 0) /\
    (fst (is_new mst reason) && fst (is_setup mst reason) = false).
Proof.
  intros mst reason. destruct mst as [m|].
  - split; [|split].
    + rewrite is_new_true_iff. split.
      * intros H. exists m. tauto.
      * intros (m' & [= <-] & H). exact H.
    + rewrite is_setup_true_iff. split.
      * intros H. exists m. tauto.
      * intros (m' & [= <-] & H). exact H.
    + apply never_new_and_setup.
  - rewrite MstampFacts.is_new_null, MstampFacts.is_setup_null.
    split; [|split]; try reflexivity;
      (split; [discriminate|intros (m & H & _); discriminate]).
Qed.

(** *** The reason that is written *)

Lemma is_new_explains_invalid (mst : option mstamp) old r :
  is_valid mst (Some uninit) = (false, Some r) ->
  is_new mst (Some old)
  = (false,
     Some (Base.sc3_snprintf SC3_BUFSIZE
             (Base.fmt_is "sc3_mstamp_is_valid" "mst" r))).
Proof.
  intros H. unfold sc3_mstamp_is_new, SC3E_IS. rewrite H. reflexivity.
Qed.

Lemma is_setup_explains_invalid (mst : option mstamp) old r :
  is_valid mst (Some uninit) = (false, Some r) ->
  is_setup mst (Some old)
  = (false,
     Some (Base.sc3_snprintf SC3_BUFSIZE
             (Base.fmt_is "sc3_mstamp_is_valid" "mst" r))).
Proof.
  intros H. unfold sc3_mstamp_is_setup, SC3E_IS. rewrite H. reflexivity.
Qed.

Lemma IS_pass_buffer {T : Type}
    (f : option T -> option string -> bool * option string)
    ftext otext o old :
  fst (f o (Some uninit)) = true ->
  SC3E_IS SC3_BUFSIZE f ftext otext o (Some old) = Pass.
Proof.
  intros H. unfold SC3E_IS. destruct (f o (Some uninit)) as [b r].
  simpl in H. rewrite H. reflexivity.
Qed.


(** *** Sequences of calls *)

Abbreviation call_setter :=
  (call_setter sc3_refcount_is_valid sc3_allocator_is_setup
     sc3_array_is_valid SC3_BUFSIZE efallback FILE__ SC_ENABLE_DEBUG).
Abbreviation call_getter :=
  (call_getter sc3_refcount_is_valid sc3_allocator_is_setup
     sc3_array_is_valid SC3_BUFSIZE efallback FILE__ SC_ENABLE_DEBUG
     sc3_array_is_setup).
Abbreviation configure :=
  (configure sc3_refcount_is_valid sc3_allocator_is_setup
     sc3_array_is_valid SC3_BUFSIZE efallback FILE__ SC_ENABLE_DEBUG).
Abbreviation assertion_report :=
  (assertion_report SC3_BUFSIZE efallback FILE__).
Abbreviation assertion_message := (assertion_message SC3_BUFSIZE).

Lemma call_setter_new s st (m : mstamp) :
  seen_new (Some m) = true ->
  call_setter s st (Some m) = Returns (st, Some (stored s m), None).
Proof.
  intros Hn.
  destruct s as [v|v|v]; simpl.
  - destruct (MstampOpsFacts.setter_meets_contract sc3_refcount_is_valid
                sc3_allocator_is_setup sc3_array_is_valid SC3_BUFSIZE
                efallback FILE__ SC_ENABLE_DEBUG 94 with_esize st (Some m) v)
      as [H _].
    apply (H m eq_refl Hn).
  - destruct (MstampOpsFacts.setter_meets_contract sc3_refcount_is_valid
                sc3_allocator_is_setup sc3_array_is_valid SC3_BUFSIZE
                efallback FILE__ SC_ENABLE_DEBUG 102 with_ssize st (Some m) v)
      as [H _].
    apply (H m eq_refl Hn).
  - destruct (MstampOpsFacts.setter_meets_contract sc3_refcount_is_valid
                sc3_allocator_is_setup sc3_array_is_valid SC3_BUFSIZE
                efallback FILE__ SC_ENABLE_DEBUG 110 with_initzero st
                (Some m) v) as [H _].
    apply (H m eq_refl Hn).
Qed.

(** A setter leaves a new arena new. *)
Lemma stored_stays_new s (m : mstamp) :
  seen_new (Some m) = true -> seen_new (Some (stored s m)) = true.
Proof.
  intros Hn. destruct s as [v|v|v]; simpl; try exact Hn.
  unfold Mstamp.seen_new in *.
  apply is_new_true_iff in Hn as [Hv Hs]. apply is_new_true_iff.
  split; [|exact Hs].
  rewrite (MstampOpsFacts.is_valid_with_ssize _ _ _ _ _ _ _ Hs). exact Hv.
Qed.

(** X3.  Configuration calls can be chained.  On a new arena every sequence
    of calls of the three setters succeeds, in a debug build as in a release
    build, without touching the error store; the arena is still new
    afterwards; each of the fields [esize], [ssize] and [initzero] holds the
    argument of the last call made for it, whatever the order of the calls
    for the other fields, and no other field changes. *)
Theorem configuration_can_be_chained :
  forall (l : list setting) (st : estore) (m : mstamp),
    seen_new (Some m) = true ->
    exists m',
      configure l st (Some m) = Returns (st, Some m', None) /\
      seen_new (Some m') = true /\
      esize m' = last_elem_size l (esize m) /\
      ssize m' = last_stamp_size l (ssize m) /\
      initzero m' = last_init_zero l (initzero m) /\
      (rc m', aator m', setup m', scount m', per_stamp m')
      = (rc m, aator m, setup m, scount m, per_stamp m) /\
      (cur m', cur_snext m', remember m', freed m')
      = (cur m, cur_snext m, remember m, freed m).
Proof.
  induction l as [|s l IH]; intros st m Hn.
  - exists m. repeat split; assumption.
  - simpl. rewrite (call_setter_new s st m Hn).
    destruct (IH st (stored s m) (stored_stays_new s m Hn))
      as (m' & Hc & Hn' & He & Hs & Hi & H1 & H2).
    exists m'. split; [exact Hc|]. split; [exact Hn'|].
    unfold last_elem_size, last_stamp_size, last_init_zero in *. simpl.
    destruct s; simpl in *; repeat split; assumption.
Qed.

(** *** A setter and a getter on the same arena *)

Lemma new_bug_not_null st file ln msg :
  snd (sc3_error_new_bug SC3_BUFSIZE efallback st file ln msg) <> None.
Proof.
  unfold sc3_error_new_bug.
  destruct (ErrorFacts.new_kind_cases SC3_BUFSIZE efallback st SC3_ERROR_BUG
              file ln msg) as [[_ ->]|(p & st' & -> & _)]; discriminate.
Qed.

Lemma setter_success_new ln (upd : mstamp -> mstamp) st mst st' mst' :
  SC_ENABLE_DEBUG = true ->
  setter sc3_refcount_is_valid sc3_allocator_is_setup sc3_array_is_valid
    SC3_BUFSIZE efallback FILE__ SC_ENABLE_DEBUG ln upd st mst
  = Returns (st', mst', None) ->
  seen_new mst = true.
Proof.
  intros Hd. unfold setter. rewrite MstampOpsFacts.SC3A_IS_cases, Hd.
  fold (seen_new mst). destruct (seen_new mst); [reflexivity|]. simpl.
  pose proof (new_bug_not_null st FILE__ ln
                (assertion_message "sc3_mstamp_is_new"
                   (is_new mst (Some uninit)))) as Hnn.
  destruct (sc3_error_new_bug _ _ _ _ _ _) as [st1 e1]. simpl in Hnn.
  intros [= _ _ He]. contradiction.
Qed.

Lemma getter_success_setup ln (field : mstamp -> Z) st mst out st' out' :
  SC_ENABLE_DEBUG = true ->
  getter sc3_refcount_is_valid sc3_allocator_is_setup sc3_array_is_valid
    sc3_array_is_setup SC3_BUFSIZE efallback FILE__ SC_ENABLE_DEBUG
    ln field st mst out
  = Returns (st', out', None) ->
  seen_setup mst = true.
Proof.
  intros Hd. unfold getter. rewrite MstampOpsFacts.SC3A_IS_cases, Hd.
  fold (seen_setup mst). destruct (seen_setup mst); [reflexivity|]. simpl.
  pose proof (new_bug_not_null st FILE__ ln
                (assertion_message "sc3_mstamp_is_setup"
                   (is_setup mst (Some uninit)))) as Hnn.
  destruct (sc3_error_new_bug _ _ _ _ _ _) as [st1 e1]. simpl in Hnn.
  intros [= _ _ He]. contradiction.
Qed.

(** *** The error of a failed assertion *)

Lemma assertion_message_fits ftext res :
  Base.SC3_BUFCOPY SC3_BUFSIZE (assertion_message ftext res)
  = assertion_message ftext res.
Proof.
  unfold Base.SC3_BUFCOPY, Mstamp.assertion_message.
  unfold Base.sc3_snprintf at 1.
  apply BaseFacts.substring_all. apply BaseFacts.length_sc3_snprintf.
Qed.

Lemma new_bug_assertion_report st ln ftext res :
  exists st' e,
    sc3_error_new_bug SC3_BUFSIZE efallback st FILE__ ln
      (assertion_message ftext res) = (st', Some e) /\
    assertion_report st ln (assertion_message ftext res) st' e.
Proof.
  unfold Config.assertion_report, sc3_error_new_bug.
  destruct (ErrorFacts.new_kind_cases SC3_BUFSIZE efallback st SC3_ERROR_BUG
              FILE__ ln (assertion_message ftext res))
    as [[Hav ->]|(p & st' & -> & Hal)].
  - exists st, efallback. split; [reflexivity|].
    split; [reflexivity|]. split; [auto|]. split; [lia|].
    intros H. contradiction.
  - exists st', p. split; [reflexivity|]. split; [reflexivity|].
    split; [intros q o Hq; eapply ErrorFacts.allocated_old; eassumption|].
    split; [destruct Hal as [_ _ Hav]; lia|].
    intros _.
    pose proof (ErrorFacts.allocated_new _ _ _ _ Hal) as Hp.
    eexists. split; [exact Hp|]. split; [apply assertion_message_fits|].
    split; [reflexivity|].
    assert (sc3_error_is_setup st' (Some p) = true) as Hs
        by (eapply ErrorFacts.allocated_is_setup;
            [exact Hal|left; reflexivity]).
    unfold sc3_error_is_fatal. rewrite Hs. simpl. rewrite Hp. reflexivity.
Qed.

Lemma call_setter_rejected s st mst :
  SC_ENABLE_DEBUG = true -> seen_new mst = false ->
  exists st' e,
    call_setter s st mst = Returns (st', mst, Some e) /\
    assertion_report st (setter_line s)
      (assertion_message "sc3_mstamp_is_new" (is_new mst (Some uninit)))
      st' e.
Proof.
  intros Hd Hn.
  destruct (new_bug_assertion_report st (setter_line s) "sc3_mstamp_is_new"
              (is_new mst (Some uninit))) as (st' & e & Hb & Hr).
  exists st', e. split; [|exact Hr].
  destruct s; simpl in *;
    unfold sc3_mstamp_set_elem_size, sc3_mstamp_set_stamp_size,
      sc3_mstamp_set_initzero, setter;
    rewrite MstampOpsFacts.SC3A_IS_cases, Hd;
    fold (seen_new mst); rewrite Hn; simpl;
    fold (assertion_message "sc3_mstamp_is_new" (is_new mst (Some uninit)));
    rewrite Hb; reflexivity.
Qed.

Lemma call_getter_rejected g st mst out :
  SC_ENABLE_DEBUG = true -> seen_setup mst = false ->
  exists st' e,
    call_getter g st mst out = Returns (st', SC3E_RETOPT out 0, Some e) /\
    assertion_report st (getter_line g)
      (assertion_message "sc3_mstamp_is_setup" (is_setup mst (Some uninit)))
      st' e.
Proof.
  intros Hd Hn.
  destruct (new_bug_assertion_report st (getter_line g)
              "sc3_mstamp_is_setup" (is_setup mst (Some uninit)))
    as (st' & e & Hb & Hr).
  exists st', e. split; [|exact Hr].
  destruct g; simpl in *;
    unfold sc3_mstamp_get_elem_size, sc3_mstamp_get_stamp_size,
      sc3_mstamp_get_stamp_count, getter;
    rewrite MstampOpsFacts.SC3A_IS_cases, Hd;
    fold (seen_setup mst); rewrite Hn; simpl;
    fold (assertion_message "sc3_mstamp_is_setup"
            (is_setup mst (Some uninit)));
    rewrite Hb; reflexivity.
Qed.

(** X4.  A setter and a getter on the same arena.  In a debug build no
    arena accepts both: where a setter returns [NULL], every getter returns
    an error and leaves 0 in its output cell; where a getter returns
    [NULL], every setter returns an error and leaves the arena as it is.
    In a release build a size that was set is read back, in whatever phase
    the arena is. *)
Theorem setter_and_getter :
  (SC_ENABLE_DEBUG = true ->
   forall s g st1 st2 mst out,
     ((exists st1' mst', call_setter s st1 mst = Returns (st1', mst', None)) ->
      exists st2' e,
        call_getter g st2 mst out
        = Returns (st2', SC3E_RETOPT out 0, Some e)) /\
     ((exists st2' out',
          call_getter g st2 mst out = Returns (st2', out', None)) ->
      exists st1' e,
        call_setter s st1 mst = Returns (st1', mst, Some e))) /\
  (SC_ENABLE_DEBUG = false ->
   forall st (m : mstamp) v old,
     (exists m',
         call_setter (elem_size v) st (Some m) = Returns (st, Some m', None) /\
         call_getter get_elem_size st (Some m') (Some old)
         = Returns (st, Some v, None)) /\
     (exists m',
         call_setter (stamp_size v) st (Some m)
         = Returns (st, Some m', None) /\
         call_getter get_stamp_size st (Some m') (Some old)
         = Returns (st, Some v, None))).
Proof.
  split.
  - intros Hd s g st1 st2 mst out.
    pose proof (never_new_and_setup mst (Some uninit)) as Hex.
    fold (seen_new mst) in Hex. fold (seen_setup mst) in Hex.
    split.
    + intros (st1' & mst' & Hs).
      assert (seen_new mst = true) as Hn
          by (destruct s; simpl in Hs;
              eapply setter_success_new; eassumption).
      rewrite Hn in Hex. simpl in Hex.
      destruct (call_getter_rejected g st2 mst out Hd Hex)
        as (st2' & e & Hg & _).
      exists st2', e. exact Hg.
    + intros (st2' & out' & Hg).
      assert (seen_setup mst = true) as Hsu
          by (destruct g; simpl in Hg;
              eapply getter_success_setup; eassumption).
      rewrite Hsu, andb_true_r in Hex.
      destruct (call_setter_rejected s st1 mst Hd Hex)
        as (st1' & e & Hs & _).
      exists st1', e. exact Hs.
  - intros Hd st m v old. split.
    + exists (with_esize m v). simpl.
      unfold sc3_mstamp_set_elem_size, sc3_mstamp_get_elem_size, setter,
        getter.
      rewrite !MstampOpsFacts.SC3A_IS_cases, Hd. split; reflexivity.
    + exists (with_ssize m v). simpl.
      unfold sc3_mstamp_set_stamp_size, sc3_mstamp_get_stamp_size, setter,
        getter.
      rewrite !MstampOpsFacts.SC3A_IS_cases, Hd. split; reflexivity.
Qed.

(** X5.  The error of a failed assertion, in a debug build.  A setter given
    anything but a new arena, and a getter given anything but a setup arena,
    return the result of [sc3_error_new_bug] for their own line, with the
    message ["sc3_mstamp_is_new(mst): reason"], respectively
    ["sc3_mstamp_is_setup(mst): reason"], cut to the buffer, where the
    reason is the one the query wrote.  The call changes no error object
    that existed and uses at most one allocation; an allocated error is
    fatal.  The arena is untouched and an output cell is left at 0. *)
Theorem failed_assertion_is_reported :
  SC_ENABLE_DEBUG = true ->
  (forall s st mst,
      seen_new mst = false ->
      exists st' e,
        call_setter s st mst = Returns (st', mst, Some e) /\
        assertion_report st (setter_line s)
          (assertion_message "sc3_mstamp_is_new" (is_new mst (Some uninit)))
          st' e) /\
  (forall g st mst out,
      seen_setup mst = false ->
      exists st' e,
        call_getter g st mst out
        = Returns (st', SC3E_RETOPT out 0, Some e) /\
        assertion_report st (getter_line g)
          (assertion_message "sc3_mstamp_is_setup"
             (is_setup mst (Some uninit)))
          st' e).
Proof.
  intros Hd. split.
  - intros s st mst Hn. apply call_setter_rejected; assumption.
  - intros g st mst out Hn. apply call_getter_rejected; assumption.
Qed.

End More.

(** *** Concrete arenas *)

Abbreviation sample_is_valid :=
  (@sc3_mstamp_is_valid unit unit unit Samples.non_null Samples.non_null
     Samples.non_null Samples.BUFSIZE).
Abbreviation sample_is_new :=
  (@sc3_mstamp_is_new unit unit unit Samples.non_null Samples.non_null
     Samples.non_null Samples.BUFSIZE).
Abbreviation sample_is_setup :=
  (@sc3_mstamp_is_setup unit unit unit Samples.non_null Samples.non_null
     Samples.non_null Samples.non_null Samples.BUFSIZE).
Abbreviation sample_seen_new :=
  (@seen_new unit unit unit Samples.non_null Samples.non_null
     Samples.non_null Samples.BUFSIZE).
Abbreviation sample_seen_setup :=
  (@seen_setup unit unit unit Samples.non_null Samples.non_null
     Samples.non_null Samples.non_null Samples.BUFSIZE).
Abbreviation sample_setter :=
  (@call_setter unit unit unit Samples.non_null Samples.non_null
     Samples.non_null Samples.BUFSIZE 1 "sc3_memstamp.c").
Abbreviation sample_getter :=
  (fun debug =>
     @call_getter unit unit unit Samples.non_null Samples.non_null
       Samples.non_null Samples.BUFSIZE 1 "sc3_memstamp.c" debug
       Samples.non_null).

(** X1 on the new arena. *)
Lemma phases_witness :
  (exists m, Some Samples.mst_new = Some m /\
             fst (sample_is_valid (Some Samples.mst_new) None) = true /\
             setup m = 0) /\
  fst (sample_is_new (Some Samples.mst_new) None) = true /\
  fst (sample_is_setup (Some Samples.mst_new) None) = false.
Proof.
  destruct (@phases_are_exclusive unit unit unit Samples.non_null
              Samples.non_null Samples.non_null Samples.non_null
              Samples.BUFSIZE (Some Samples.mst_new) None)
    as (Hn & _ & Hex).
  assert (exists m, Some Samples.mst_new = Some m /\
                    fst (sample_is_valid (Some Samples.mst_new) None) = true
                    /\ setup m = 0) as Hm
      by (exists Samples.mst_new; repeat split).
  split; [exact Hm|].
  apply Hn in Hm. split; [exact Hm|].
  rewrite Hm in Hex. exact Hex.
Defined.


(** X3 with four calls, two of them for the element size. *)
Lemma configuration_witness :
  sample_seen_new (Some Samples.mst_new) = true /\
  exists m',
    @configure unit unit unit Samples.non_null Samples.non_null
      Samples.non_null Samples.BUFSIZE 1 "sc3_memstamp.c" true
      [elem_size 8; stamp_size 32; elem_size 16; init_zero 1]
      (Samples.store0 1) (Some Samples.mst_new)
    = Returns (Samples.store0 1, Some m', None) /\
    sample_seen_new (Some m') = true /\
    esize m' = 16 /\ ssize m' = 32 /\ initzero m' = 1.
Proof.
  split; [reflexivity|].
  destruct (@configuration_can_be_chained unit unit unit Samples.non_null
              Samples.non_null Samples.non_null Samples.BUFSIZE 1
              "sc3_memstamp.c" true
              [elem_size 8; stamp_size 32; elem_size 16; init_zero 1]
              (Samples.store0 1) Samples.mst_new eq_refl)
    as (m' & Hc & Hn & He & Hs & Hi & _).
  exists m'. repeat split; assumption.
Defined.

(** X4 in a debug build, on the new arena. *)
Lemma setter_and_getter_witness :
  (exists st1' mst',
      sample_setter true (elem_size 8) (Samples.store0 1)
        (Some Samples.mst_new)
      = Returns (st1', mst', None)) /\
  exists st2' e,
    sample_getter true get_elem_size (Samples.store0 1)
      (Some Samples.mst_new) (Some 77)
    = Returns (st2', Some 0, Some e).
Proof.
  assert (exists st1' mst',
             sample_setter true (elem_size 8) (Samples.store0 1)
               (Some Samples.mst_new)
             = Returns (st1', mst', None)) as Hs
      by (eexists _, _; reflexivity).
  split; [exact Hs|].
  destruct (@setter_and_getter unit unit unit Samples.non_null
              Samples.non_null Samples.non_null Samples.non_null
              Samples.BUFSIZE 1 "sc3_memstamp.c" true) as [H _].
  destruct (H eq_refl (elem_size 8) get_elem_size (Samples.store0 1)
              (Samples.store0 1) (Some Samples.mst_new) (Some 77))
    as [Hsg _].
  apply Hsg. exact Hs.
Defined.

(** X5 in a debug build: a setup arena given to a setter. *)
Lemma failed_assertion_witness :
  sample_seen_new (Some Samples.mst_setup) = false /\
  exists st' e,
    sample_setter true (stamp_size 64) (Samples.store0 1)
      (Some Samples.mst_setup)
    = Returns (st', Some Samples.mst_setup, Some e) /\
    exists o, objs st' !! e = Some o /\
              errmsg o = "sc3_mstamp_is_new(mst): !mst->setup" /\
              line o = 102.
Proof.
  split; [reflexivity|].
  destruct (@failed_assertion_is_reported unit unit unit Samples.non_null
              Samples.non_null Samples.non_null Samples.non_null
              Samples.BUFSIZE 1 "sc3_memstamp.c" true eq_refl) as [H _].
  destruct (H (stamp_size 64) (Samples.store0 1) (Some Samples.mst_setup)
              eq_refl) as (st' & e & Hc & _ & _ & _ & Ho).
  exists st', e. split; [exact Hc|].
  destruct Ho as (o & Ho & Hm & Hl & _); [discriminate|].
  exists o. split; [exact Ho|]. split; [exact Hm|exact Hl].
Defined.

End MstampMoreFacts.

Module MacrosFacts.

Import Error Macros.

Section Facts.

Variable SC3_BUFSIZE : nat.
Variable efallback : positive.
Variable SC_ENABLE_DEBUG : bool.
Context {X : Type}.

Abbreviation new_stack := (sc3_error_new_stack SC3_BUFSIZE efallback).
Abbreviation new_bug := (sc3_error_new_bug SC3_BUFSIZE efallback).
Abbreviation SC3E := (@SC3E SC3_BUFSIZE efallback X).
Abbreviation chain := (@chain SC3_BUFSIZE efallback X).

Lemma new_stack_not_null st cause file ln msg :
  exists r, snd (new_stack st cause file ln msg) = Some r.
Proof.
  destruct (ErrorFacts.new_stack_cases SC3_BUFSIZE efallback st cause file ln
              msg) as [[_ ->]|(p & st' & -> & _)]; eexists; reflexivity.
Qed.

Lemma new_bug_is_some st file ln msg :
  exists r, snd (new_bug st file ln msg) = Some r.
Proof.
  unfold sc3_error_new_bug.
  destruct (ErrorFacts.new_kind_cases SC3_BUFSIZE efallback st SC3_ERROR_BUG
              file ln msg) as [[_ ->]|(p & st' & -> & _)];
    eexists; reflexivity.
Qed.

(** *** Chains of [SC3E] *)

Lemma SC3E_ok (f : expr X) ftext file ln w w1 :
  f w = (w1, None) -> SC3E f ftext file ln w = (w1, None).
Proof.
  intros H. unfold Macros.SC3E. rewrite H. destruct w1. reflexivity.
Qed.

Lemma SC3E_fail (f : expr X) ftext file ln w st1 x1 p :
  f w = (st1, x1, Some p) ->
  SC3E f ftext file ln w
  = (fst (new_stack st1 (Some p) file ln ftext), x1,
     Some (snd (new_stack st1 (Some p) file ln ftext))).
Proof.
  intros H. unfold Macros.SC3E. rewrite H.
  destruct (new_stack st1 (Some p) file ln ftext). reflexivity.
Qed.

Lemma chain_cons_ok file (s : site) l w w1 :
  call s w = (w1, None) -> chain file (s :: l) w = chain file l w1.
Proof.
  intros H. simpl. unfold then_. rewrite (SC3E_ok _ _ _ _ _ _ H).
  reflexivity.
Qed.

Lemma chain_cons_fail file (s : site) l w st1 x1 p :
  call s w = (st1, x1, Some p) ->
  chain file (s :: l) w
  = (fst (new_stack st1 (Some p) file (lineno s) (text s)), x1,
     snd (new_stack st1 (Some p) file (lineno s) (text s))).
Proof.
  intros H. simpl. unfold then_. rewrite (SC3E_fail _ _ _ _ _ _ _ _ H).
  reflexivity.
Qed.

Lemma chain_null file (l : list site) w w' :
  chain file l w = (w', None) <-> all_succeed l w w'.
Proof.
  revert w. induction l as [|s l IH]; intros w.
  - simpl. unfold return_. split.
    + intros [= <-]. constructor.
    + intros H. inversion H. reflexivity.
  - destruct (call s w) as [[st1 x1] [p|]] eqn:Hc.
    + rewrite (chain_cons_fail _ _ _ _ _ _ _ Hc).
      destruct (new_stack_not_null st1 (Some p) file (lineno s) (text s))
        as [r Hr].
      rewrite Hr. split; [discriminate|].
      intros H. inversion H; subst. congruence.
    + rewrite (chain_cons_ok _ _ _ _ _ Hc), IH. split.
      * intros H. econstructor; eassumption.
      * intros H. inversion H; subst.
        match goal with
        | H1 : call s w = _ |- _ => rewrite Hc in H1; injection H1 as <-
        end.
        assumption.
Qed.

Lemma chain_app_ok file (l l2 : list site) w w1 :
  all_succeed l w w1 -> chain file (l ++ l2) w = chain file l2 w1.
Proof.
  induction 1 as [|s l w w1 w' Hc _ IH]; [reflexivity|].
  rewrite <- app_comm_cons, (chain_cons_ok _ _ _ _ _ Hc). exact IH.
Qed.

Lemma chain_error file (l : list site) w w' r :
  chain file l w = (w', Some r) ->
  exists l1 s l2 w1 st1 x1 p,
    l = (l1 ++ s :: l2)%list /\ all_succeed l1 w w1 /\
    call s w1 = (st1, x1, Some p) /\
    w' = (fst (new_stack st1 (Some p) file (lineno s) (text s)), x1) /\
    Some r = snd (new_stack st1 (Some p) file (lineno s) (text s)).
Proof.
  revert w. induction l as [|s l IH]; intros w.
  - simpl. unfold return_. discriminate.
  - destruct (call s w) as [[st1 x1] [p|]] eqn:Hc.
    + rewrite (chain_cons_fail _ _ _ _ _ _ _ Hc). intros [= <- Hr].
      exists [], s, l, w, st1, x1, p.
      repeat split; [constructor|exact Hc|congruence].
    + rewrite (chain_cons_ok _ _ _ _ _ Hc). intros H.
      destruct (IH _ H) as (l1 & s' & l2 & w1 & st1' & x1' & p & -> & Ha & H').
      exists (s :: l1), s', l2, w1, st1', x1', p.
      split; [reflexivity|]. split; [|exact H'].
      econstructor; eassumption.
Qed.

(** X6.  A function whose body is [SC3E (f1); ...; SC3E (fn); return NULL;]
    returns [NULL] exactly when every call, made in this order, returns
    [NULL].  Otherwise it returns at the first call that fails: the state is
    the one that call left, changed only by the allocation of the returned
    error; the result is what [sc3_error_new_stack] makes of the failure at
    that line, never [NULL]; the calls after it are not made. *)
Theorem chain_stops_at_first_failure :
  forall (file : string) (l : list site) (w : estore * X),
    (forall w', chain file l w = (w', None) <-> all_succeed l w w') /\
    (forall l1 s l2 w1 st1 x1 p,
        l = (l1 ++ s :: l2)%list ->
        all_succeed l1 w w1 ->
        call s w1 = (st1, x1, Some p) ->
        chain file l w
        = (fst (new_stack st1 (Some p) file (lineno s) (text s)), x1,
           snd (new_stack st1 (Some p) file (lineno s) (text s))) /\
        snd (new_stack st1 (Some p) file (lineno s) (text s)) <> None) /\
    (forall w' r,
        chain file l w = (w', Some r) ->
        exists l1 s l2 w1 st1 x1 p,
          l = (l1 ++ s :: l2)%list /\ all_succeed l1 w w1 /\
          call s w1 = (st1, x1, Some p) /\
          w' = (fst (new_stack st1 (Some p) file (lineno s) (text s)), x1) /\
          Some r = snd (new_stack st1 (Some p) file (lineno s) (text s))).
Proof.
  intros file l w. split; [|split].
  - intros w'. apply chain_null.
  - intros l1 s l2 w1 st1 x1 p -> Ha Hc. split.
    + rewrite (chain_app_ok _ _ _ _ _ Ha). apply chain_cons_fail. exact Hc.
    + destruct (new_stack_not_null st1 (Some p) file (lineno s) (text s))
        as [r ->]. discriminate.
  - intros w' r. apply chain_error.
Qed.

(** *** Errors stacked by nested calls *)

Lemma wraps_allocated st o a st' r sites p :
  allocated st o a st' ->
  wraps SC3_BUFSIZE st r sites p -> wraps SC3_BUFSIZE st' r sites p.
Proof.
  intros Hal. induction 1 as [p|r o' t ln rest q p Ho Hk Hs Hm Hl Hst _ IH].
  - constructor.
  - econstructor; try eassumption.
    eapply ErrorFacts.allocated_old; eassumption.
Qed.

(** X7.  The error that comes out of nested calls records the path.  When a
    call fails with the error [p] and is reached through functions that wrap
    it in [SC3E] at the given sites, and the allocator can serve one request
    per site, the outermost function returns an error from which, following
    the causes, one finds one FATAL error per site, outermost first, each
    with the text and line of its site, and then [p].  Every error object
    that existed is unchanged. *)
Theorem nested_calls_stack_errors :
  forall (file : string) (sites : list (string * Z)) (f : expr X)
         (w : estore * X) (st1 : estore) (x1 : X) (p : positive),
    f w = (st1, x1, Some p) ->
    (length sites <= avail st1)%nat ->
    exists st' r,
      nested SC3_BUFSIZE efallback file sites f w = (st', x1, Some r) /\
      wraps SC3_BUFSIZE st' r sites p /\
      (forall q o, objs st1 !! q = Some o -> objs st' !! q = Some o) /\
      (avail st' + length sites = avail st1)%nat.
Proof.
  intros file sites f w st1 x1 p Hf.
  induction sites as [|[t ln] rest IH]; intros Hav.
  - exists st1, p. split; [exact Hf|]. split; [constructor|].
    split; [auto|simpl; lia].
  - simpl in Hav.
    destruct IH as (st2 & r2 & Hn & Hw & Hold & Hav2); [lia|].
    simpl. unfold then_, return_.
    rewrite (SC3E_fail _ _ _ _ _ _ _ _ Hn).
    destruct (ErrorFacts.new_stack_cases SC3_BUFSIZE efallback st2 (Some r2)
                file ln t) as [[H0 _]|(r3 & st3 & -> & Hal)]; [lia|].
    simpl. exists st3, r3. split; [reflexivity|]. split; [|split].
    + econstructor;
        [eapply ErrorFacts.allocated_new; exact Hal|reflexivity..|].
      eapply wraps_allocated; eassumption.
    + intros q o Hq. eapply ErrorFacts.allocated_old; [exact Hal|].
      apply Hold. exact Hq.
    + destruct Hal as [_ _ Hal]. lia.
Qed.

(** *** Cleanup sequences *)

Abbreviation run_keep := (@run_keep SC3_BUFSIZE efallback X).
Abbreviation run_keeps := (@run_keeps SC3_BUFSIZE efallback X).

Lemma run_keep_set file k w a : run_keep file k w (Some a) = (w, Some a).
Proof. destruct k; reflexivity. Qed.

Lemma run_keeps_set file l w a : run_keeps file l w (Some a) = (w, Some a).
Proof.
  revert w. induction l as [|k l IH]; intros w; [reflexivity|].
  simpl. rewrite run_keep_set. apply IH.
Qed.

Lemma run_keep_null file k w w' :
  run_keep file k w None = (w', None) <-> keep_succeeds k w w'.
Proof.
  destruct k as [f ftext ln|x xtext ln]; simpl.
  - unfold SC3E_NULL_SET, SC3E_SET.
    destruct (f w) as [[st1 x1] [p|]].
    + destruct (new_stack_not_null st1 (Some p) file ln ftext) as [r Hr].
      destruct (new_stack st1 (Some p) file ln ftext) as [st2 r2].
      simpl in Hr. subst r2. split; discriminate.
    + split; intros [= <-]; reflexivity.
  - unfold SC3E_NULL_REQ.
    destruct (x w) as [[st1 x1] [|]].
    + split; intros [= <-]; reflexivity.
    + destruct (new_bug_is_some st1 file ln xtext) as [r Hr].
      destruct (new_bug st1 file ln xtext) as [st2 r2].
      simpl in Hr. subst r2. split; discriminate.
Qed.

Lemma run_keeps_app_ok file l l2 w w1 :
  keeps_succeed l w w1 ->
  run_keeps file (l ++ l2) w None = run_keeps file l2 w1 None.
Proof.
  induction 1 as [|k l w w1 w' Hk _ IH]; [reflexivity|].
  simpl. apply (run_keep_null file) in Hk. rewrite Hk. exact IH.
Qed.

Lemma run_keeps_null file l w w' :
  run_keeps file l w None = (w', None) <-> keeps_succeed l w w'.
Proof.
  revert w. induction l as [|k l IH]; intros w.
  - simpl. split.
    + intros [= <-]. constructor.
    + intros H. inversion H. reflexivity.
  - simpl. destruct (run_keep file k w None) as [w1 [e|]] eqn:Hk.
    + rewrite run_keeps_set. split; [discriminate|].
      intros H. inversion H; subst.
      match goal with
      | H1 : keep_succeeds k w _ |- _ => apply (run_keep_null file) in H1
      end.
      congruence.
    + rewrite IH. apply run_keep_null in Hk. split.
      * intros H. econstructor; eassumption.
      * intros H. inversion H; subst.
        match goal with
        | H1 : keep_succeeds k w _ |- _ =>
            apply (run_keep_null file) in H1;
            apply (run_keep_null file) in Hk;
            rewrite Hk in H1; injection H1 as <-
        end.
        assumption.
Qed.

(** X8.  A cleanup sequence of [SC3E_NULL_SET] and [SC3E_NULL_REQ]
    statements on one accumulator.  Entered with the accumulator set, the
    whole sequence changes nothing.  Entered with [NULL], the accumulator is
    [NULL] at the end exactly when every statement, in order, succeeded;
    as soon as one statement sets the accumulator, its value and the program
    state are final: no later expression or condition is evaluated. *)
Theorem cleanup_sequence_keeps_first_failure :
  forall (file : string) (l : list keep) (w : estore * X),
    (forall a, run_keeps file l w (Some a) = (w, Some a)) /\
    (forall w',
        run_keeps file l w None = (w', None) <-> keeps_succeed l w w') /\
    (forall l1 k l2 w1 w2 e,
        l = (l1 ++ k :: l2)%list ->
        keeps_succeed l1 w w1 ->
        run_keep file k w1 None = (w2, Some e) ->
        run_keeps file l w None = (w2, Some e)).
Proof.
  intros file l w. split; [|split].
  - intros a. apply run_keeps_set.
  - intros w'. apply run_keeps_null.
  - intros l1 k l2 w1 w2 e -> H1 Hk.
    rewrite (run_keeps_app_ok _ _ _ _ _ H1). simpl. rewrite Hk.
    apply run_keeps_set.
Qed.

(** *** Checks *)

Abbreviation bug_report := (bug_report SC3_BUFSIZE efallback).

Lemma new_bug_bug_report st file ln msg :
  exists st' r,
    new_bug st file ln msg = (st', Some r) /\
    bug_report st file ln msg st' r.
Proof.
  unfold Macros.bug_report, sc3_error_new_bug.
  destruct (ErrorFacts.new_kind_cases SC3_BUFSIZE efallback st SC3_ERROR_BUG
              file ln msg) as [[Hav ->]|(p & st' & -> & Hal)].
  - exists st, efallback. split; [reflexivity|].
    split; [reflexivity|]. split; [auto|].
    split; [intros H; contradiction|auto].
  - exists st', p. split; [reflexivity|]. split; [reflexivity|].
    split; [intros q o Hq; eapply ErrorFacts.allocated_old; eassumption|].
    split.
    + intros _.
      pose proof (ErrorFacts.allocated_new _ _ _ _ Hal) as Hp.
      eexists. split; [exact Hp|]. split; [reflexivity|].
      split; [reflexivity|].
      split; [apply BaseFacts.length_SC3_BUFCOPY|].
      split; [reflexivity|].
      assert (sc3_error_is_setup st' (Some p) = true) as Hs
          by (eapply ErrorFacts.allocated_is_setup;
              [exact Hal|left; reflexivity]).
      unfold sc3_error_is_fatal. rewrite Hs. simpl. rewrite Hp. reflexivity.
    + intros Hav. destruct Hal as [_ _ Hal]. congruence.
Qed.

(** X9.  The checks that return.  A condition that holds lets
    [SC3E_DEMAND], and [SC3A_CHECK] in a debug build, fall through with the
    state its evaluation left.  A condition that fails makes them return the
    error of [sc3_error_new_bug] for their line, with the message
    ["#x: s"] cut to the buffer, respectively [#x]; [SC3E_UNREACH] always
    returns such an error, with the message ["Unreachable: s"].  The error
    is never [NULL], changes no error object that existed, and is a fatal
    BUG error when it is allocated.  Without debugging [SC3A_CHECK] and
    [SC3A_STACK] evaluate nothing at all; with debugging [SC3A_STACK] is
    [SC3E]. *)
Theorem checks_return_bug_errors :
  forall (x : cond) (xtext s file : string) (ln : Z) (f : expr X)
         (ftext : string) (w : estore * X),
    (forall w1,
        x w = (w1, true) ->
        SC3E_DEMAND SC3_BUFSIZE efallback x xtext s file ln w = (w1, None) /\
        (SC_ENABLE_DEBUG = true ->
         SC3A_CHECK SC3_BUFSIZE efallback SC_ENABLE_DEBUG x xtext file ln w
         = (w1, None))) /\
    (forall st1 x1,
        x w = (st1, x1, false) ->
        (exists st2 r,
            SC3E_DEMAND SC3_BUFSIZE efallback x xtext s file ln w
            = (st2, x1, Some (Some r)) /\
            bug_report st1 file ln
              (Base.sc3_snprintf SC3_BUFSIZE (Base.fmt_demand xtext s))
              st2 r) /\
        (SC_ENABLE_DEBUG = true ->
         exists st2 r,
           SC3A_CHECK SC3_BUFSIZE efallback SC_ENABLE_DEBUG x xtext file ln w
           = (st2, x1, Some (Some r)) /\
           bug_report st1 file ln xtext st2 r)) /\
    (exists st2 r,
        SC3E_UNREACH SC3_BUFSIZE efallback s file ln w
        = (st2, snd w, Some (Some r)) /\
        bug_report (fst w) file ln
          (Base.sc3_snprintf SC3_BUFSIZE ("Unreachable: " ++ s)) st2 r) /\
    (SC_ENABLE_DEBUG = false ->
     SC3A_CHECK SC3_BUFSIZE efallback SC_ENABLE_DEBUG x xtext file ln w
     = (w, None) /\
     SC3A_STACK SC3_BUFSIZE efallback SC_ENABLE_DEBUG f ftext file ln w
     = (w, None)) /\
    (SC_ENABLE_DEBUG = true ->
     SC3A_STACK SC3_BUFSIZE efallback SC_ENABLE_DEBUG f ftext file ln w
     = SC3E f ftext file ln w).
Proof.
  intros x xtext s file ln f ftext w.
  split; [|split; [|split; [|split]]].
  - intros w1 Hx. unfold SC3E_DEMAND, SC3A_CHECK. rewrite Hx.
    destruct w1 as [st1 x1]. split; [reflexivity|].
    intros ->. rewrite Hx. reflexivity.
  - intros st1 x1 Hx. split.
    + destruct (new_bug_bug_report st1 file ln
                  (Base.sc3_snprintf SC3_BUFSIZE (Base.fmt_demand xtext s)))
        as (st2 & r & Hb & Hr).
      exists st2, r. split; [|exact Hr].
      unfold SC3E_DEMAND. rewrite Hx, Hb. reflexivity.
    + intros ->.
      destruct (new_bug_bug_report st1 file ln xtext)
        as (st2 & r & Hb & Hr).
      exists st2, r. split; [|exact Hr].
      unfold SC3A_CHECK. rewrite Hx, Hb. reflexivity.
  - destruct (new_bug_bug_report (fst w) file ln
                (Base.sc3_snprintf SC3_BUFSIZE ("Unreachable: " ++ s)))
      as (st2 & r & Hb & Hr).
    exists st2, r. split; [|exact Hr].
    unfold SC3E_UNREACH. rewrite Hb. reflexivity.
  - intros ->. split; reflexivity.
  - intros ->. reflexivity.
Qed.

(** *** Pointer arguments *)

Lemma checked_cases {C : Type} c ctext file ln st (k : ptr_result C) :
  (SC_ENABLE_DEBUG && negb c = false /\
   checked SC3_BUFSIZE efallback SC_ENABLE_DEBUG c ctext file ln st k = k) \/
  (SC_ENABLE_DEBUG = true /\ c = false /\
   exists st' r,
     checked SC3_BUFSIZE efallback SC_ENABLE_DEBUG c ctext file ln st k
     = Exits st' (Some r) /\
     bug_report st file ln ctext st' r).
Proof.
  unfold checked.
  destruct (SC_ENABLE_DEBUG && negb c) eqn:Hc.
  - right. apply andb_true_iff in Hc as [Hd Hn].
    apply negb_true_iff in Hn. split; [exact Hd|]. split; [exact Hn|].
    destruct (new_bug_bug_report st file ln ctext) as (st' & r & Hb & Hr).
    exists st', r. rewrite Hb. split; [reflexivity|exact Hr].
  - left. split; reflexivity.
Qed.

Lemma checked_no_crash {C : Type} c ctext file ln st (k : ptr_result C) :
  SC_ENABLE_DEBUG = true ->
  (c = true -> k <> Crashes) ->
  checked SC3_BUFSIZE efallback SC_ENABLE_DEBUG c ctext file ln st k
  <> Crashes.
Proof.
  intros Hd Hk.
  destruct (checked_cases c ctext file ln st k)
    as [[Hc ->]|(_ & _ & st' & r & -> & _)]; [|discriminate].
  rewrite Hd in Hc. simpl in Hc. apply negb_false_iff in Hc. auto.
Qed.

(** X10.  Moving a handle out of a cell.  In a debug build none of the
    pointer macros dereferences [NULL].  [SC3E_INULLP] falls through
    exactly on a cell that holds an object: the variable receives the handle
    and the cell is left [NULL]; on a [NULL] pointer or a cell holding [NULL]
    it returns a BUG error and writes nothing.  [SC3E_ONULLP] moves whatever
    the cell holds, [NULL] included.  In a release build nothing is checked:
    [SC3E_INULLP] on a cell holding [NULL] falls through with a [NULL]
    handle, a [NULL] pointer is dereferenced, and [SC3A_ONULL] does not write
    the cell at all. *)
Theorem handles_are_moved :
  forall (A : Type) (pp : option (option A)) (pptext file : string) (ln : Z)
         (st : estore),
    (SC_ENABLE_DEBUG = true ->
     SC3E_INULLP SC3_BUFSIZE efallback SC_ENABLE_DEBUG pp pptext file ln st
     <> Crashes /\
     SC3E_INOUTP SC3_BUFSIZE efallback SC_ENABLE_DEBUG pp pptext file ln st
     <> Crashes /\
     SC3E_ONULLP SC3_BUFSIZE efallback SC_ENABLE_DEBUG pp pptext file ln st
     <> Crashes /\
     SC3A_ONULL SC3_BUFSIZE efallback SC_ENABLE_DEBUG pp pptext file ln st
     <> Crashes) /\
    (forall a,
        pp = Some (Some a) ->
        SC3E_INULLP SC3_BUFSIZE efallback SC_ENABLE_DEBUG pp pptext file ln st
        = Falls (Some None, Some a) /\
        SC3E_INOUTP SC3_BUFSIZE efallback SC_ENABLE_DEBUG pp pptext file ln st
        = Falls (Some (Some a), Some a)) /\
    (SC_ENABLE_DEBUG = true ->
     holds_object pp = false ->
     exists st' r,
       SC3E_INULLP SC3_BUFSIZE efallback SC_ENABLE_DEBUG pp pptext file ln st
       = Exits st' (Some r) /\
       bug_report st file ln (both_not_null_text pptext) st' r) /\
    (forall c,
        pp = Some c ->
        SC3E_ONULLP SC3_BUFSIZE efallback SC_ENABLE_DEBUG pp pptext file ln st
        = Falls (Some None, c)) /\
    (SC_ENABLE_DEBUG = false ->
     (pp = Some None ->
      SC3E_INULLP SC3_BUFSIZE efallback SC_ENABLE_DEBUG pp pptext file ln st
      = Falls (Some None, None)) /\
     (pp = None ->
      SC3E_INULLP SC3_BUFSIZE efallback SC_ENABLE_DEBUG pp pptext file ln st
      = Crashes) /\
     SC3A_ONULL SC3_BUFSIZE efallback SC_ENABLE_DEBUG pp pptext file ln st
     = Falls pp).
Proof.
  intros A pp pptext file ln st.
  split; [|split; [|split; [|split]]].
  - intros Hd.
    unfold SC3E_INULLP, SC3E_INOUTP, SC3E_ONULLP, SC3A_ONULL.
    replace (if SC_ENABLE_DEBUG
             then checked SC3_BUFSIZE efallback SC_ENABLE_DEBUG
                    (bool_decide (pp <> None)) (not_null_text pptext)
                    file ln st
                    match pp with
                    | Some _ => Falls (Some (@None A))
                    | None => Crashes
                    end
             else Falls pp)
      with (checked SC3_BUFSIZE efallback SC_ENABLE_DEBUG
              (bool_decide (pp <> None)) (not_null_text pptext)
              file ln st
              match pp with
              | Some _ => Falls (Some (@None A))
              | None => Crashes
              end)
      by (rewrite Hd; reflexivity).
    repeat split; apply checked_no_crash; try exact Hd;
      destruct pp as [[a|]|]; simpl; intros Hc;
      try discriminate; try (apply bool_decide_eq_true_1 in Hc; congruence).
  - intros a ->. unfold SC3E_INULLP, SC3E_INOUTP, checked. simpl.
    rewrite andb_false_r. split; reflexivity.
  - intros Hd Hh. unfold SC3E_INULLP.
    destruct (checked_cases (holds_object pp) (both_not_null_text pptext)
                file ln st
                (match pp with
                 | Some c => Falls (Some (@None A), c)
                 | None => Crashes
                 end))
      as [[Hc _]|(_ & _ & st' & r & -> & Hr)].
    + rewrite Hd, Hh in Hc. discriminate.
    + exists st', r. split; [reflexivity|exact Hr].
  - intros c ->. unfold SC3E_ONULLP, checked. simpl.
    rewrite andb_false_r. reflexivity.
  - intros Hd. unfold SC3E_INULLP, SC3A_ONULL, checked. rewrite Hd. simpl.
    split; [intros ->; reflexivity|].
    split; [intros ->; reflexivity|reflexivity].
Qed.

End Facts.

(** *** The theorems at concrete programs *)

(** X6 on three cleanup calls, the second of which destroys an error that
    is still referenced. *)
Lemma chain_witness :
  exists w1 st1 p,
    Samples.cleanup 2 (Samples.store1 2, O) = (w1, None) /\
    Samples.cleanup 3 w1 = (st1, 2%nat, Some p) /\
    chain Samples.BUFSIZE 1 "a.c"
      [mk_site (Samples.cleanup 2) "sc3_error_destroy (&a)" 10;
       mk_site (Samples.cleanup 3) "sc3_error_destroy (&b)" 11;
       mk_site (Samples.cleanup 2) "sc3_error_destroy (&a)" 12]
      (Samples.store1 2, O)
    = (fst (sc3_error_new_stack Samples.BUFSIZE 1 st1 (Some p) "a.c" 11
              "sc3_error_destroy (&b)"), 2%nat,
       snd (sc3_error_new_stack Samples.BUFSIZE 1 st1 (Some p) "a.c" 11
              "sc3_error_destroy (&b)")) /\
    snd (sc3_error_new_stack Samples.BUFSIZE 1 st1 (Some p) "a.c" 11
           "sc3_error_destroy (&b)") <> None.
Proof.
  assert (Samples.cleanup 2 (Samples.store1 2, O)
          = (fst (Samples.cleanup 2 (Samples.store1 2, O)), None))
    as H2 by (vm_compute; reflexivity).
  assert (Samples.cleanup 3 (fst (Samples.cleanup 2 (Samples.store1 2, O)))
          = (fst (fst (Samples.cleanup 3
                         (fst (Samples.cleanup 2 (Samples.store1 2, O))))),
             2%nat, Some 4%positive))
    as H3 by (vm_compute; reflexivity).
  eexists _, _, _. split; [exact H2|]. split; [exact H3|].
  destruct (@chain_stops_at_first_failure Samples.BUFSIZE 1 nat "a.c"
              [mk_site (Samples.cleanup 2) "sc3_error_destroy (&a)" 10;
               mk_site (Samples.cleanup 3) "sc3_error_destroy (&b)" 11;
               mk_site (Samples.cleanup 2) "sc3_error_destroy (&a)" 12]
              (Samples.store1 2, O)) as (_ & H & _).
  eapply (H [mk_site (Samples.cleanup 2) "sc3_error_destroy (&a)" 10]
            (mk_site (Samples.cleanup 3) "sc3_error_destroy (&b)" 11)
            [mk_site (Samples.cleanup 2) "sc3_error_destroy (&a)" 12]).
  - reflexivity.
  - econstructor; [exact H2|constructor].
  - exact H3.
Defined.

(** X7 on a failing cleanup call reached through two functions. *)
Lemma nested_witness :
  exists st1 p,
    Samples.cleanup 3 (Samples.store1 5, O) = (st1, 1%nat, Some p) /\
    (length [("inner (&b)", 20); ("leaf (&b)", 30)] <= avail st1)%nat /\
    exists st' r,
      nested Samples.BUFSIZE 1 "a.c" [("inner (&b)", 20); ("leaf (&b)", 30)]
        (Samples.cleanup 3) (Samples.store1 5, O) = (st', 1%nat, Some r) /\
      wraps Samples.BUFSIZE st' r [("inner (&b)", 20); ("leaf (&b)", 30)] p.
Proof.
  assert (Samples.cleanup 3 (Samples.store1 5, O)
          = (fst (fst (Samples.cleanup 3 (Samples.store1 5, O))), 1%nat,
             Some 4%positive))
    as Hf by (vm_compute; reflexivity).
  assert (length [("inner (&b)", 20); ("leaf (&b)", 30)]
          <= avail (fst (fst (Samples.cleanup 3 (Samples.store1 5, O)))))%nat
    as Hav by (vm_compute; lia).
  eexists _, _. split; [exact Hf|]. split; [exact Hav|].
  destruct (@nested_calls_stack_errors Samples.BUFSIZE 1 nat "a.c"
              [("inner (&b)", 20); ("leaf (&b)", 30)] (Samples.cleanup 3)
              (Samples.store1 5, O) _ _ _ Hf Hav)
    as (st' & r & Hn & Hw & _).
  exists st', r. split; [exact Hn|exact Hw].
Defined.

(** X8 on three cleanup statements, the second of which fails. *)
Lemma cleanup_sequence_witness :
  exists w1 w2 e,
    Samples.cleanup 2 (Samples.store1 2, O) = (w1, None) /\
    run_keep Samples.BUFSIZE 1 "a.c"
      (null_set (Samples.cleanup 3) "sc3_error_destroy (&b)" 11) w1 None
    = (w2, Some e) /\
    run_keeps Samples.BUFSIZE 1 "a.c"
      [null_set (Samples.cleanup 2) "sc3_error_destroy (&a)" 10;
       null_set (Samples.cleanup 3) "sc3_error_destroy (&b)" 11;
       null_set (Samples.cleanup 2) "sc3_error_destroy (&a)" 12]
      (Samples.store1 2, O) None
    = (w2, Some e) /\
    snd w2 = 2%nat.
Proof.
  assert (Samples.cleanup 2 (Samples.store1 2, O)
          = (fst (Samples.cleanup 2 (Samples.store1 2, O)), None))
    as H2 by (vm_compute; reflexivity).
  assert (run_keep Samples.BUFSIZE 1 "a.c"
            (null_set (Samples.cleanup 3) "sc3_error_destroy (&b)" 11)
            (fst (Samples.cleanup 2 (Samples.store1 2, O))) None
          = (fst (run_keep Samples.BUFSIZE 1 "a.c"
                    (null_set (Samples.cleanup 3) "sc3_error_destroy (&b)" 11)
                    (fst (Samples.cleanup 2 (Samples.store1 2, O))) None),
             Some 5%positive))
    as H3 by (vm_compute; reflexivity).
  eexists _, _, _. split; [exact H2|]. split; [exact H3|].
  destruct (@cleanup_sequence_keeps_first_failure Samples.BUFSIZE 1 nat "a.c"
              [null_set (Samples.cleanup 2) "sc3_error_destroy (&a)" 10;
               null_set (Samples.cleanup 3) "sc3_error_destroy (&b)" 11;
               null_set (Samples.cleanup 2) "sc3_error_destroy (&a)" 12]
              (Samples.store1 2, O)) as (_ & _ & H).
  split; [|vm_compute; reflexivity].
  eapply (H [null_set (Samples.cleanup 2) "sc3_error_destroy (&a)" 10]
            (null_set (Samples.cleanup 3) "sc3_error_destroy (&b)" 11)
            [null_set (Samples.cleanup 2) "sc3_error_destroy (&a)" 12]).
  - reflexivity.
  - econstructor; [exact H2|constructor].
  - exact H3.
Defined.

(** X9 on the condition that no cleanup call was counted yet, in a state
    where one was. *)
Lemma checks_witness :
  exists st2 r,
    SC3E_DEMAND Samples.BUFSIZE 1 (fun w => (w, Nat.eqb (snd w) 0))
      "calls == 0" "No cleanup yet" "a.c" 40 (Samples.store1 2, 1%nat)
    = (st2, 1%nat, Some (Some r)) /\
    bug_report Samples.BUFSIZE 1 (Samples.store1 2) "a.c" 40
      (Base.sc3_snprintf Samples.BUFSIZE
         (Base.fmt_demand "calls == 0" "No cleanup yet")) st2 r.
Proof.
  destruct (@checks_return_bug_errors Samples.BUFSIZE 1 true nat
              (fun w => (w, Nat.eqb (snd w) 0)) "calls == 0"
              "No cleanup yet" "a.c" 40 (Samples.cleanup 3) "f ()"
              (Samples.store1 2, 1%nat)) as (_ & H & _).
  destruct (H (Samples.store1 2) 1%nat eq_refl) as [Hd _].
  exact Hd.
Defined.

(** X10 on a cell that holds [NULL], in a debug build. *)
Lemma handles_witness :
  holds_object (Some (@None nat)) = false /\
  exists st' r,
    SC3E_INULLP Samples.BUFSIZE 1 true (Some (@None nat)) "pp" "a.c" 50
      (Samples.store1 2)
    = Exits st' (Some r) /\
    bug_report Samples.BUFSIZE 1 (Samples.store1 2) "a.c" 50
      (both_not_null_text "pp") st' r.
Proof.
  split; [reflexivity|].
  destruct (handles_are_moved Samples.BUFSIZE 1 true nat (Some None) "pp"
              "a.c" 50 (Samples.store1 2)) as (_ & _ & H & _).
  exact (H eq_refl eq_refl).
Defined.

End MacrosFacts.

(* ===================================================================== *)
(** ** Facts about example/v3basics/log.c *)
(* ===================================================================== *)

Module LogFacts.

Import Error Macros LogExample.

Section Facts.

Variable SC3_BUFSIZE : nat.
Variable efallback : positive.
Variable FILE__ : string.
Variable fl : flags.
Context {X sc3_allocator_t sc3_log_t sc3_MPI_Comm_t : Type}.
Context {sc3_log_role_t sc3_log_level_t : Type}.
Variable lib :
  sc3_library X sc3_allocator_t sc3_log_t sc3_MPI_Comm_t sc3_log_role_t
    sc3_log_level_t.

Abbreviation new_stack := (sc3_error_new_stack SC3_BUFSIZE efallback).
Abbreviation fresh_error := (fresh_error SC3_BUFSIZE).
Abbreviation SC3E := (@SC3E SC3_BUFSIZE efallback X).
Abbreviation work_init_allocator :=
  (work_init_allocator SC3_BUFSIZE efallback FILE__ fl lib).
Abbreviation work_init_log :=
  (work_init_log SC3_BUFSIZE efallback FILE__ fl lib).
Abbreviation work_init := (work_init SC3_BUFSIZE efallback FILE__ fl lib).
Abbreviation work_work := (work_work SC3_BUFSIZE efallback FILE__ fl lib).
Abbreviation work_error := (work_error lib).
Abbreviation main_work_round :=
  (main_work_round SC3_BUFSIZE efallback FILE__ fl lib).

(** *** Where a body made of statements can return an error *)

Lemma then_SC3E_error (f : expr X) t file ln (k : @body X) w w' r :
  then_ (SC3E f t file ln) k w = (w', Some r) ->
  (exists st1 p,
      f w = (st1, snd w', Some p) /\
      new_stack st1 (Some p) file ln t = (fst w', Some r)) \/
  (exists w1, f w = (w1, None) /\ k w1 = (w', Some r)).
Proof.
  unfold then_, Macros.SC3E.
  destruct (f w) as [[st1 x1] [p|]] eqn:Hf.
  - destruct (sc3_error_new_stack SC3_BUFSIZE efallback st1 (Some p) file ln t)
      as [st2 r2] eqn:Hn.
    intros [= <- <-]. left. exists st1, p. split; [reflexivity|exact Hn].
  - intros H. right. exists (st1, x1). split; [reflexivity|exact H].
Qed.

Lemma then_when_error c (s : @step X) (k : @body X) w w' r :
  then_ (when_ c s) k w = (w', Some r) ->
  (c = true /\ then_ s k w = (w', Some r)) \/
  (c = false /\ k w = (w', Some r)).
Proof.
  destruct c; [left|right]; split; try reflexivity; exact H.
Qed.

Lemma then_do_error (f : estore * X -> estore * X) (k : @body X) w w' r :
  then_ (do_ f) k w = (w', Some r) -> k (f w) = (w', Some r).
Proof. intros H. exact H. Qed.

Lemma truth_true n : truth n = true -> n <> 0.
Proof.
  unfold truth. intros H. apply negb_true_iff in H.
  apply Z.eqb_neq. exact H.
Qed.

(** An error made by [SC3E] at the site [(t, ln)]: either the allocation
    failed, or the store holds a new FATAL error for the site. *)
Lemma new_stack_wraps st p ln t st' r :
  new_stack st (Some p) FILE__ ln t = (st', Some r) ->
  (avail st = O /\ st' = st /\ r = efallback) \/
  (allocated st (fresh_error SC3_ERROR_FATAL FILE__ ln t (Some p)) r st' /\
   wraps SC3_BUFSIZE st' r [(t, ln)] p).
Proof.
  intros H.
  destruct (ErrorFacts.new_stack_cases SC3_BUFSIZE efallback st (Some p)
              FILE__ ln t) as [[Hav He]|(r1 & st1 & He & Hal)];
    rewrite He in H; injection H as <- <-.
  - left. repeat split; assumption || reflexivity.
  - right. split; [exact Hal|].
    econstructor;
      [eapply ErrorFacts.allocated_new; exact Hal|reflexivity..|constructor].
Qed.

Lemma wraps_kept st o a st' r sites p :
  allocated st o a st' ->
  wraps SC3_BUFSIZE st r sites p -> wraps SC3_BUFSIZE st' r sites p.
Proof.
  intros Hal. induction 1 as [p|r o' t ln rest q p Ho Hk Hs Hm Hl Hst _ IH].
  - constructor.
  - econstructor; try eassumption.
    eapply ErrorFacts.allocated_old; eassumption.
Qed.

Lemma wraps_app st r l1 q l2 p :
  wraps SC3_BUFSIZE st r l1 q -> wraps SC3_BUFSIZE st q l2 p ->
  wraps SC3_BUFSIZE st r (l1 ++ l2) p.
Proof.
  induction 1 as [q|r o t ln rest q0 q Ho Hk Hs Hm Hl Hst _ IH]; intros H2.
  - exact H2.
  - simpl. econstructor; try eassumption. apply IH. exact H2.
Qed.

(** Two errors stacked one after the other by [SC3E]. *)
Lemma stacked_twice st0 p t2 ln2 st1 q t1 ln1 st2 r :
  new_stack st0 (Some p) FILE__ ln2 t2 = (st1, Some q) ->
  new_stack st1 (Some q) FILE__ ln1 t1 = (st2, Some r) ->
  r = efallback \/ wraps SC3_BUFSIZE st2 r [(t1, ln1); (t2, ln2)] p.
Proof.
  intros H2 H1.
  destruct (new_stack_wraps _ _ _ _ _ _ H1) as [(_ & _ & ->)|[Hal1 Hw1]];
    [left; reflexivity|].
  destruct (new_stack_wraps _ _ _ _ _ _ H2) as [(Hav & -> & ->)|[Hal2 Hw2]].
  - destruct Hal1 as [_ _ Hs]. rewrite Hav in Hs. discriminate.
  - right. apply (wraps_app _ _ [(t1, ln1)] q [(t2, ln2)] p); [exact Hw1|].
    eapply wraps_kept; eassumption.
Qed.

(** The error of [work_init_allocator] comes from one of its four calls, the
    last of which is made only with the flags [L] and [1]. *)
Lemma work_init_allocator_error align w w' r :
  work_init_allocator align w = (w', Some r) ->
  exists st1 p inner,
    new_stack st1 (Some p) FILE__ (snd inner) (fst inner) = (fst w', Some r) /\
    In inner work_init_allocator_sites /\
    (snd inner = 89 -> provoke_leaks fl <> 0 /\ provoke_which fl = 1).
Proof.
  unfold LogExample.work_init_allocator, work_init_allocator_sites.
  intros H.
  apply then_SC3E_error in H as [(st1 & p & _ & H)|(w1 & _ & H)];
    [exists st1, p, (call_83,
                     83);
     split; [exact H|]; split; [simpl; tauto|simpl; lia]|].
  apply then_SC3E_error in H as [(st1 & p & _ & H)|(w2 & _ & H)];
    [exists st1, p, (call_84, 84);
     split; [exact H|]; split; [simpl; tauto|simpl; lia]|].
  apply then_SC3E_error in H as [(st1 & p & _ & H)|(w3 & _ & H)];
    [exists st1, p, (call_85, 85);
     split; [exact H|]; split; [simpl; tauto|simpl; lia]|].
  apply then_when_error in H as [[Hc H]|[_ H]]; [|discriminate].
  apply andb_true_iff in Hc as [Hl Hw].
  apply truth_true in Hl. apply Z.eqb_eq in Hw.
  apply then_SC3E_error in H as [(st1 & p & _ & H)|(w4 & _ & H)];
    [|discriminate].
  exists st1, p, (call_89, 89).
  split; [exact H|]. split; [simpl; tauto|]. intros _. split; assumption.
Qed.

(** The error of [work_init_log] comes from one of its six calls; the
    custom log function is installed only with the flag [B]. *)
Lemma work_init_log_error mpicomm alloc indent w w' r :
  work_init_log mpicomm alloc indent w = (w', Some r) ->
  exists st1 p inner,
    new_stack st1 (Some p) FILE__ (snd inner) (fst inner) = (fst w', Some r) /\
    In inner work_init_log_sites /\
    (snd inner = 104 -> main_log_bare fl <> 0).
Proof.
  unfold LogExample.work_init_log, work_init_log_sites.
  intros H.
  apply then_SC3E_error in H as [(st1 & p & _ & H)|(w1 & _ & H)];
    [exists st1, p, (call_99, 99);
     split; [exact H|]; split; [simpl; tauto|simpl; lia]|].
  apply then_SC3E_error in H as [(st1 & p & _ & H)|(w2 & _ & H)];
    [exists st1, p, (call_100, 100);
     split; [exact H|]; split; [simpl; tauto|simpl; lia]|].
  apply then_SC3E_error in H as [(st1 & p & _ & H)|(w3 & _ & H)];
    [exists st1, p, (call_101, 101);
     split; [exact H|]; split; [simpl; tauto|simpl; lia]|].
  apply then_SC3E_error in H as [(st1 & p & _ & H)|(w4 & _ & H)];
    [exists st1, p, (call_102, 102);
     split; [exact H|]; split; [simpl; tauto|simpl; lia]|].
  apply then_when_error in H as [[Hc H]|[_ H]].
  - apply truth_true in Hc.
    apply then_SC3E_error in H as [(st1 & p & _ & H)|(w5 & _ & H)];
      [exists st1, p,
         (call_104,
          104);
       split; [exact H|]; split; [simpl; tauto|intros _; exact Hc]|].
    apply then_SC3E_error in H as [(st1 & p & _ & H)|(w6 & _ & H)];
      [|discriminate].
    exists st1, p, (call_106, 106).
    split; [exact H|]. split; [simpl; tauto|simpl; lia].
  - apply then_SC3E_error in H as [(st1 & p & _ & H)|(w6 & _ & H)];
      [|discriminate].
    exists st1, p, (call_106, 106).
    split; [exact H|]. split; [simpl; tauto|simpl; lia].
Qed.


(** *** What [work_error] answers *)

Lemma is_leak_stacked st k file ln t cause r st' :
  allocated st (fresh_error k file ln t cause) r st' ->
  k <> SC3_ERROR_LEAK ->
  sc3_error_is_leak st' (Some r) = false.
Proof.
  intros Hal Hk. unfold sc3_error_is_leak. simpl.
  rewrite (ErrorFacts.allocated_new _ _ _ _ Hal). simpl.
  rewrite bool_decide_eq_false_2 by exact Hk.
  apply andb_false_r.
Qed.

Lemma work_error_not_leak p log prefix w :
  sc3_error_is_leak (fst w) (Some p) = false ->
  snd (work_error (Some (Some p)) log prefix w) = 1 /\
  snd (fst (work_error (Some (Some p)) log prefix w)) = Some None.
Proof.
  intros H. unfold LogExample.work_error. rewrite H.
  destruct (sc3_error_destroy_noerr lib (fst w) p). split; reflexivity.
Qed.

Lemma work_error_leak p log prefix w :
  sc3_error_is_leak (fst w) (Some p) = true ->
  snd (work_error (Some (Some p)) log prefix w) = 0 /\
  snd (fst (work_error (Some (Some p)) log prefix w)) = Some None.
Proof.
  intros H. unfold LogExample.work_error. rewrite H.
  destruct (sc3_error_destroy_noerr lib (fst w) p). split; reflexivity.
Qed.


(** The leak that [sc3_error_destroy] reports. *)
Lemma destroy_leak st p o :
  objs st !! p = Some o -> alloced o = true ->
  sc3_error_is_setup st (Some p) = true ->
  1 < rc o -> avail st <> O ->
  exists st1 r,
    sc3_error_destroy SC3_BUFSIZE efallback st (Some p)
    = (st1, None, Some r) /\
    sc3_error_is_leak st1 (Some r) = true /\
    S (avail st1) = avail st.
Proof.
  intros Ho Ha Hs Hrc Hav.
  pose proof (ErrorFacts.unref_allocated SC3_BUFSIZE efallback st p o Ho Ha Hs)
    as Hun.
  assert ((1 <? rc o) = true) as Hlt by (apply Z.ltb_lt; exact Hrc).
  assert ((rc o =? 1) = false) as Hne by (apply Z.eqb_neq; lia).
  rewrite Hlt in Hun.
  unfold sc3_error_destroy. rewrite Hs. simpl. rewrite Ho. simpl.
  rewrite Ha, Hne. simpl. rewrite Hun.
  set (st1 := set_objs st (<[p := with_rc o (rc o - 1)]> (objs st))).
  destruct (ErrorFacts.new_kind_cases SC3_BUFSIZE efallback st1
              SC3_ERROR_LEAK here 0 "sc3_refcount_is_last")
    as [[Hav0 _]|(r & st2 & -> & Hal)]; [exfalso; apply Hav; exact Hav0|].
  exists st2, r. split; [reflexivity|].
  pose proof (ErrorFacts.allocated_new _ _ _ _ Hal) as Hr.
  assert (sc3_error_is_setup st2 (Some r) = true) as Hsr
      by (eapply ErrorFacts.allocated_is_setup; [exact Hal|left; reflexivity]).
  split.
  - unfold sc3_error_is_leak. rewrite Hsr. simpl. rewrite Hr. reflexivity.
  - destruct Hal as [_ _ Hal]. exact Hal.
Qed.

(** X13.  What [work_error] makes of an error.  It answers 1, for "unsafe
    to continue", exactly when it is handed an error that is not a leak,
    and 0 otherwise; a cell that holds an error is [NULL] afterwards, a
    [NULL] pointer or an empty cell is left alone.  The leak that
    [sc3_error_destroy] reports for an error with several references is
    accepted with 0; the same leak after it has passed through one [SC3E]
    is answered with 1. *)
Theorem work_error_accepts_bare_leaks :
  forall (log : option sc3_log_t) (prefix : string),
    (forall e w,
        (snd (work_error e log prefix w) = 1 <->
         exists p, e = Some (Some p) /\
                   sc3_error_is_leak (fst w) (Some p) = false) /\
        (snd (work_error e log prefix w) = 0 \/
         snd (work_error e log prefix w) = 1) /\
        snd (fst (work_error e log prefix w))
        = if holds_object e then Some None else e) /\
    (forall st p o x t ln,
        objs st !! p = Some o -> alloced o = true ->
        sc3_error_is_setup st (Some p) = true ->
        1 < rc o -> (2 <= avail st)%nat ->
        exists st1 r st2 r2,
          sc3_error_destroy SC3_BUFSIZE efallback st (Some p)
          = (st1, None, Some r) /\
          snd (work_error (Some (Some r)) log prefix (st1, x)) = 0 /\
          new_stack st1 (Some r) FILE__ ln t = (st2, Some r2) /\
          wraps SC3_BUFSIZE st2 r2 [(t, ln)] r /\
          snd (work_error (Some (Some r2)) log prefix (st2, x)) = 1).
Proof.
  intros log prefix. split.
  - intros e w. destruct e as [[p|]|].
    + destruct (sc3_error_is_leak (fst w) (Some p)) eqn:Hl.
      * destruct (work_error_leak p log prefix w Hl) as [H0 Hc].
        rewrite H0, Hc. split; [|split; [left; reflexivity|reflexivity]].
        split; [discriminate|].
        intros (q & [= <-] & Hq). congruence.
      * destruct (work_error_not_leak p log prefix w Hl) as [H1 Hc].
        rewrite H1, Hc. split; [|split; [right; reflexivity|reflexivity]].
        split; [|reflexivity].
        intros _. exists p. split; [reflexivity|exact Hl].
    + simpl. split; [|split; [left; reflexivity|reflexivity]].
      split; [discriminate|]. intros (q & [=] & _).
    + simpl. split; [|split; [left; reflexivity|reflexivity]].
      split; [discriminate|]. intros (q & [=] & _).
  - intros st p o x t ln Ho Ha Hs Hrc Hav.
    destruct (destroy_leak st p o Ho Ha Hs Hrc) as (st1 & r & Hd & Hl & Hav1);
      [lia|].
    destruct (new_stack st1 (Some r) FILE__ ln t) as [st2 [r2|]] eqn:Hn.
    + destruct (new_stack_wraps _ _ _ _ _ _ Hn) as [(Hav0 & _)|[Hal Hw]];
        [lia|].
      exists st1, r, st2, r2. split; [exact Hd|].
      split; [apply (work_error_leak r log prefix (st1, x)); exact Hl|].
      split; [exact Hn|]. split; [exact Hw|].
      apply (work_error_not_leak r2 log prefix (st2, x)).
      eapply is_leak_stacked; [exact Hal|discriminate].
    + destruct (ErrorFacts.new_stack_cases SC3_BUFSIZE efallback st1 (Some r)
                  FILE__ ln t) as [[_ He]|(r3 & st3 & He & _)];
        rewrite He in Hn; discriminate.
Qed.

End Facts.

(** *** The theorems on a concrete library *)



(** X13 on the error at address 3, which has two references. *)
Lemma work_error_witness :
  objs (Samples.store1 5) !! 3%positive
  = Some (Samples.heap_error 2 SC3_ERROR_RUNTIME None) /\
  sc3_error_is_setup (Samples.store1 5) (Some 3%positive) = true /\
  (2 <= avail (Samples.store1 5))%nat /\
  exists st1 r st2 r2,
    sc3_error_destroy Samples.BUFSIZE 1 (Samples.store1 5) (Some 3%positive)
    = (st1, None, Some r) /\
    snd (work_error LogSamples.sample_lib (Some (Some r)) (Some tt)
           "Work finalize" (st1, O)) = 0 /\
    sc3_error_new_stack Samples.BUFSIZE 1 st1 (Some r) "log.c" 155
      "sc3_log_ref (log)" = (st2, Some r2) /\
    snd (work_error LogSamples.sample_lib (Some (Some r2)) (Some tt)
           "Work finalize" (st2, O)) = 1.
Proof.
  assert (objs (Samples.store1 5) !! 3%positive
          = Some (Samples.heap_error 2 SC3_ERROR_RUNTIME None)) as Ho
      by reflexivity.
  assert (sc3_error_is_setup (Samples.store1 5) (Some 3%positive) = true)
    as Hs by reflexivity.
  assert (2 <= avail (Samples.store1 5))%nat as Hav by (simpl; lia).
  split; [exact Ho|]. split; [exact Hs|]. split; [exact Hav|].
  destruct (work_error_accepts_bare_leaks Samples.BUFSIZE 1 "log.c"
              LogSamples.sample_lib (Some tt) "Work finalize") as [_ H].
  destruct (H (Samples.store1 5) 3%positive _ O "sc3_log_ref (log)" 155
              Ho eq_refl Hs) as (st1 & r & st2 & r2 & Hd & H0 & Hn & _ & H1);
    [reflexivity|exact Hav|].
  exists st1, r, st2, r2. repeat split; assumption.
Defined.

End LogFacts.

(* ===================================================================== *)
(** ** Facts about the weight callbacks *)
(* ===================================================================== *)

Module PartitionFacts.

Import Partition.

Local Open Scope list_scope.

Section Facts.

Variable INT_MAX : Z.
Context {p4est_t p4est_topidx_t p4est_quadrant_t : Type}.

Abbreviation weigh_once :=
  (@weigh_once INT_MAX p4est_t p4est_topidx_t p4est_quadrant_t).

(** X14.  [weight_once] gives weight 1 to one call and 0 to all others.
    As long as the counter stays within [int], the calls for a list of
    quadrants all return, the counter has advanced by their number and the
    index is unchanged; the call number [i] returns 1 exactly when the
    counter it finds equals the index.  So the weights add up to 1 when the
    index lies between the counter at the start and at the end, and to 0
    otherwise: an index beyond the number of quadrants leaves the whole
    forest without weight. *)
Theorem weight_once_marks_one_call :
  forall (p4est : p4est_t) (qs : list (p4est_topidx_t * p4est_quadrant_t))
         (s : weights),
    weight_counter s + Z.of_nat (length qs) <= INT_MAX ->
    exists ws,
      weigh_once p4est qs s
      = Returns ({| weight_counter := weight_counter s + Z.of_nat (length qs);
                    weight_index := weight_index s |}, ws) /\
      length ws = length qs /\
      (forall i, (i < length qs)%nat ->
                 nth i ws 0
                 = if weight_counter s + Z.of_nat i =? weight_index s
                   then 1 else 0) /\
      total ws
      = if (weight_counter s <=? weight_index s)
           && (weight_index s <? weight_counter s + Z.of_nat (length qs))
        then 1 else 0.
Proof.
  intros p4est qs. induction qs as [|[t q] qs IH]; intros s Hmax.
  - exists []. simpl. rewrite Z.add_0_r. destruct s as [c i]. simpl.
    split; [reflexivity|]. split; [reflexivity|].
    split; [intros j Hj; lia|].
    destruct (c <=? i) eqn:H1; destruct (i <? c) eqn:H2; simpl;
      try reflexivity.
    apply Z.leb_le in H1. apply Z.ltb_lt in H2. lia.
  - cbn [length] in Hmax. rewrite Nat2Z.inj_succ in Hmax.
    cbn [Partition.weigh_once]. unfold weight_once.
    destruct (weight_counter s =? INT_MAX) eqn:Hc;
      [apply Z.eqb_eq in Hc; lia|].
    destruct (IH {| weight_counter := weight_counter s + 1;
                    weight_index := weight_index s |})
      as (ws & -> & Hlen & Hnth & Htot); [simpl; lia|].
    cbn [weight_counter weight_index] in *.
    eexists. split; [|split; [|split]].
    + cbn [length]. rewrite Nat2Z.inj_succ. do 3 f_equal. lia.
    + cbn [length]. rewrite Hlen. reflexivity.
    + intros [|j] Hj.
      * simpl. rewrite Z.add_0_r. reflexivity.
      * cbn [nth]. cbn [length] in Hj. rewrite Hnth by lia.
        rewrite Nat2Z.inj_succ.
        replace (weight_counter s + Z.succ (Z.of_nat j))
          with (weight_counter s + 1 + Z.of_nat j) by lia.
        reflexivity.
    + unfold total in *. cbn [fold_right length]. rewrite Htot.
      rewrite Nat2Z.inj_succ.
      destruct (weight_counter s =? weight_index s) eqn:He;
        destruct (weight_counter s + 1 <=? weight_index s) eqn:H1;
        destruct (weight_index s
                  <? weight_counter s + 1 + Z.of_nat (length qs)) eqn:H2;
        destruct (weight_counter s <=? weight_index s) eqn:H3;
        destruct (weight_index s
                  <? weight_counter s + Z.succ (Z.of_nat (length qs))) eqn:H4;
        cbn [andb]; try reflexivity; exfalso;
        repeat match goal with
               | H : (_ =? _) = true |- _ => apply Z.eqb_eq in H
               | H : (_ =? _) = false |- _ => apply Z.eqb_neq in H
               | H : (_ <=? _) = true |- _ => apply Z.leb_le in H
               | H : (_ <=? _) = false |- _ => apply Z.leb_gt in H
               | H : (_ <? _) = true |- _ => apply Z.ltb_lt in H
               | H : (_ <? _) = false |- _ => apply Z.ltb_ge in H
               end; lia.
Qed.

(** *** The arbitrary partition *)

Variable LOCIDX_MIN : Z.
Variable LOCIDX_MAX : Z.

Abbreviation fill_loop := (fill_loop LOCIDX_MIN LOCIDX_MAX).
Abbreviation arbitrary_partition :=
  (arbitrary_partition LOCIDX_MIN LOCIDX_MAX).

Lemma total_app l1 l2 : total (l1 ++ l2) = total l1 + total l2.
Proof.
  unfold total. induction l1 as [|a l1 IH]; simpl; [reflexivity|].
  rewrite IH. lia.
Qed.

Lemma seqZ_succ m (n : nat) :
  seqZ m (Z.of_nat (S n)) = m :: seqZ (m + 1) (Z.of_nat n).
Proof.
  rewrite seqZ_cons by lia. f_equal. f_equal; lia.
Qed.

Lemma total_seqZ m (n : nat) :
  2 * total (seqZ m (Z.of_nat n)) = Z.of_nat n * (2 * m + Z.of_nat n - 1).
Proof.
  revert m. induction n as [|n IH]; intros m.
  - reflexivity.
  - rewrite seqZ_succ. unfold total in *. cbn [fold_right].
    rewrite Z.mul_add_distr_l, IH. lia.
Qed.

Lemma fill_loop_fills (n : nat) :
  forall i pre rest last,
    0 <= i -> length pre = Z.to_nat i -> (n <= length rest)%nat ->
    i + Z.of_nat n <= LOCIDX_MAX ->
    LOCIDX_MIN <= last - total (seqZ (i + 1) (Z.of_nat n)) ->
    fill_loop n i (pre ++ rest) last
    = Returns (pre ++ seqZ (i + 1) (Z.of_nat n) ++ drop n rest,
               last - total (seqZ (i + 1) (Z.of_nat n))).
Proof.
  induction n as [|n IH]; intros i pre rest last Hi Hpre Hn Hmax Hmin.
  - simpl. rewrite drop_0, Z.sub_0_r. reflexivity.
  - destruct rest as [|x rest]; [simpl in Hn; lia|].
    pose proof (total_seqZ (i + 1 + 1) n) as Ht.
    rewrite seqZ_succ in Hmin |- *.
    unfold total in Hmin |- *. cbn [fold_right] in Hmin |- *.
    fold (total (seqZ (i + 1 + 1) (Z.of_nat n))) in Hmin |- *.
    assert (0 <= total (seqZ (i + 1 + 1) (Z.of_nat n))) as Hpos by nia.
    cbn [Partition.fill_loop].
    destruct (LOCIDX_MAX <? i + 1) eqn:H1; [apply Z.ltb_lt in H1; lia|].
    destruct (last - (i + 1) <? LOCIDX_MIN) eqn:H2;
      [apply Z.ltb_lt in H2; lia|].
    destruct (length (pre ++ x :: rest) <=? Z.to_nat i)%nat eqn:H3;
      [apply Nat.leb_le in H3; rewrite length_app in H3; simpl in H3; lia|].
    cbn [orb].
    rewrite insert_app_r_alt by lia.
    replace (Z.to_nat i - length pre)%nat with O by lia.
    change (<[0%nat := i + 1]> (x :: rest)) with ((i + 1) :: rest).
    replace (pre ++ (i + 1) :: rest) with ((pre ++ [i + 1]) ++ rest)
      by (rewrite <- app_assoc; reflexivity).
    rewrite IH.
    + rewrite <- app_assoc. cbn [drop app]. do 2 f_equal. lia.
    + lia.
    + rewrite length_app. simpl. lia.
    + simpl in Hn. lia.
    + lia.
    + lia.
Qed.

(** X15.  The arbitrary partition of the test hands out all quadrants.
    With [P] processes, an array of [P] entries and arithmetic that stays
    within [p4est_locidx_t], the array passed to [p4est_partition_given]
    gives [i + 1] quadrants to every process [i] but the last and the
    remaining [G - P (P - 1) / 2] to the last one, so its entries add up to
    the global number [G]; the check of line 144 lets the program continue
    exactly when [G] exceeds [P (P - 1) / 2]. *)
Theorem arbitrary_partition_hands_out_all :
  forall (P G : Z) (arr : list Z),
    1 <= P -> length arr = Z.to_nat P ->
    P - 1 <= LOCIDX_MAX ->
    LOCIDX_MIN <= G - P * (P - 1) / 2 ->
    arbitrary_partition P G arr
    = Returns (seqZ 1 (P - 1) ++ [G - P * (P - 1) / 2],
               P * (P - 1) / 2 <? G) /\
    total (seqZ 1 (P - 1) ++ [G - P * (P - 1) / 2]) = G.
Proof.
  intros P G arr HP Hlen Hmax Hmin.
  pose proof (total_seqZ 1 (Z.to_nat (P - 1))) as Ht.
  rewrite Z2Nat.id in Ht by lia.
  assert (P * (P - 1) / 2 = total (seqZ 1 (P - 1))) as Htri.
  { replace (P * (P - 1)) with (total (seqZ 1 (P - 1)) * 2) by lia.
    apply Z.div_mul. discriminate. }
  rewrite Htri in *.
  split.
  - unfold Partition.arbitrary_partition.
    destruct (P <? 1) eqn:H1; [apply Z.ltb_lt in H1; lia|].
    pose proof (fill_loop_fills (Z.to_nat (P - 1)) 0 [] arr G) as Hf.
    rewrite Z2Nat.id in Hf by lia.
    change (0 + 1) with 1 in Hf. cbn [app] in Hf.
    rewrite Hf; [|lia|reflexivity|lia|lia|exact Hmin].
    assert (exists x, drop (Z.to_nat (P - 1)) arr = [x]) as [x Hx].
    { pose proof (length_drop arr (Z.to_nat (P - 1))) as Hd.
      destruct (drop (Z.to_nat (P - 1)) arr) as [|x [|y l]] eqn:Hdr;
        simpl in Hd; try lia.
      exists x. reflexivity. }
    rewrite Hx.
    destruct (length (seqZ 1 (P - 1) ++ [x]) <=? Z.to_nat (P - 1))%nat
      eqn:H3;
      [apply Nat.leb_le in H3; rewrite length_app, length_seqZ in H3;
       simpl in H3; lia|].
    rewrite insert_app_r_alt by (rewrite length_seqZ; lia).
    rewrite length_seqZ.
    replace (Z.to_nat (P - 1) - Z.to_nat (P - 1))%nat with O by lia.
    change (<[0%nat := G - total (seqZ 1 (P - 1))]> [x])
      with [G - total (seqZ 1 (P - 1))].
    f_equal. f_equal.
    destruct (0 <? G - total (seqZ 1 (P - 1))) eqn:Ha;
      destruct (total (seqZ 1 (P - 1)) <? G) eqn:Hb; try reflexivity;
      exfalso;
      repeat match goal with
             | H : (_ <? _) = true |- _ => apply Z.ltb_lt in H
             | H : (_ <? _) = false |- _ => apply Z.ltb_ge in H
             end; lia.
  - rewrite total_app. unfold total at 2. simpl. lia.
Qed.

End Facts.

(** X14 on three quadrants, with the index at the second call. *)
Lemma weight_once_witness :
  1 + Z.of_nat (length [(tt, tt); (tt, tt); (tt, tt)]) <= 2147483647 /\
  exists ws,
    Partition.weigh_once 2147483647 tt [(tt, tt); (tt, tt); (tt, tt)]
      {| weight_counter := 1; weight_index := 2 |}
    = Returns ({| weight_counter := 4; weight_index := 2 |}, ws) /\
    total ws = 1.
Proof.
  assert (1 + Z.of_nat (length [(tt, tt); (tt, tt); (tt, tt)])
          <= 2147483647) as H by (simpl; lia).
  split; [exact H|].
  destruct (@weight_once_marks_one_call 2147483647 unit unit unit tt
              [(tt, tt); (tt, tt); (tt, tt)]
              {| weight_counter := 1; weight_index := 2 |} H)
    as (ws & Hw & _ & _ & Ht).
  exists ws. split; [exact Hw|exact Ht].
Defined.

(** X15 on four processes and 100 quadrants. *)
Lemma arbitrary_partition_witness :
  1 <= 4 /\ length [0; 0; 0; 0] = Z.to_nat 4 /\
  4 - 1 <= 2147483647 /\ -2147483648 <= 100 - 4 * (4 - 1) / 2 /\
  Partition.arbitrary_partition (-2147483648) 2147483647 4 100 [0; 0; 0; 0]
  = Returns ([1; 2; 3; 94], true) /\
  total [1; 2; 3; 94] = 100.
Proof.
  assert (1 <= 4) as H1 by lia.
  assert (length [0; 0; 0; 0] = Z.to_nat 4) as H2 by reflexivity.
  assert (4 - 1 <= 2147483647) as H3 by lia.
  assert (-2147483648 <= 100 - 4 * (4 - 1) / 2) as H4
      by (vm_compute; discriminate).
  split; [exact H1|]. split; [exact H2|]. split; [exact H3|].
  split; [exact H4|].
  exact (arbitrary_partition_hands_out_all (-2147483648) 2147483647 4 100
           [0; 0; 0; 0] H1 H2 H3 H4).
Defined.

End PartitionFacts.
